(** * Rashed dashboard server: a shallow embedding of the HTTP API layer

    The development follows the server sources

      - [server/routes.ts]  (route table, middlewares, handlers, upload filter),
      - [server/storage.ts] (the [DatabaseStorage] accessors),
      - [server/openai.ts]  (the AI-proxy module),
      - [shared/schema.ts]  (the eight relational tables),

    the dashboard page that issues the approve / reject requests, and, on
    the client side, [client/src/lib/openai.ts] (the calls to
    [/api/ai/chat], [extractCodeFromMarkdown], the log page), the chat
    message component's [hasCodeBlock], and the requests of the environment
    card and of the settings forms.

    JavaScript values are an inductive type, objects are association lists
    in property order, asynchronous code is a state-and-exception monad in
    which the effects of a computation that throws are kept (a session
    mutated before a [throw] stays mutated).  Everything outside the
    repository (the relational engine, the completion API, the clock, the
    random source, [JSON.parse], the validation library's error report) is
    a field of [Platform], over which every theorem quantifies.  Console
    output is not modelled. *)

From Stdlib Require Import String Ascii List ZArith QArith Qround Bool Lia DecimalString.
Import ListNotations.

Close Scope Q_scope.
Open Scope list_scope.
Open Scope string_scope.
Open Scope Z_scope.

Set Implicit Arguments.
Set Warnings "-register-all".

(* ===================================================================== *)
(** * JavaScript values *)
(* ===================================================================== *)

Module Js.

(** Numbers are rationals ([0.7] is [7 # 10]); [VNaN] is the result of a
    failed [parseInt].  [VDate] carries the epoch milliseconds. *)
Inductive Value : Type :=
| VUndefined
| VNull
| VBool (b : bool)
| VNum (q : Q)
| VNaN
| VStr (s : string)
| VDate (ms : Z)
| VArr (items : list Value)
| VObj (fields : list (string * Value)).

Definition VInt (z : Z) : Value := VNum (inject_Z z).

(** Errors: only [name] and [message] are ever observed by the code. *)
Inductive JsError : Type :=
| Error (message : string)
| TypeError (message : string)
| SyntaxError (message : string)
| MulterError (code message : string).

Definition message (e : JsError) : string :=
  match e with
  | Error m | TypeError m | SyntaxError m | MulterError _ m => m
  end.

(** [!!v] *)
Definition truthy (v : Value) : bool :=
  match v with
  | VUndefined | VNull | VNaN => false
  | VBool b => b
  | VNum q => negb (Qeq_bool q 0%Q)
  | VStr s => negb (String.eqb s "")
  | VDate _ | VArr _ | VObj _ => true
  end.

(** [a || b] *)
Definition or_else (a b : Value) : Value := if truthy a then a else b.

Fixpoint lookup (k : string) (fields : list (string * Value)) : option Value :=
  match fields with
  | [] => None
  | (k', v) :: rest => if String.eqb k k' then Some v else lookup k rest
  end.

(** Assignment of one property: an existing key keeps its position. *)
Fixpoint assign (k : string) (v : Value) (fields : list (string * Value))
  : list (string * Value) :=
  match fields with
  | [] => [(k, v)]
  | (k', v') :: rest =>
      if String.eqb k k' then (k, v) :: rest else (k', v') :: assign k v rest
  end.

(** [{ ...a, ...b }] on property lists. *)
Definition spread (a b : list (string * Value)) : list (string * Value) :=
  fold_left (fun acc kv => assign (fst kv) (snd kv) acc) b a.

(** The own enumerable properties that an object spread copies. *)
Definition own_fields (v : Value) : list (string * Value) :=
  match v with
  | VObj fs => fs
  | _ => []
  end.

(** [o.k] where [o] is known to be an object (or a primitive without that
    property): a missing property reads as [undefined]. *)
Definition prop (k : string) (o : Value) : Value :=
  match o with
  | VObj fs => match lookup k fs with Some v => v | None => VUndefined end
  | _ => VUndefined
  end.

Definition string_of_Z (z : Z) : string := NilZero.string_of_int (Z.to_int z).

(** The double-quote character, as a one-character string. *)
Definition dq : string := String (ascii_of_nat 34) EmptyString.

Definition is_integer (q : Q) : bool := Pos.eqb (Qden (Qred q)) 1.

Definition num_eqb (a b : Q) : bool := Qeq_bool a b.

End Js.
Export Js.

(* ===================================================================== *)
(** * Strings: the few library functions the server relies on *)
(* ===================================================================== *)

Module Str.

Definition is_upper (c : ascii) : bool :=
  let n := nat_of_ascii c in (Nat.leb 65 n && Nat.leb n 90)%bool.

Definition lower_ascii (c : ascii) : ascii :=
  if is_upper c then ascii_of_nat (nat_of_ascii c + 32) else c.

(** [String.prototype.toLowerCase] on the ASCII range.  The allow-list that
    uses it is pure ASCII and holds no [k], so the two non-ASCII code points
    that lower-case into ASCII cannot change a membership test. *)
Fixpoint toLowerCase (s : string) : string :=
  match s with
  | EmptyString => EmptyString
  | String c r => String (lower_ascii c) (toLowerCase r)
  end.

Fixpoint rev_chars (s : string) (acc : list ascii) : list ascii :=
  match s with
  | EmptyString => acc
  | String c r => rev_chars r (c :: acc)
  end.

Definition slash : ascii := "/"%char.
Definition dot : ascii := "."%char.

(** State of the backward scan of [path.extname] (POSIX flavour). *)
Record ExtScan := {
  startDot : Z;
  startPart : Z;
  endIx : Z;
  matchedSlash : bool;
  preDotState : Z;
  stopped : bool
}.

Definition ext_step (st : ExtScan) (i : Z) (c : ascii) : ExtScan :=
  if stopped st then st
  else if Ascii.eqb c slash then
    if negb (matchedSlash st)
    then {| startDot := startDot st; startPart := i + 1; endIx := endIx st;
            matchedSlash := matchedSlash st; preDotState := preDotState st;
            stopped := true |}
    else st
  else
    let st1 :=
      if endIx st =? -1
      then {| startDot := startDot st; startPart := startPart st; endIx := i + 1;
              matchedSlash := false; preDotState := preDotState st;
              stopped := false |}
      else st in
    if Ascii.eqb c dot then
      if startDot st1 =? -1
      then {| startDot := i; startPart := startPart st1; endIx := endIx st1;
              matchedSlash := matchedSlash st1; preDotState := preDotState st1;
              stopped := false |}
      else if negb (preDotState st1 =? 1)
      then {| startDot := startDot st1; startPart := startPart st1;
              endIx := endIx st1; matchedSlash := matchedSlash st1;
              preDotState := 1; stopped := false |}
      else st1
    else if negb (startDot st1 =? -1)
    then {| startDot := startDot st1; startPart := startPart st1;
            endIx := endIx st1; matchedSlash := matchedSlash st1;
            preDotState := -1; stopped := false |}
    else st1.

(** The loop [for (i = path.length - 1; i >= 0; --i)]: [rev] holds the
    characters from index [i] downwards. *)
Fixpoint ext_scan (rev : list ascii) (i : Z) (st : ExtScan) : ExtScan :=
  match rev with
  | [] => st
  | c :: rest => ext_scan rest (i - 1) (ext_step st i c)
  end.

Definition slice (s : string) (from to : Z) : string :=
  String.substring (Z.to_nat from) (Z.to_nat (to - from)) s.

(** [path.extname]: the text from the last dot of the last path component,
    empty when that component has no dot, starts with its only dot, or is
    [".."]. *)
Definition extname (path : string) : string :=
  let n := Z.of_nat (String.length path) in
  let st := ext_scan (rev_chars path []) (n - 1)
              {| startDot := -1; startPart := 0; endIx := -1;
                 matchedSlash := true; preDotState := 0; stopped := false |} in
  if ((startDot st =? -1) || (endIx st =? -1) || (preDotState st =? 0)
      || ((preDotState st =? 1) && (startDot st =? endIx st - 1)
          && (startDot st =? startPart st + 1)))%bool
  then ""
  else slice path (startDot st) (endIx st).

Fixpoint includes (x : string) (l : list string) : bool :=
  match l with
  | [] => false
  | y :: r => (String.eqb y x || includes x r)%bool
  end.

Fixpoint join (sep : string) (l : list string) : string :=
  match l with
  | [] => ""
  | [x] => x
  | x :: r => x ++ sep ++ join sep r
  end.

(** [s.split(sep)] for a one-character separator. *)
Fixpoint split_aux (sep : ascii) (s : string) (cur : string) : list string :=
  match s with
  | EmptyString => [cur]
  | String c r =>
      if Ascii.eqb c sep then cur :: split_aux sep r ""
      else split_aux sep r (cur ++ String c "")
  end.

Definition split (sep : ascii) (s : string) : list string := split_aux sep s "".

(** [parseInt(s)]: leading white space, an optional sign, an optional
    [0x] prefix, then the longest run of digits; [None] stands for [NaN]. *)
Definition is_space (c : ascii) : bool :=
  let n := nat_of_ascii c in
  (Nat.eqb n 32 || (Nat.leb 9 n && Nat.leb n 13))%bool.

Fixpoint trim_start (s : string) : string :=
  match s with
  | String c r => if is_space c then trim_start r else s
  | EmptyString => s
  end.

Definition digit_value (radix : Z) (c : ascii) : option Z :=
  let n := Z.of_nat (nat_of_ascii c) in
  let d := if (48 <=? n) && (n <=? 57) then Some (n - 48)
           else if (97 <=? n) && (n <=? 122) then Some (n - 87)
           else if (65 <=? n) && (n <=? 90) then Some (n - 55)
           else None in
  match d with
  | Some v => if v <? radix then Some v else None
  | None => None
  end.

Fixpoint digits (radix : Z) (s : string) (acc : option Z) : option Z :=
  match s with
  | EmptyString => acc
  | String c r =>
      match digit_value radix c with
      | Some d => digits radix r (Some (match acc with Some a => a * radix + d | None => d end))
      | None => acc
      end
  end.

Definition unsigned_int (s : string) : option Z :=
  match s with
  | String "0" (String "x" r) | String "0" (String "X" r) => digits 16 r None
  | _ => digits 10 s None
  end.

Definition parseInt (s : string) : option Z :=
  match trim_start s with
  | String "-" r => option_map Z.opp (unsigned_int r)
  | String "+" r => unsigned_int r
  | r => unsigned_int r
  end.

End Str.

(* ===================================================================== *)
(** * The world a request runs in *)
(* ===================================================================== *)

(** ** Chat messages, as the AI-proxy module and the session hold them *)

Inductive ChatRole := system | user | assistant.

Definition role_name (r : ChatRole) : string :=
  match r with
  | system => "system"
  | user => "user"
  | assistant => "assistant"
  end.

Record ChatMessage := { role : ChatRole; content : Value }.

Inductive ResponseFormat := text | json_object.

(** The [options] argument of [createChatCompletion]. *)
Record ChatOptions := {
  messages : list ChatMessage;
  model : option string;
  temperature : option Q;
  max_tokens : option Q;
  response_format : option ResponseFormat
}.

(** The body of the request sent to the completion API. *)
Record ChatParams := {
  p_model : string;
  p_messages : list ChatMessage;
  p_temperature : option Q;
  p_max_tokens : option Q;
  p_response_format : option ResponseFormat
}.

(** The session array holds only the two conversational roles
    ([SessionData.messages] in routes.ts). *)
Inductive SessionRole := s_user | s_assistant.

Record SessionMessage := {
  m_id : string;
  m_role : SessionRole;
  m_content : Value;
  m_timestamp : string
}.

(** ** The relational store *)

Inductive TableName :=
  users | projects | deployments | environments | integrations | activities
| approvals | logs.

Record Table := { rows : list Value; serial : Z }.

Record Database := {
  t_users : Table;
  t_projects : Table;
  t_deployments : Table;
  t_environments : Table;
  t_integrations : Table;
  t_activities : Table;
  t_approvals : Table;
  t_logs : Table
}.

Definition table (t : TableName) (d : Database) : Table :=
  match t with
  | users => t_users d
  | projects => t_projects d
  | deployments => t_deployments d
  | environments => t_environments d
  | integrations => t_integrations d
  | activities => t_activities d
  | approvals => t_approvals d
  | logs => t_logs d
  end.

Definition set_table (t : TableName) (x : Table) (d : Database) : Database :=
  match t with
  | users =>
      {| t_users := x; t_projects := t_projects d;
         t_deployments := t_deployments d; t_environments := t_environments d;
         t_integrations := t_integrations d; t_activities := t_activities d;
         t_approvals := t_approvals d; t_logs := t_logs d |}
  | projects =>
      {| t_users := t_users d; t_projects := x;
         t_deployments := t_deployments d; t_environments := t_environments d;
         t_integrations := t_integrations d; t_activities := t_activities d;
         t_approvals := t_approvals d; t_logs := t_logs d |}
  | deployments =>
      {| t_users := t_users d; t_projects := t_projects d;
         t_deployments := x; t_environments := t_environments d;
         t_integrations := t_integrations d; t_activities := t_activities d;
         t_approvals := t_approvals d; t_logs := t_logs d |}
  | environments =>
      {| t_users := t_users d; t_projects := t_projects d;
         t_deployments := t_deployments d; t_environments := x;
         t_integrations := t_integrations d; t_activities := t_activities d;
         t_approvals := t_approvals d; t_logs := t_logs d |}
  | integrations =>
      {| t_users := t_users d; t_projects := t_projects d;
         t_deployments := t_deployments d; t_environments := t_environments d;
         t_integrations := x; t_activities := t_activities d;
         t_approvals := t_approvals d; t_logs := t_logs d |}
  | activities =>
      {| t_users := t_users d; t_projects := t_projects d;
         t_deployments := t_deployments d; t_environments := t_environments d;
         t_integrations := t_integrations d; t_activities := x;
         t_approvals := t_approvals d; t_logs := t_logs d |}
  | approvals =>
      {| t_users := t_users d; t_projects := t_projects d;
         t_deployments := t_deployments d; t_environments := t_environments d;
         t_integrations := t_integrations d; t_activities := t_activities d;
         t_approvals := x; t_logs := t_logs d |}
  | logs =>
      {| t_users := t_users d; t_projects := t_projects d;
         t_deployments := t_deployments d; t_environments := t_environments d;
         t_integrations := t_integrations d; t_activities := t_activities d;
         t_approvals := t_approvals d; t_logs := x |}
  end.

(** ** Files in the uploads directory *)

Record DiskFile := {
  f_dir : string;
  f_name : string;
  f_data : string;
  f_mtime : Z
}.

(** ** Observable effects, in the order they happen *)

Inductive DbOp :=
| Select (t : TableName)
| Insert (t : TableName) (values : Value)
| Update (t : TableName) (changes : Value).

Inductive Effect :=
| DbQuery (op : DbOp)               (* a statement sent to the database *)
| ProxyCall (options : ChatOptions) (* [createChatCompletion] entered *)
| ApiCall (params : ChatParams)     (* a request sent to the completion API *)
| DiskWrite (dir name : string)     (* a file stored under the uploads directory *)
| DiskRead (path : string).

(** ** What the process cannot decide: environment and outside parties *)

Record Platform := {
  OPENAI_API_KEY : option string;
  OPENAI_API_KEY_ENV_VAR : option string;
  cwd : string;
  (** the answer of the completion API: a response object or an error text *)
  completions : ChatParams -> Value + string;
  (** [dbFault n = Some e]: the [n]-th statement is rejected with [e] *)
  dbFault : nat -> option string;
  (** the successive readings of the clock, in epoch milliseconds *)
  clock : nat -> Z;
  (** the successive results of [Math.random()] *)
  random : nat -> Q;
  (** [JSON.parse]: the parsed value, or the text of the [SyntaxError] *)
  JSON_parse : string -> Value + string;
  (** [String(v)] for the values whose rendering depends on the engine *)
  String_of : Value -> string;
  toISOString : Z -> string;
  (** [error.format()] of the validation library on a rejected body *)
  zod_format : Value -> Value
}.

(** ** What a request can change *)

Record State := {
  session_messages : option (list SessionMessage);  (* [req.session.messages] *)
  db : Database;
  uploads : list DiskFile;
  queries : nat;
  ticks : nat;
  draws : nat;
  trace : list Effect
}.

Definition with_session (m : option (list SessionMessage)) (s : State) : State :=
  {| session_messages := m; db := db s; uploads := uploads s;
     queries := queries s; ticks := ticks s; draws := draws s; trace := trace s |}.

Definition with_db (d : Database) (s : State) : State :=
  {| session_messages := session_messages s; db := d; uploads := uploads s;
     queries := queries s; ticks := ticks s; draws := draws s; trace := trace s |}.

Definition with_uploads (u : list DiskFile) (s : State) : State :=
  {| session_messages := session_messages s; db := db s; uploads := u;
     queries := queries s; ticks := ticks s; draws := draws s; trace := trace s |}.

Definition log_effect (e : Effect) (s : State) : State :=
  {| session_messages := session_messages s; db := db s; uploads := uploads s;
     queries := queries s; ticks := ticks s; draws := draws s;
     trace := (trace s ++ [e])%list |}.

Definition count_query (s : State) : State :=
  {| session_messages := session_messages s; db := db s; uploads := uploads s;
     queries := S (queries s); ticks := ticks s; draws := draws s; trace := trace s |}.

Definition count_tick (s : State) : State :=
  {| session_messages := session_messages s; db := db s; uploads := uploads s;
     queries := queries s; ticks := S (ticks s); draws := draws s; trace := trace s |}.

Definition count_draw (s : State) : State :=
  {| session_messages := session_messages s; db := db s; uploads := uploads s;
     queries := queries s; ticks := ticks s; draws := S (draws s); trace := trace s |}.

(* ===================================================================== *)
(** * Computations: state, exceptions, and the fixed platform *)
(* ===================================================================== *)

Inductive Result (A : Type) : Type :=
| Returned (a : A)
| Thrown (e : JsError).
Arguments Thrown {A} e.

(** A computation reads the platform, transforms the state, and either
    returns or throws; the state reached at a [throw] is kept. *)
Definition Comp (A : Type) : Type := Platform -> State -> Result A * State.

Definition ret {A} (a : A) : Comp A := fun _ s => (Returned a, s).

Definition throw {A} (e : JsError) : Comp A := fun _ s => (Thrown e, s).

Definition bind {A B} (m : Comp A) (k : A -> Comp B) : Comp B :=
  fun p s =>
    match m p s with
    | (Returned a, s') => k a p s'
    | (Thrown e, s') => (Thrown e, s')
    end.

(** [try { m } catch (e) { h e }] *)
Definition try_catch {A} (m : Comp A) (h : JsError -> Comp A) : Comp A :=
  fun p s =>
    match m p s with
    | (Returned a, s') => (Returned a, s')
    | (Thrown e, s') => h e p s'
    end.

Declare Scope comp_scope.
Delimit Scope comp_scope with comp.
Notation "x <- m ;; k" := (bind m (fun x => k))
  (at level 61, m at next level, right associativity) : comp_scope.
Notation "m ;; k" := (bind m (fun _ => k))
  (at level 61, right associativity) : comp_scope.
Open Scope comp_scope.

Definition platform : Comp Platform := fun p s => (Returned p, s).
Definition get_state : Comp State := fun _ s => (Returned s, s).
Definition modify (f : State -> State) : Comp unit := fun _ s => (Returned tt, f s).
Definition emit (e : Effect) : Comp unit := modify (log_effect e).

(** [Date.now()] / [new Date()] *)
Definition Date_now : Comp Z :=
  fun p s => (Returned (clock p (ticks s)), count_tick s).

(** [Math.random()] *)
Definition Math_random : Comp Q :=
  fun p s => (Returned (random p (draws s)), count_draw s).

(** [Math.round] *)
Definition Math_round (q : Q) : Z := Qfloor (q + (1 # 2))%Q.

(** [String(v)], as template literals and [+] on strings apply it. *)
Definition to_string (p : Platform) (v : Value) : string :=
  match v with
  | VStr s => s
  | VUndefined => "undefined"
  | VNull => "null"
  | VBool true => "true"
  | VBool false => "false"
  | VNaN => "NaN"
  | VNum q =>
      if is_integer q && (Z.abs (Qnum (Qred q)) <? 10 ^ 21)
      then string_of_Z (Qnum (Qred q))
      else String_of p v
  | _ => String_of p v
  end.

(** A computation without effects. *)
Definition lift {A} (r : Result A) : Comp A := fun _ s => (r, s).

Definition and_then {A B} (r : Result A) (k : A -> Result B) : Result B :=
  match r with
  | Returned a => k a
  | Thrown e => Thrown e
  end.

(** [o.k] as a member expression: reading a property of [undefined] or
    [null] throws. *)
Definition read_member (o : Value) (k : string) : Result Value :=
  match o with
  | VUndefined =>
      Thrown (TypeError ("Cannot read properties of undefined (reading '" ++ k ++ "')"))
  | VNull =>
      Thrown (TypeError ("Cannot read properties of null (reading '" ++ k ++ "')"))
  | _ => Returned (prop k o)
  end.

Definition member (o : Value) (k : string) : Comp Value := lift (read_member o k).

(** [a[i]] on an array value. *)
Definition read_index (a : Value) (i : nat) : Result Value :=
  match a with
  | VUndefined =>
      Thrown (TypeError ("Cannot read properties of undefined (reading '"
                         ++ string_of_Z (Z.of_nat i) ++ "')"))
  | VNull =>
      Thrown (TypeError ("Cannot read properties of null (reading '"
                         ++ string_of_Z (Z.of_nat i) ++ "')"))
  | VArr l => Returned (nth i l VUndefined)
  | _ => Returned VUndefined
  end.

Fixpoint mapM {A B} (f : A -> Comp B) (l : list A) : Comp (list B) :=
  match l with
  | [] => ret []
  | x :: r => y <- f x ;; ys <- mapM f r ;; ret (y :: ys)
  end.

(* ===================================================================== *)
(** * shared/schema.ts and the query builder *)
(* ===================================================================== *)

Module Schema.

Inductive ColType := serial_t | text_t | integer_t | timestamp_t | jsonb_t | text_array_t.

Inductive Default := defaultNow | default_of (v : Value).

(** One column: the property name of the row object, the column name in
    the table, and its constraints. *)
Record Column := {
  key : string;
  column : string;
  ctype : ColType;
  primaryKey : bool;
  notNull : bool;
  unique : bool;
  default : option Default;
  references : option TableName
}.

Definition col (k c : string) (t : ColType) : Column :=
  {| key := k; column := c; ctype := t; primaryKey := false; notNull := false;
     unique := false; default := None; references := None |}.

Definition id_col : Column :=
  {| key := "id"; column := "id"; ctype := serial_t; primaryKey := true;
     notNull := true; unique := true; default := None; references := None |}.

Definition not_null (c : Column) : Column :=
  {| key := key c; column := column c; ctype := ctype c; primaryKey := primaryKey c;
     notNull := true; unique := unique c; default := default c;
     references := references c |}.

Definition is_unique (c : Column) : Column :=
  {| key := key c; column := column c; ctype := ctype c; primaryKey := primaryKey c;
     notNull := notNull c; unique := true; default := default c;
     references := references c |}.

Definition with_default (d : Default) (c : Column) : Column :=
  {| key := key c; column := column c; ctype := ctype c; primaryKey := primaryKey c;
     notNull := notNull c; unique := unique c; default := Some d;
     references := references c |}.

Definition refers (t : TableName) (c : Column) : Column :=
  {| key := key c; column := column c; ctype := ctype c; primaryKey := primaryKey c;
     notNull := notNull c; unique := unique c; default := default c;
     references := Some t |}.

Definition table_name (t : TableName) : string :=
  match t with
  | users => "users"
  | projects => "projects"
  | deployments => "deployments"
  | environments => "environments"
  | integrations => "integrations"
  | activities => "activities"
  | approvals => "approvals"
  | logs => "logs"
  end.

Definition columns (t : TableName) : list Column :=
  match t with
  | users =>
      [ id_col;
        is_unique (not_null (col "username" "username" text_t));
        not_null (col "password" "password" text_t);
        col "name" "name" text_t;
        with_default defaultNow (col "createdAt" "created_at" timestamp_t) ]
  | projects =>
      [ id_col;
        not_null (col "name" "name" text_t);
        not_null (col "type" "type" text_t);
        col "description" "description" text_t;
        col "techStack" "tech_stack" text_array_t;
        with_default defaultNow (col "createdAt" "created_at" timestamp_t);
        refers users (col "userId" "user_id" integer_t) ]
  | deployments =>
      [ id_col;
        refers projects (col "projectId" "project_id" integer_t);
        not_null (col "environment" "environment" text_t);
        not_null (col "status" "status" text_t);
        col "logs" "logs" text_t;
        with_default defaultNow (col "deployedAt" "deployed_at" timestamp_t);
        col "deployedBy" "deployed_by" text_t ]
  | environments =>
      [ id_col;
        not_null (col "name" "name" text_t);
        not_null (col "type" "type" text_t);
        col "config" "config" jsonb_t;
        not_null (col "status" "status" text_t);
        col "lastDeployed" "last_deployed" timestamp_t ]
  | integrations =>
      [ id_col;
        not_null (col "name" "name" text_t);
        not_null (col "type" "type" text_t);
        col "config" "config" jsonb_t;
        not_null (col "status" "status" text_t);
        col "lastUsed" "last_used" timestamp_t;
        with_default (default_of (VInt 0)) (col "requestCount" "request_count" integer_t) ]
  | activities =>
      [ id_col;
        not_null (col "type" "type" text_t);
        not_null (col "description" "description" text_t);
        refers projects (col "projectId" "project_id" integer_t);
        with_default defaultNow (col "timestamp" "timestamp" timestamp_t);
        col "metadata" "metadata" jsonb_t ]
  | approvals =>
      [ id_col;
        not_null (col "title" "title" text_t);
        not_null (col "description" "description" text_t);
        not_null (col "type" "type" text_t);
        not_null (col "priority" "priority" text_t);
        not_null (col "status" "status" text_t);
        with_default defaultNow (col "createdAt" "created_at" timestamp_t);
        col "metadata" "metadata" jsonb_t ]
  | logs =>
      [ id_col;
        not_null (col "type" "type" text_t);
        not_null (col "message" "message" text_t);
        with_default defaultNow (col "timestamp" "timestamp" timestamp_t);
        col "metadata" "metadata" jsonb_t ]
  end.

End Schema.

Module Db.
Import Schema.

(** SQL [=] on the values the accessors compare: [NULL] equals nothing. *)
Definition sql_eq (a b : Value) : bool :=
  match a, b with
  | VNum x, VNum y => num_eqb x y
  | VStr x, VStr y => String.eqb x y
  | VBool x, VBool y => Bool.eqb x y
  | VDate x, VDate y => x =? y
  | _, _ => false
  end.

(** [eq(column, v)] as a row filter. *)
Definition eq (k : string) (v : Value) (row : Value) : bool := sql_eq (prop k row) v.

(** Every statement is one round trip: it is recorded, counted, and
    rejected when the platform says so. *)
Definition statement (op : DbOp) : Comp unit :=
  fun p s =>
    let s' := count_query (log_effect (DbQuery op) s) in
    match dbFault p (queries s) with
    | Some e => (Thrown (Error e), s')
    | None => (Returned tt, s')
    end.

(** A [NaN] parameter does not convert to an integer column value: the
    engine refuses the statement that carries it. *)
Definition parameter (v : Value) : Comp unit :=
  match v with
  | VNaN => throw (Error ("invalid input syntax for type integer: " ++ dq ++ "NaN" ++ dq))
  | _ => ret tt
  end.

Definition current (t : TableName) : Comp Table :=
  s <- get_state ;; ret (table t (db s)).

Definition store (t : TableName) (x : Table) : Comp unit :=
  modify (fun s => with_db (set_table t x (db s)) s).

(** [db.select().from(t).where(f)] *)
Definition select_where (t : TableName) (f : Value -> bool) : Comp (list Value) :=
  statement (Select t) ;;
  tb <- current t ;;
  ret (filter f (rows tb)).

(** [db.select().from(t).where(eq(t.k, v))] on an integer column. *)
Definition select_by (t : TableName) (k : string) (v : Value) : Comp (list Value) :=
  statement (Select t) ;;
  parameter v ;;
  tb <- current t ;;
  ret (filter (eq k v) (rows tb)).

(** [db.select().from(t)] *)
Definition select_all (t : TableName) : Comp (list Value) :=
  select_where t (fun _ => true).

(** [ORDER BY k DESC]: the engine puts [NULL] first in descending order. *)
Definition sort_key (k : string) (row : Value) : option Z :=
  match prop k row with
  | VDate ms => Some ms
  | _ => None
  end.

Definition before_desc (a b : option Z) : bool :=
  match a, b with
  | None, _ => true
  | Some _, None => false
  | Some x, Some y => y <=? x
  end.

Fixpoint insert_desc (k : string) (r : Value) (l : list Value) : list Value :=
  match l with
  | [] => [r]
  | x :: rest =>
      if before_desc (sort_key k r) (sort_key k x) then r :: l
      else x :: insert_desc k r rest
  end.

Definition order_desc (k : string) (l : list Value) : list Value :=
  fold_right (insert_desc k) [] l.

(** [.limit(n)]: a negative or non-integer limit is refused by the engine. *)
Definition limit (n : Value) (l : list Value) : Comp (list Value) :=
  match n with
  | VNum q =>
      if is_integer q && (0 <=? Qnum (Qred q))
      then ret (firstn (Z.to_nat (Qnum (Qred q))) l)
      else throw (Error "LIMIT must be a non-negative integer")
  | VUndefined => ret l
  | _ => throw (Error "LIMIT must be a non-negative integer")
  end.

Definition exists_with (k : string) (v : Value) (l : list Value) : bool :=
  existsb (eq k v) l.

(** The constraints one column puts on the value a row gets for it. *)
Definition check (t : TableName) (c : Column) (v : Value) (others : list Value)
  : Comp unit :=
  s <- get_state ;;
  if notNull c && (match v with VNull => true | _ => false end)
  then throw (Error ("null value in column " ++ dq ++ column c ++ dq ++ " of relation "
                     ++ dq ++ table_name t ++ dq ++ " violates not-null constraint"))
  else if unique c && exists_with (key c) v others
  then throw (Error ("duplicate key value violates unique constraint on "
                     ++ dq ++ table_name t ++ "." ++ column c ++ dq))
  else match references c, v with
       | _, VNull => ret tt
       | Some parent, _ =>
           if exists_with "id" v (rows (table parent (db s))) then ret tt
           else throw (Error ("insert or update on table " ++ dq ++ table_name t ++ dq
                              ++ " violates foreign key constraint on "
                              ++ dq ++ column c ++ dq))
       | None, _ => ret tt
       end.

(** The value an inserted row gets for one column: the supplied one, else
    the next serial number, else the default, else [NULL]. *)
Definition fill (t : TableName) (tb : Table) (values : Value) (c : Column)
  : Comp (string * Value) :=
  v <- match prop (key c) values with
       | VUndefined =>
           match ctype c, default c with
           | serial_t, _ => ret (VInt (serial tb))
           | _, Some defaultNow => now <- Date_now ;; ret (VDate now)
           | _, Some (default_of d) => ret d
           | _, None => ret VNull
           end
       | given => ret given
       end ;;
  check t c v (rows tb) ;;
  ret (key c, v).

(** [db.insert(t).values(v).returning()] *)
Definition insert (t : TableName) (values : Value) : Comp (list Value) :=
  statement (Insert t values) ;;
  tb <- current t ;;
  fields <- mapM (fill t tb values) (columns t) ;;
  let row := VObj fields in
  let used_serial := match prop "id" values with VUndefined => true | _ => false end in
  store t {| rows := (rows tb ++ [row])%list;
             serial := if used_serial then serial tb + 1 else serial tb |} ;;
  ret [row].

(** The assignments of [.set(data)]: the columns of the table that [data]
    defines. *)
Definition assignments (t : TableName) (data : Value) : list (Column * Value) :=
  flat_map (fun c => match prop (key c) data with
                     | VUndefined => []
                     | v => [(c, v)]
                     end) (columns t).

Definition apply_assignments (sets : list (Column * Value)) (row : Value) : Value :=
  VObj (fold_left (fun fs cv => assign (key (fst cv)) (snd cv) fs) sets (own_fields row)).

(** [db.update(t).set(data).where(eq(t.k, v)).returning()] on an integer
    column. *)
Definition update_by (t : TableName) (data : Value) (k : string) (v : Value)
  : Comp (list Value) :=
  let sets := assignments t data in
  let f := eq k v in
  match sets with
  | [] => throw (Error "No values to set")
  | _ =>
      statement (Update t data) ;;
      parameter v ;;
      tb <- current t ;;
      let hit := filter f (rows tb) in
      let miss := filter (fun r => negb (f r)) (rows tb) in
      match hit with
      | [] => ret []
      | _ =>
          mapM (fun cv => check t (fst cv) (snd cv)
                            (if unique (fst cv) then miss else [])) sets ;;
          store t {| rows := map (fun r => if f r then apply_assignments sets r else r)
                                 (rows tb);
                     serial := serial tb |} ;;
          ret (map (apply_assignments sets) hit)
      end
  end.

End Db.

(* ===================================================================== *)
(** * Objects and method calls *)
(* ===================================================================== *)

Definition Method : Type := list Value -> Comp Value.

(** An object, seen through the members that can be called on it. *)
Definition Object : Type := string -> option Method.

Definition arg (n : nat) (args : list Value) : Value := nth n args VUndefined.

(** [recv.name(args)]: calling a member the object does not have throws. *)
Definition call (recv : string) (o : Object) (name : string) (args : list Value)
  : Comp Value :=
  match o name with
  | Some f => f args
  | None => throw (TypeError (recv ++ "." ++ name ++ " is not a function"))
  end.

Fixpoint member_of (table : list (string * Method)) (name : string) : option Method :=
  match table with
  | [] => None
  | (n, f) :: rest => if String.eqb name n then Some f else member_of rest name
  end.

(* ===================================================================== *)
(** * server/storage.ts: [DatabaseStorage] *)
(* ===================================================================== *)

Module Storage.
Import Db.

(** [result.length > 0 ? result[0] : undefined], and [result[0]]. *)
Definition first (result : list Value) : Value :=
  match result with
  | r :: _ => r
  | [] => VUndefined
  end.

Definition getUser (id : Value) : Comp Value :=
  result <- select_by users "id" id ;;
  ret (first result).

Definition getUserByUsername (username : Value) : Comp Value :=
  result <- select_where users (eq "username" username) ;;
  ret (first result).

Definition createUser (insertUser : Value) : Comp Value :=
  result <- insert users
              (VObj (spread (own_fields insertUser)
                            [("name", or_else (prop "name" insertUser) VNull)])) ;;
  ret (first result).

Definition getProjects (userId : Value) : Comp Value :=
  if truthy userId
  then (r <- select_where projects (eq "userId" userId) ;; ret (VArr r))
  else (r <- select_all projects ;; ret (VArr r)).

Definition getProject (id : Value) : Comp Value :=
  result <- select_by projects "id" id ;;
  ret (first result).

Definition createProject (project : Value) : Comp Value :=
  result <- insert projects project ;;
  ret (first result).

Definition getRecentProjects (userId lim : Value) : Comp Value :=
  r <- select_where projects (eq "userId" userId) ;;
  r' <- limit lim (order_desc "createdAt" r) ;;
  ret (VArr r').

Definition getDeployments : Comp Value :=
  r <- select_all deployments ;; ret (VArr r).

Definition createDeployment (deployment : Value) : Comp Value :=
  result <- insert deployments deployment ;;
  ret (first result).

Definition getEnvironments : Comp Value :=
  r <- select_all environments ;; ret (VArr r).

Definition getEnvironment (id : Value) : Comp Value :=
  result <- select_by environments "id" id ;;
  ret (first result).

Definition updateEnvironment (id data : Value) : Comp Value :=
  result <- update_by environments data "id" id ;;
  match result with
  | [] => throw (Error "Environment not found")
  | r :: _ => ret r
  end.

Definition getIntegrations : Comp Value :=
  r <- select_all integrations ;; ret (VArr r).

Definition createIntegration (integration : Value) : Comp Value :=
  result <- insert integrations integration ;;
  ret (first result).

(** [limit = 20] is a default parameter: it applies to [undefined] only. *)
Definition getActivities (lim : Value) : Comp Value :=
  let lim := match lim with VUndefined => VInt 20 | l => l end in
  r <- select_all activities ;;
  r' <- limit lim (order_desc "timestamp" r) ;;
  ret (VArr r').

Definition createActivity (activity : Value) : Comp Value :=
  now <- Date_now ;;
  result <- insert activities
              (VObj (spread (own_fields activity) [("timestamp", VDate now)])) ;;
  ret (first result).

Definition getApprovals (status : Value) : Comp Value :=
  if truthy status
  then (r <- select_where approvals (eq "status" status) ;; ret (VArr r))
  else (r <- select_all approvals ;; ret (VArr r)).

Definition getApprovalsCount (status : Value) : Comp Value :=
  r <- select_where approvals (eq "status" status) ;;
  ret (VInt (Z.of_nat (List.length r))).

Definition updateApprovalStatus (id status : Value) : Comp Value :=
  result <- update_by approvals (VObj [("status", status)]) "id" id ;;
  match result with
  | [] => throw (Error "Approval not found")
  | r :: _ => ret r
  end.

Definition getLogs : Comp Value :=
  r <- select_all logs ;;
  ret (VArr (order_desc "timestamp" r)).

Definition createLog (log : Value) : Comp Value :=
  now <- Date_now ;;
  result <- insert logs (VObj (spread (own_fields log) [("timestamp", VDate now)])) ;;
  ret (first result).

(** The instance exported as [storage] by storage.ts. *)
Definition DatabaseStorage : Object :=
  member_of
    [ ("getUser", fun a => getUser (arg 0 a));
      ("getUserByUsername", fun a => getUserByUsername (arg 0 a));
      ("createUser", fun a => createUser (arg 0 a));
      ("getProjects", fun a => getProjects (arg 0 a));
      ("getProject", fun a => getProject (arg 0 a));
      ("createProject", fun a => createProject (arg 0 a));
      ("getRecentProjects", fun a => getRecentProjects (arg 0 a) (arg 1 a));
      ("getDeployments", fun _ => getDeployments);
      ("createDeployment", fun a => createDeployment (arg 0 a));
      ("getEnvironments", fun _ => getEnvironments);
      ("getEnvironment", fun a => getEnvironment (arg 0 a));
      ("updateEnvironment", fun a => updateEnvironment (arg 0 a) (arg 1 a));
      ("getIntegrations", fun _ => getIntegrations);
      ("createIntegration", fun a => createIntegration (arg 0 a));
      ("getActivities", fun a => getActivities (arg 0 a));
      ("createActivity", fun a => createActivity (arg 0 a));
      ("getApprovals", fun a => getApprovals (arg 0 a));
      ("getApprovalsCount", fun a => getApprovalsCount (arg 0 a));
      ("updateApprovalStatus", fun a => updateApprovalStatus (arg 0 a) (arg 1 a));
      ("getLogs", fun _ => getLogs);
      ("createLog", fun a => createLog (arg 0 a)) ].

End Storage.

(* ===================================================================== *)
(** * server/openai.ts: the AI-proxy module *)
(* ===================================================================== *)

Module OpenAI.

Definition DEFAULT_MODEL : string := "gpt-4o".

(** [a || b] on environment variables: an unset or empty one is falsy. *)
Definition env_or (a b : option string) : option string :=
  match a with
  | Some s => if String.eqb s "" then b else Some s
  | None => b
  end.

(** The [apiKey] the client instance is created with. *)
Definition apiKey (p : Platform) : option string :=
  env_or (OPENAI_API_KEY p) (OPENAI_API_KEY_ENV_VAR p).

Definition configured (p : Platform) : bool :=
  match apiKey p with
  | Some s => negb (String.eqb s "")
  | None => false
  end.

Definition isConfigured : Comp bool :=
  p <- platform ;; ret (configured p).

(** [openai.chat.completions.create(params)]: the one outbound request. *)
Definition chat_completions_create (params : ChatParams) : Comp Value :=
  emit (ApiCall params) ;;
  p <- platform ;;
  match completions p params with
  | inl response => ret response
  | inr msg => throw (Error msg)
  end.

(** The request body [createChatCompletion] builds from its options;
    [options.model || DEFAULT_MODEL] falls back on an unset or empty model. *)
Definition params_of (options : ChatOptions) : ChatParams :=
  {| p_model := match model options with
                | Some m => if String.eqb m "" then DEFAULT_MODEL else m
                | None => DEFAULT_MODEL
                end;
     p_messages := messages options;
     p_temperature := temperature options;
     p_max_tokens := max_tokens options;
     p_response_format := response_format options |}.

Definition createChatCompletion (options : ChatOptions) : Comp Value :=
  emit (ProxyCall options) ;;
  ok <- isConfigured ;;
  if negb ok then throw (Error "OpenAI API key not configured")
  else
    try_catch
      (chat_completions_create (params_of options))
      (fun error => throw (Error ("OpenAI API error: " ++ message error))).

(** [response.choices[0].message.content] *)
Definition content_of (response : Value) : Result Value :=
  and_then (read_member response "choices") (fun choices =>
  and_then (read_index choices 0) (fun c0 =>
  and_then (read_member c0 "message") (fun msg =>
  read_member msg "content"))).

Definition first_content (response : Value) : Comp Value := lift (content_of response).

Definition options_of (msgs : list ChatMessage) (t : Q) (f : option ResponseFormat)
  : ChatOptions :=
  {| messages := msgs; model := None; temperature := Some t; max_tokens := None;
     response_format := f |}.

Definition generateCode (prompt language additionalInstructions : Value) : Comp Value :=
  p <- platform ;;
  let systemPrompt :=
    "You are an expert programmer. Write clean, efficient, 
  and well-documented code. "
    ++ to_string p (or_else additionalInstructions (VStr ""))
    ++ "
  
  Format your response as a valid, complete code file with proper syntax. 
  Do not include explanations or comments outside the code file itself." in
  try_catch
    (response <-
       createChatCompletion
         (options_of
            [ {| role := system; content := VStr systemPrompt |};
              {| role := user;
                 content := VStr ("Generate "
                                  ++ (if truthy language then to_string p language ++ " " else "")
                                  ++ "code for the following:

" ++ to_string p prompt) |} ]
            (2 # 10) None) ;;
     first_content response)
    (fun error => throw (Error ("Failed to generate code: " ++ message error))).

Definition analyzeCode (code language : Value) : Comp Value :=
  p <- platform ;;
  let systemPrompt :=
    "You are an expert code reviewer. Analyze the provided "
    ++ to_string p language
    ++ " code 
  and suggest improvements for efficiency, readability, and best practices.
  Format your response as a JSON object with the following structure:
  {
    " ++ dq ++ "issues" ++ dq ++ ": [
      {
        " ++ dq ++ "severity" ++ dq ++ ": " ++ dq ++ "high|medium|low" ++ dq ++ ",
        " ++ dq ++ "type" ++ dq ++ ": " ++ dq ++ "performance|security|style|logic" ++ dq ++ ",
        " ++ dq ++ "description" ++ dq ++ ": " ++ dq ++ "Description of the issue" ++ dq ++ ",
        " ++ dq ++ "suggestion" ++ dq ++ ": " ++ dq ++ "Suggested fix" ++ dq ++ ",
        " ++ dq ++ "lineNumbers" ++ dq ++ ": [line numbers where issue appears]
      }
    ],
    " ++ dq ++ "summary" ++ dq ++ ": " ++ dq ++ "Brief summary of overall code quality" ++ dq ++ ",
    " ++ dq ++ "score" ++ dq ++ ": number between 0-100
  }" in
  try_catch
    (response <-
       createChatCompletion
         (options_of
            [ {| role := system; content := VStr systemPrompt |};
              {| role := user;
                 content := VStr ("Analyze this " ++ to_string p language ++ " code:

" ++ to_string p code) |} ]
            (1 # 10) (Some json_object)) ;;
     c <- first_content response ;;
     match JSON_parse p (to_string p c) with
     | inl v => ret v
     | inr msg => throw (SyntaxError msg)
     end)
    (fun error => throw (Error ("Failed to analyze code: " ++ message error))).

Definition generateDocumentation (code language : Value) : Comp Value :=
  p <- platform ;;
  let systemPrompt :=
    "You are an expert technical writer. Generate comprehensive documentation 
  for the provided "
    ++ to_string p language
    ++ " code. Include function/class descriptions, parameter explanations, 
  return value details, and usage examples." in
  try_catch
    (response <-
       createChatCompletion
         (options_of
            [ {| role := system; content := VStr systemPrompt |};
              {| role := user;
                 content := VStr ("Generate documentation for this "
                                  ++ to_string p language ++ " code:

" ++ to_string p code) |} ]
            (3 # 10) None) ;;
     first_content response)
    (fun error => throw (Error ("Failed to generate documentation: " ++ message error))).

Definition naturalLanguageToRequirements (description : Value) : Comp Value :=
  p <- platform ;;
  let systemPrompt :=
    "You are an expert product manager and developer. Transform the provided natural 
  language description into a structured set of technical requirements and specifications.
  Format your response as a JSON object with the following structure:
  {
    " ++ dq ++ "functionalRequirements" ++ dq ++ ": [list of specific functional requirements],
    " ++ dq ++ "nonFunctionalRequirements" ++ dq ++ ": [list of performance, security, usability requirements],
    " ++ dq ++ "technicalSpecifications" ++ dq ++ ": {
      " ++ dq ++ "suggestedArchitecture" ++ dq ++ ": " ++ dq ++ "description" ++ dq ++ ",
      " ++ dq ++ "keyComponents" ++ dq ++ ": [list of components],
      " ++ dq ++ "dataModel" ++ dq ++ ": [list of entities with attributes],
      " ++ dq ++ "apiEndpoints" ++ dq ++ ": [list of necessary endpoints]
    },
    " ++ dq ++ "implementationPlan" ++ dq ++ ": [list of development steps in order]
  }" in
  try_catch
    (response <-
       createChatCompletion
         (options_of
            [ {| role := system; content := VStr systemPrompt |};
              {| role := user;
                 content := VStr ("Transform this project description to technical requirements:

" ++ to_string p description) |} ]
            (2 # 10) (Some json_object)) ;;
     c <- first_content response ;;
     match JSON_parse p (to_string p c) with
     | inl v => ret v
     | inr msg => throw (SyntaxError msg)
     end)
    (fun error => throw (Error ("Failed to generate requirements: " ++ message error))).

End OpenAI.

(* ===================================================================== *)
(** * The web framework: requests, middlewares, routes *)
(* ===================================================================== *)

Module Express.

Inductive Verb := GET | POST | PATCH | PUT | DELETE.

Definition verb_eqb (a b : Verb) : bool :=
  match a, b with
  | GET, GET | POST, POST | PATCH, PATCH | PUT, PUT | DELETE, DELETE => true
  | _, _ => false
  end.

(** One file part of a multipart body. *)
Record FilePart := {
  fieldname : string;
  originalname : string;
  encoding : string;
  mimetype : string;
  data : string
}.

Definition size (f : FilePart) : Z := Z.of_nat (String.length (data f)).

Record Request := {
  verb : Verb;
  path : list string;        (* the segments of the URL path *)
  isAuthenticated : bool;    (* [req.isAuthenticated()] *)
  req_user : Value;          (* [req.user] *)
  body : Value;              (* [req.body] *)
  query : Value;             (* [req.query] *)
  params : Value;            (* [req.params] *)
  part : option FilePart;    (* the file part the body carries, if any *)
  file : Value               (* [req.file] *)
}.

Definition with_params (ps : Value) (r : Request) : Request :=
  {| verb := verb r; path := path r; isAuthenticated := isAuthenticated r;
     req_user := req_user r; body := body r; query := query r; params := ps;
     part := part r; file := file r |}.

Definition with_file (f : Value) (r : Request) : Request :=
  {| verb := verb r; path := path r; isAuthenticated := isAuthenticated r;
     req_user := req_user r; body := body r; query := query r; params := params r;
     part := part r; file := f |}.

Record Response := { status : Z; json : Value }.

(** What one middleware does with a request. *)
Inductive Step :=
| Next (req : Request)      (* [next()] *)
| NextError (e : JsError)   (* [next(err)] *)
| Sent (res : Response).    (* a response was written *)

Definition Middleware : Type := Request -> Comp Step.

(** What a route does with a request. *)
Inductive Outcome :=
| Responded (res : Response)
| Forwarded (e : JsError)   (* handed to the error-handling middleware *)
| Unhandled.                (* no layer of the table took the request *)

(** A handler chain; a synchronous throw is forwarded like [next(err)]. *)
Fixpoint run (chain : list Middleware) (req : Request) : Comp Outcome :=
  match chain with
  | [] => ret Unhandled
  | m :: rest =>
      fun p s =>
        match m req p s with
        | (Returned (Next req'), s') => run rest req' p s'
        | (Returned (NextError e), s') => (Returned (Forwarded e), s')
        | (Returned (Sent r), s') => (Returned (Responded r), s')
        | (Thrown e, s') => (Returned (Forwarded e), s')
        end
  end.

Inductive Segment := Lit (s : string) | Param (name : string).

Record Route := {
  r_verb : Verb;
  r_path : list Segment;
  r_chain : list Middleware
}.

(** Path matching, segment by segment: literals compare without regard to
    case, a parameter takes one non-empty segment. *)
Fixpoint match_path (pat : list Segment) (segs : list string)
  : option (list (string * Value)) :=
  match pat, segs with
  | [], [] => Some []
  | Lit l :: pat', s :: segs' =>
      if String.eqb (Str.toLowerCase l) (Str.toLowerCase s)
      then match_path pat' segs' else None
  | Param n :: pat', s :: segs' =>
      if String.eqb s "" then None
      else match match_path pat' segs' with
           | Some ps => Some ((n, VStr s) :: ps)
           | None => None
           end
  | _, _ => None
  end.

Definition matches (r : Route) (req : Request) : option (list (string * Value)) :=
  if verb_eqb (r_verb r) (verb req) then match_path (r_path r) (path req) else None.

(** The router: the first matching route runs; a chain that ends by [next()]
    lets the search go on. *)
Fixpoint dispatch (table : list Route) (req : Request) : Comp Outcome :=
  match table with
  | [] => ret Unhandled
  | r :: rest =>
      match matches r req with
      | Some ps =>
          fun p s =>
            match run (r_chain r) (with_params (VObj ps) req) p s with
            | (Returned Unhandled, s') => dispatch rest req p s'
            | other => other
            end
      | None => dispatch rest req
      end
  end.

End Express.
Export Express.

(* ===================================================================== *)
(** * The upload middleware *)
(* ===================================================================== *)

Module Multer.

(** [multer.diskStorage({ destination, filename })] *)
Record DiskStorage := {
  destination : Request -> FilePart -> Comp string;
  filename : Request -> FilePart -> Comp string
}.

(** The engine's members are [getDestination], [getFilename], [_handleFile]
    and [_removeFile], all of them run by the middleware below; as a receiver
    of other method calls the engine has nothing to offer. *)
Definition as_object (e : DiskStorage) : Object := fun _ => None.

(** [multer({ storage, limits: { fileSize }, fileFilter })]; the filter
    answers through its callback: [cb(null, accept)] or [cb(err)]. *)
Record Options := {
  storage : DiskStorage;
  fileSize : Z;
  fileFilter : Request -> FilePart -> Result bool
}.

Definition path_join (dir name : string) : string := dir ++ "/" ++ name.

(** [upload.single(field)]: the part must come under [field], pass the
    filter, and fit the size limit; then it is written under the name the
    engine chose and described in [req.file]. *)
Definition single (o : Options) (field : string) : Middleware :=
  fun req =>
    match part req with
    | None => ret (Next req)
    | Some f =>
        if negb (String.eqb (fieldname f) field)
        then ret (NextError (MulterError "LIMIT_UNEXPECTED_FILE" "Unexpected field"))
        else
          match fileFilter o req f with
          | Thrown e => ret (NextError e)
          | Returned false => ret (Next req)
          | Returned true =>
              dir <- destination (storage o) req f ;;
              name <- filename (storage o) req f ;;
              if fileSize o <? size f
              then ret (NextError (MulterError "LIMIT_FILE_SIZE" "File too large"))
              else
                now <- Date_now ;;
                modify (fun s =>
                  with_uploads (uploads s ++ [ {| f_dir := dir; f_name := name;
                                                  f_data := data f; f_mtime := now |} ])%list s) ;;
                emit (DiskWrite dir name) ;;
                ret (Next (with_file
                       (VObj [ ("fieldname", VStr (fieldname f));
                               ("originalname", VStr (originalname f));
                               ("encoding", VStr (encoding f));
                               ("mimetype", VStr (mimetype f));
                               ("destination", VStr dir);
                               ("filename", VStr name);
                               ("path", VStr (path_join dir name));
                               ("size", VInt (size f)) ]) req))
          end
    end.

End Multer.

(* ===================================================================== *)
(** * server/routes.ts *)
(* ===================================================================== *)

Module Routes.

Definition respond (code : Z) (v : Value) : Comp Response :=
  ret {| status := code; json := v |}.

(** [res.json(v)] *)
Definition res_json (v : Value) : Comp Response := respond 200 v.

Definition message_body (m : string) : Value := VObj [("message", VStr m)].

Definition error_body (m : string) (e : JsError) : Value :=
  VObj [("message", VStr m); ("error", VStr (message e))].

(** ** The two helpers *)

Definition ensureAuthenticated : Middleware :=
  fun req =>
    if isAuthenticated req then ret (Next req)
    else ret (Sent {| status := 401; json := message_body "Unauthorized" |}).

Definition asyncHandler (fn : Request -> Comp Response) : Middleware :=
  fun req =>
    try_catch (res <- fn req ;; ret (Sent res))
              (fun error => ret (NextError error)).

(** ** The upload configuration *)

Definition uploadDir (p : Platform) : string := Multer.path_join (cwd p) "uploads".

Definition allowedTypes : list string :=
  [ ".js"; ".jsx"; ".ts"; ".tsx"; ".py"; ".java"; ".c"; ".cpp"; ".cs"; ".php";
    ".go"; ".rb"; ".rs";
    ".json"; ".csv"; ".xml"; ".yaml"; ".yml";
    ".html"; ".css"; ".scss"; ".sass"; ".less";
    ".md"; ".txt"; ".pdf";
    ".jpg"; ".jpeg"; ".png"; ".gif"; ".svg" ].

Definition fileFilter (req : Request) (file : FilePart) : Result bool :=
  let ext := Str.toLowerCase (Str.extname (originalname file)) in
  if Str.includes ext allowedTypes then Returned true
  else Thrown (Error "Only common file types are allowed").

(** [const storage = multer.diskStorage({...})], local to [registerRoutes]. *)
Definition diskStorage : Multer.DiskStorage :=
  {| Multer.destination := fun _ _ => p <- platform ;; ret (uploadDir p);
     Multer.filename := fun _ file =>
       now <- Date_now ;;
       r <- Math_random ;;
       let uniqueSuffix :=
         string_of_Z now ++ "-" ++ string_of_Z (Math_round (r * inject_Z 1000000000)%Q) in
       ret (uniqueSuffix ++ "-" ++ originalname file) |}.

Definition upload : Multer.Options :=
  {| Multer.storage := diskStorage;
     Multer.fileSize := 10 * 1024 * 1024;
     Multer.fileFilter := fileFilter |}.

(** ** Small readings of the request *)

(** [req.user?.id] *)
Definition user_id_opt (req : Request) : Value :=
  match req_user req with
  | VUndefined | VNull => VUndefined
  | u => prop "id" u
  end.

(** [parseInt(x)] *)
Definition parseInt (x : Value) : Comp Value :=
  p <- platform ;;
  ret (match Str.parseInt (to_string p x) with
       | Some z => VInt z
       | None => VNaN
       end).

(** [const { k } = o] *)
Definition destructure (o : Value) (k what : string) : Comp Value :=
  match o with
  | VUndefined | VNull =>
      throw (TypeError ("Cannot destructure property '" ++ k ++ "' of '" ++ what
                        ++ "' as it is " ++ match o with VNull => "null" | _ => "undefined" end
                        ++ "."))
  | _ => ret (prop k o)
  end.

(** ** The session array *)

Definition session_role_name (r : SessionRole) : string :=
  match r with
  | s_user => "user"
  | s_assistant => "assistant"
  end.

Definition message_value (m : SessionMessage) : Value :=
  VObj [ ("id", VStr (m_id m));
         ("role", VStr (session_role_name (m_role m)));
         ("content", m_content m);
         ("timestamp", VStr (m_timestamp m)) ].

(** [req.session.messages || []] *)
Definition session_or_empty (s : State) : list SessionMessage :=
  match session_messages s with
  | Some l => l
  | None => []
  end.

(** [req.session.messages.push(m)] *)
Definition push_message (m : SessionMessage) : Comp unit :=
  modify (fun s => with_session (Some (session_or_empty s ++ [m])%list) s).

(** [msg.role === "user" ? "user" : "assistant"] *)
Definition relay_role (r : SessionRole) : ChatRole :=
  match r with
  | s_user => user
  | s_assistant => assistant
  end.

Definition relay (m : SessionMessage) : ChatMessage :=
  {| role := relay_role (m_role m); content := m_content m |}.

Definition system_message : ChatMessage :=
  {| role := system;
     content := VStr "You are Rashed, a private AI developer assistant that helps with coding, deployments, and integrations." |}.

(** ** Validation of the body of [POST /api/ai/chat] *)

Definition parse_role (v : Value) : option ChatRole :=
  match v with
  | VStr s =>
      if String.eqb s "system" then Some system
      else if String.eqb s "user" then Some user
      else if String.eqb s "assistant" then Some assistant
      else None
  | _ => None
  end.

Definition parse_message (v : Value) : option ChatMessage :=
  match v with
  | VObj _ =>
      match parse_role (prop "role" v), prop "content" v with
      | Some r, VStr c => Some {| role := r; content := VStr c |}
      | _, _ => None
      end
  | _ => None
  end.

Fixpoint parse_messages (l : list Value) : option (list ChatMessage) :=
  match l with
  | [] => Some []
  | v :: r =>
      match parse_message v, parse_messages r with
      | Some m, Some ms => Some (m :: ms)
      | _, _ => None
      end
  end.

Definition parse_optional_number (v : Value) : option (option Q) :=
  match v with
  | VUndefined => Some None
  | VNum q => Some (Some q)
  | _ => None
  end.

(** [schema.safeParse(req.body)]: the validated data, or nothing. *)
Definition safeParse (b : Value) : option ChatOptions :=
  match b with
  | VObj _ =>
      match prop "messages" b with
      | VArr l =>
          match parse_messages l, parse_optional_number (prop "temperature" b),
                parse_optional_number (prop "max_tokens" b) with
          | Some ms, Some t, Some mt =>
              Some {| messages := ms; model := None; temperature := t;
                      max_tokens := mt; response_format := None |}
          | _, _, _ => None
          end
      | _ => None
      end
  | _ => None
  end.

(** ** The extension-to-language table of [POST /api/files/analyze] *)

Definition languageMap : list (string * string) :=
  [ ("js", "javascript"); ("jsx", "javascript"); ("ts", "typescript");
    ("tsx", "typescript"); ("py", "python"); ("java", "java"); ("c", "c");
    ("cpp", "c++"); ("cs", "c#"); ("php", "php"); ("go", "go"); ("rb", "ruby");
    ("rs", "rust"); ("html", "html"); ("css", "css"); ("json", "json");
    ("md", "markdown") ].

Fixpoint language_of (m : list (string * string)) (ext : string) : string :=
  match m with
  | [] => ext
  | (k, v) :: r => if String.eqb k ext then v else language_of r ext
  end.

Definition drop_first (s : string) : string :=
  match s with
  | String _ r => r
  | EmptyString => EmptyString
  end.

(** ** The handlers

    They are closures of [registerRoutes]; [storage] is whatever that name
    denotes where they are created. *)

Section Handlers.

Variable storage : Object.

Definition activity (type description : string) (extra : list (string * Value))
  : Comp Value :=
  call "storage" storage "createActivity"
       [VObj (("type", VStr type) :: ("description", VStr description) :: extra)].

(** *** Projects *)

Definition get_projects (req : Request) : Comp Response :=
  projects <- call "storage" storage "getProjects" [user_id_opt req] ;;
  res_json projects.

Definition get_projects_recent (req : Request) : Comp Response :=
  uid <- member (req_user req) "id" ;;
  projects <- call "storage" storage "getRecentProjects" [uid; VInt 5] ;;
  res_json projects.

Definition get_project (req : Request) : Comp Response :=
  id <- parseInt (prop "id" (params req)) ;;
  project <- call "storage" storage "getProject" [id] ;;
  if negb (truthy project) then respond 404 (message_body "Project not found")
  else res_json project.

Definition post_projects (req : Request) : Comp Response :=
  uid <- member (req_user req) "id" ;;
  project <- call "storage" storage "createProject"
               [VObj (spread (own_fields (body req)) [("userId", uid)])] ;;
  p <- platform ;;
  name <- member project "name" ;;
  pid <- member project "id" ;;
  ptype <- member project "type" ;;
  activity "project_created"
           ("Project " ++ dq ++ to_string p name ++ dq ++ " was created")
           [("projectId", pid); ("metadata", VObj [("projectType", ptype)])] ;;
  respond 201 project.

(** *** Deployments *)

Definition get_deployments (req : Request) : Comp Response :=
  deployments <- call "storage" storage "getDeployments" [] ;;
  res_json deployments.

Definition post_deployments (req : Request) : Comp Response :=
  username <- member (req_user req) "username" ;;
  deployment <- call "storage" storage "createDeployment"
                  [VObj (spread (own_fields (body req)) [("deployedBy", username)])] ;;
  p <- platform ;;
  env <- member deployment "environment" ;;
  pid <- member deployment "projectId" ;;
  st <- member deployment "status" ;;
  activity "deployment_created"
           ("New deployment to " ++ to_string p env ++ " environment")
           [("projectId", pid); ("metadata", VObj [("status", st)])] ;;
  respond 201 deployment.

(** *** Environments *)

Definition get_environments (req : Request) : Comp Response :=
  environments <- call "storage" storage "getEnvironments" [] ;;
  res_json environments.

Definition get_environment (req : Request) : Comp Response :=
  id <- parseInt (prop "id" (params req)) ;;
  environment <- call "storage" storage "getEnvironment" [id] ;;
  if negb (truthy environment) then respond 404 (message_body "Environment not found")
  else res_json environment.

Definition patch_environment (req : Request) : Comp Response :=
  id <- parseInt (prop "id" (params req)) ;;
  environment <- call "storage" storage "updateEnvironment" [id; body req] ;;
  res_json environment.

(** *** Integrations *)

Definition get_integrations (req : Request) : Comp Response :=
  integrations <- call "storage" storage "getIntegrations" [] ;;
  res_json integrations.

Definition post_integrations (req : Request) : Comp Response :=
  integration <- call "storage" storage "createIntegration" [body req] ;;
  p <- platform ;;
  name <- member integration "name" ;;
  itype <- member integration "type" ;;
  activity "integration_created"
           ("New integration " ++ dq ++ to_string p name ++ dq ++ " was added")
           [("metadata", VObj [("integrationType", itype)])] ;;
  respond 201 integration.

(** *** Activities *)

Definition get_activities (req : Request) : Comp Response :=
  lim <- (if truthy (prop "limit" (query req))
          then parseInt (prop "limit" (query req))
          else ret (VInt 20)) ;;
  activities <- call "storage" storage "getActivities" [lim] ;;
  res_json activities.

(** *** Approvals *)

Definition get_approvals (req : Request) : Comp Response :=
  let status := prop "status" (query req) in
  approvals <- call "storage" storage "getApprovals" [status] ;;
  res_json approvals.

Definition get_approvals_count (req : Request) : Comp Response :=
  let status := or_else (prop "status" (query req)) (VStr "pending") in
  count <- call "storage" storage "getApprovalsCount" [status] ;;
  res_json (VObj [("count", count)]).

Definition patch_approval_status (req : Request) : Comp Response :=
  status <- destructure (body req) "status" "req.body" ;;
  id <- parseInt (prop "id" (params req)) ;;
  approval <- call "storage" storage "updateApprovalStatus" [id; status] ;;
  p <- platform ;;
  title <- member approval "title" ;;
  atype <- member approval "type" ;;
  activity "approval_updated"
           ("Approval " ++ dq ++ to_string p title ++ dq ++ " was " ++ to_string p status)
           [("metadata", VObj [("approvalType", atype); ("status", status)])] ;;
  res_json approval.

(** *** Logs *)

Definition get_logs (req : Request) : Comp Response :=
  logs <- call "storage" storage "getLogs" [] ;;
  res_json logs.

(** *** Messages: the chat relay *)

Definition get_messages (req : Request) : Comp Response :=
  s <- get_state ;;
  res_json (VArr (map message_value (session_or_empty s))).

Definition post_messages (req : Request) : Comp Response :=
  content <- destructure (body req) "content" "req.body" ;;
  if negb (truthy content)
  then respond 400 (message_body "Message content is required")
  else
    (* Initialize messages array if it doesn't exist *)
    modify (fun s => with_session (Some (session_or_empty s)) s) ;;
    p <- platform ;;
    (* Create user message *)
    id <- Date_now ;;
    ts <- Date_now ;;
    let userMessage :=
      {| m_id := string_of_Z id; m_role := s_user; m_content := content;
         m_timestamp := toISOString p ts |} in
    (* Add user message to session *)
    push_message userMessage ;;
    try_catch
      (s <- get_state ;;
       let messages := system_message :: map relay (session_or_empty s) in
       completion <-
         OpenAI.createChatCompletion
           {| messages := messages; model := None; temperature := Some (7 # 10)%Q;
              max_tokens := Some (inject_Z 1000); response_format := None |} ;;
       (* Create assistant message *)
       id' <- Date_now ;;
       c <- OpenAI.first_content completion ;;
       ts' <- Date_now ;;
       let assistantMessage :=
         {| m_id := string_of_Z (id' + 1); m_role := s_assistant;
            m_content := or_else c (VStr ""); m_timestamp := toISOString p ts' |} in
       (* Add assistant message to session *)
       push_message assistantMessage ;;
       (* Record activity for the conversation *)
       s' <- get_state ;;
       activity "chat_interaction" "Chat interaction with AI assistant"
                [("metadata",
                  VObj [("messageCount",
                         VInt (Z.of_nat (List.length (session_or_empty s'))))])] ;;
       (* Return the assistant message *)
       respond 201 (message_value assistantMessage))
      (fun error => respond 500 (error_body "Error processing message" error)).

Definition post_messages_reset (req : Request) : Comp Response :=
  (* Clear messages from session *)
  modify (with_session (Some [])) ;;
  respond 200 (message_body "Conversation reset successfully").

(** *** AI operations *)

Definition openai_error (e : JsError) : Comp Response :=
  respond 500 (error_body "Error from OpenAI API" e).

Definition post_ai_chat (req : Request) : Comp Response :=
  match safeParse (body req) with
  | None =>
      p <- platform ;;
      respond 400 (VObj [ ("message", VStr "Invalid request body");
                          ("errors", zod_format p (body req)) ])
  | Some data =>
      try_catch (result <- OpenAI.createChatCompletion data ;; res_json result)
                openai_error
  end.

Definition post_ai_code (req : Request) : Comp Response :=
  prompt <- destructure (body req) "prompt" "req.body" ;;
  let language := prop "language" (body req) in
  if negb (truthy prompt) || negb (truthy language)
  then respond 400 (message_body "Prompt and language are required")
  else
    try_catch (result <- OpenAI.generateCode prompt language VUndefined ;;
               res_json result)
              openai_error.

Definition post_ai_analyze (req : Request) : Comp Response :=
  code <- destructure (body req) "code" "req.body" ;;
  let language := prop "language" (body req) in
  if negb (truthy code) || negb (truthy language)
  then respond 400 (message_body "Code and language are required")
  else
    try_catch (result <- OpenAI.analyzeCode code language ;; res_json result)
              openai_error.

Definition post_ai_document (req : Request) : Comp Response :=
  code <- destructure (body req) "code" "req.body" ;;
  let language := prop "language" (body req) in
  if negb (truthy code) || negb (truthy language)
  then respond 400 (message_body "Code and language are required")
  else
    try_catch (result <- OpenAI.generateDocumentation code language ;;
               res_json (VObj [("documentation", result)]))
              openai_error.

Definition post_ai_requirements (req : Request) : Comp Response :=
  description <- destructure (body req) "description" "req.body" ;;
  if negb (truthy description)
  then respond 400 (message_body "Project description is required")
  else
    try_catch (result <- OpenAI.naturalLanguageToRequirements description ;;
               res_json result)
              openai_error.

(** *** Files *)

Definition post_files_upload (req : Request) : Comp Response :=
  if negb (truthy (file req)) then respond 400 (message_body "No file uploaded")
  else
    p <- platform ;;
    now <- Date_now ;;
    let f := file req in
    let fileInfo :=
      VObj [ ("filename", prop "filename" f);
             ("originalname", prop "originalname" f);
             ("size", prop "size" f);
             ("path", prop "path" f);
             ("mimetype", prop "mimetype" f);
             ("uploadedAt", VStr (toISOString p now)) ] in
    activity "file_uploaded"
             ("File " ++ dq ++ to_string p (prop "originalname" f) ++ dq ++ " was uploaded")
             [("metadata",
               VObj [ ("filesize", prop "size" f);
                      ("filetype",
                       VStr (Str.extname (to_string p (prop "originalname" f)))) ])] ;;
    respond 201 fileInfo.

Definition file_info (p : Platform) (dir : string) (f : DiskFile) : Value :=
  let originalFilename :=
    let rest := Str.join "-" (skipn 2 (Str.split "-" (f_name f))) in
    if String.eqb rest "" then f_name f else rest in
  VObj [ ("filename", VStr (f_name f));
         ("originalname", VStr originalFilename);
         ("size", VInt (Z.of_nat (String.length (f_data f))));
         ("path", VStr (Multer.path_join dir (f_name f)));
         ("uploadedAt", VStr (toISOString p (f_mtime f))) ].

Definition get_files (req : Request) : Comp Response :=
  try_catch
    (p <- platform ;;
     let dir := uploadDir p in
     emit (DiskRead dir) ;;
     s <- get_state ;;
     let files := filter (fun f => String.eqb (f_dir f) dir) (uploads s) in
     res_json (VArr (map (file_info p dir) files)))
    (fun error => respond 500 (error_body "Error retrieving files" error)).

(** [readFile(path, 'utf8')]: the data of the file stored at [path]. *)
Definition readFile (path : string) : Comp string :=
  emit (DiskRead path) ;;
  s <- get_state ;;
  match filter (fun f => String.eqb (Multer.path_join (f_dir f) (f_name f)) path)
               (uploads s) with
  | f :: _ => ret (f_data f)
  | [] => throw (Error ("ENOENT: no such file or directory, open '" ++ path ++ "'"))
  end.

Definition post_files_analyze (req : Request) : Comp Response :=
  if negb (truthy (file req)) then respond 400 (message_body "No file uploaded")
  else
    try_catch
      (p <- platform ;;
       let f := file req in
       fileContent <- readFile (to_string p (prop "path" f)) ;;
       let fileExt := drop_first (Str.extname (to_string p (prop "originalname" f))) in
       let language := language_of languageMap fileExt in
       (* Analyze the code using OpenAI *)
       analysis <- OpenAI.analyzeCode (VStr fileContent) (VStr language) ;;
       (* Record activity *)
       activity "file_analyzed"
                ("File " ++ dq ++ to_string p (prop "originalname" f) ++ dq ++ " was analyzed")
                [("metadata",
                  VObj [("language", VStr language); ("filesize", prop "size" f)])] ;;
       res_json (VObj [ ("filename", prop "originalname" f);
                        ("language", VStr language);
                        ("analysis", analysis) ]))
      (fun error => respond 500 (error_body "Error analyzing file" error)).

(** ** The route table, in registration order *)

Definition api (rest : list Segment) : list Segment := Lit "api" :: rest.

Definition guarded (v : Verb) (pat : list Segment) (fn : Request -> Comp Response)
  : Route :=
  {| r_verb := v; r_path := api pat;
     r_chain := [ensureAuthenticated; asyncHandler fn] |}.

Definition guarded_upload (v : Verb) (pat : list Segment)
  (fn : Request -> Comp Response) : Route :=
  {| r_verb := v; r_path := api pat;
     r_chain := [ensureAuthenticated; Multer.single upload "file"; asyncHandler fn] |}.

Definition routes : list Route :=
  [ guarded GET [Lit "projects"] get_projects;
    guarded GET [Lit "projects"; Lit "recent"] get_projects_recent;
    guarded GET [Lit "projects"; Param "id"] get_project;
    guarded POST [Lit "projects"] post_projects;
    guarded GET [Lit "deployments"] get_deployments;
    guarded POST [Lit "deployments"] post_deployments;
    guarded GET [Lit "environments"] get_environments;
    guarded GET [Lit "environments"; Param "id"] get_environment;
    guarded PATCH [Lit "environments"; Param "id"] patch_environment;
    guarded GET [Lit "integrations"] get_integrations;
    guarded POST [Lit "integrations"] post_integrations;
    guarded GET [Lit "activities"] get_activities;
    guarded GET [Lit "approvals"] get_approvals;
    guarded GET [Lit "approvals"; Lit "count"] get_approvals_count;
    guarded PATCH [Lit "approvals"; Param "id"; Lit "status"] patch_approval_status;
    guarded GET [Lit "logs"] get_logs;
    guarded GET [Lit "messages"] get_messages;
    guarded POST [Lit "messages"] post_messages;
    guarded POST [Lit "messages"; Lit "reset"] post_messages_reset;
    guarded POST [Lit "ai"; Lit "chat"] post_ai_chat;
    guarded POST [Lit "ai"; Lit "code"] post_ai_code;
    guarded POST [Lit "ai"; Lit "analyze"] post_ai_analyze;
    guarded POST [Lit "ai"; Lit "document"] post_ai_document;
    guarded POST [Lit "ai"; Lit "requirements"] post_ai_requirements;
    guarded_upload POST [Lit "files"; Lit "upload"] post_files_upload;
    guarded GET [Lit "files"] get_files;
    guarded_upload POST [Lit "files"; Lit "analyze"] post_files_analyze ].

End Handlers.

(** [registerRoutes]: the handlers are created below the declaration
    [const storage = multer.diskStorage(...)], which hides the imported
    [storage] of storage.ts for the whole function body. *)
Definition registerRoutes : list Route := routes (Multer.as_object diskStorage).

(** The table the handlers would form over the accessors of storage.ts. *)
Definition routes_over_database : list Route := routes Storage.DatabaseStorage.

End Routes.

(* ===================================================================== *)
(** * client: the dashboard's approve / reject action *)
(* ===================================================================== *)

Module Dashboard.

(** [handleApproval(id, approved)] requests
    [POST /api/approvals/${id}/${approved ? 'approve' : 'reject'}]. *)
Definition handleApproval (id : Z) (approved : bool) : Verb * list string :=
  (POST, ["api"; "approvals"; string_of_Z id; if approved then "approve" else "reject"]).

End Dashboard.

(* ===================================================================== *)
(** * client: the AI helpers, the log page and two requests *)
(* ===================================================================== *)

(** ** client/src/lib/openai.ts: the calls to [/api/ai/chat] *)

Module Client.

Definition MODEL : string := "gpt-4o".

(** What [apiRequest(method, url, data)] is asked to send. *)
Record ApiRequest := { method : Verb; url : list string; payload : Value }.

Definition chat_message (r : ChatRole) (c : string) : Value :=
  VObj [("role", VStr (role_name r)); ("content", VStr c)].

(** [generateChatCompletion(options)] posts [{ model: MODEL, ...options }]. *)
Definition generateChatCompletion (options : Value) : ApiRequest :=
  {| method := POST; url := ["api"; "ai"; "chat"];
     payload := VObj (spread [("model", VStr MODEL)] (own_fields options)) |}.

(** The request of [generateCode(prompt, language, additionalInstructions)]. *)
Definition generateCode (p : Platform) (prompt language additionalInstructions : Value)
  : ApiRequest :=
  let messages :=
    [ chat_message system
        ("You are an expert programmer. Write clean, efficient, and well-documented code. "
         ++ to_string p (or_else additionalInstructions (VStr "")));
      chat_message user
        ("Generate " ++ (if truthy language then to_string p language ++ " " else "")
         ++ "code for the following:

" ++ to_string p prompt) ] in
  generateChatCompletion
    (VObj [("messages", VArr messages); ("temperature", VNum (2 # 10))]).

Section Json.

(** [JSON.stringify(schema, null, 2)] *)
Variable JSON_stringify : Value -> string.


End Json.

End Client.

(** ** Code blocks in a reply: [extractCodeFromMarkdown] of
    client/src/lib/openai.ts and [hasCodeBlock] of the chat message component *)

Module Markdown.

Definition backtick : ascii := "`"%char.
Definition newline : ascii := ascii_of_nat 10.

(** [\w] *)
Definition is_word (c : ascii) : bool :=
  let n := nat_of_ascii c in
  ((Nat.leb 48 n && Nat.leb n 57) || (Nat.leb 65 n && Nat.leb n 90)
   || (Nat.leb 97 n && Nat.leb n 122) || Nat.eqb n 95)%bool.

(** Whether the text starts with three backticks. *)
Definition at_fence (s : string) : bool :=
  match s with
  | String a (String b (String c _)) =>
      (Ascii.eqb a backtick && Ascii.eqb b backtick && Ascii.eqb c backtick)%bool
  | _ => false
  end.

(** [content.includes("```")] *)
Fixpoint hasCodeBlock (content : string) : bool :=
  match content with
  | EmptyString => false
  | String _ r => (at_fence content || hasCodeBlock r)%bool
  end.

(** [(?:\w+)?]: what is left after the longest run of word characters.  The
    pattern goes on with a line break, which is no word character, so a
    shorter run cannot lead to a match where the longest does not. *)
Fixpoint skip_word (s : string) : string :=
  match s with
  | String c r => if is_word c then skip_word r else s
  | EmptyString => s
  end.

(** The text before the first three backticks, when there are any. *)
Fixpoint until_fence (s : string) : option string :=
  match s with
  | EmptyString => None
  | String c r =>
      if at_fence s then Some EmptyString
      else match until_fence r with
           | Some x => Some (String c x)
           | None => None
           end
  end.

(** One match of [/```(?:\w+)?\n([\s\S]+?)```/] at the start of the text:
    the captured group and the length of the whole match.  The group is
    lazy and holds at least one character: it ends at the first closing
    fence that starts after its first character. *)
Definition block_at (s : string) : option (string * nat) :=
  match s with
  | String a (String b (String c r)) =>
      if (Ascii.eqb a backtick && Ascii.eqb b backtick && Ascii.eqb c backtick)%bool
      then
        let r1 := skip_word r in
        match r1 with
        | String nl (String c1 r3) =>
            if Ascii.eqb nl newline then
              match until_fence r3 with
              | Some x =>
                  Some (String c1 x,
                        (3 + (String.length r - String.length r1) + 1
                         + S (String.length x) + 3)%nat)
              | None => None
              end
            else None
        | _ => None
        end
      else None
  | _ => None
  end.

(** [markdown.matchAll(codeBlockRegex)], the captured groups in order: the
    search resumes where a match ends, so the next [skip] characters are
    passed over. *)
Fixpoint matchAll (s : string) (skip : nat) : list string :=
  match s with
  | EmptyString => []
  | String _ r =>
      match skip with
      | S k => matchAll r k
      | O =>
          match block_at s with
          | Some (code, n) => code :: matchAll r (n - 1)
          | None => matchAll r 0
          end
      end
  end.

Definition extractCodeFromMarkdown (markdown : string) : string :=
  match matchAll markdown 0 with
  | [] => markdown
  | matches => Str.join (String newline (String newline "")) matches
  end.

End Markdown.

(** ** The log page: pages and page buttons *)

(** [Math.ceil] *)
Definition Math_ceil (q : Q) : Z := Qceiling q.

(** [Array.prototype.slice(start, end)]: a negative index counts from the
    end, both are clamped to the array. *)
Definition relative_index (len i : Z) : Z :=
  if i <? 0 then Z.max (len + i) 0 else Z.min i len.

Definition Array_slice {A} (l : list A) (start end_ : Z) : list A :=
  let len := Z.of_nat (List.length l) in
  let k := relative_index len start in
  let final := relative_index len end_ in
  firstn (Z.to_nat (final - k)) (skipn (Z.to_nat k) l).

Module LogsPage.

Definition logsPerPage : Z := 10.

Section Page.

(** The logs left by the search box and the type filter, once loaded, and
    the page shown. *)
Variable filteredLogs : list Value.
Variable currentPage : Z.

Definition totalPages : Z :=
  Math_ceil (inject_Z (Z.of_nat (List.length filteredLogs)) / inject_Z logsPerPage)%Q.

Definition paginatedLogs : list Value :=
  Array_slice filteredLogs ((currentPage - 1) * logsPerPage) (currentPage * logsPerPage).

(** The footer: "Showing [first] to [last] of [total] logs". *)
Definition showing : Z * Z * Z :=
  ((currentPage - 1) * logsPerPage + 1,
   Z.min (currentPage * logsPerPage) (Z.of_nat (List.length filteredLogs)),
   Z.of_nat (List.length filteredLogs)).

(** The number on the [i]-th page button. *)
Definition pageNum (i : Z) : Z :=
  let pageNum := i + 1 in
  if totalPages >? 5 then
    if currentPage >? 3 then
      let pageNum := i + currentPage - 2 in
      if pageNum >? totalPages then totalPages - 4 + i else pageNum
    else pageNum
  else pageNum.

(** [Array.from({ length: Math.min(totalPages, 5) }, (_, i) => ...)] *)
Definition pageButtons : list Z :=
  map (fun i => pageNum (Z.of_nat i)) (seq 0 (Z.to_nat (Z.min totalPages 5))).

End Page.

End LogsPage.

(** ** Two requests of the client *)

Module EnvironmentCard.

(** [deployMutation] requests
    [POST /api/environments/${environment.id}/deploy]. *)
Definition deploy (id : Z) : Verb * list string :=
  (POST, ["api"; "environments"; string_of_Z id; "deploy"]).

End EnvironmentCard.

Module Settings.

(** [updateApiKeysMutation] and [updateNotificationsMutation]. *)
Definition saveApiKeys : Verb * list string := (POST, ["api"; "settings"; "apikeys"]).

Definition saveNotifications : Verb * list string :=
  (POST, ["api"; "settings"; "notifications"]).

End Settings.

(* ===================================================================== *)
(** * The deployments page (client/src/pages/deployments.tsx) *)
(* ===================================================================== *)

(** [array.filter(pred)] with a predicate that may throw: the elements are
    tested in order and the first throw ends the call. *)
Fixpoint Array_filter (pred : Value -> Result bool) (l : list Value)
  : Result (list Value) :=
  match l with
  | [] => Returned []
  | x :: r =>
      and_then (pred x) (fun keep =>
      and_then (Array_filter pred r) (fun rest =>
      Returned (if keep then x :: rest else rest)))
  end.

Module DeploymentsPage.

(** [projectFilter === "all" || deployment.projectId.toString() === projectFilter] *)
Definition selected (p : Platform) (projectFilter : string) (deployment : Value)
  : Result bool :=
  if String.eqb projectFilter "all" then Returned true
  else
    and_then (read_member (prop "projectId" deployment) "toString") (fun _ =>
    Returned (String.eqb (to_string p (prop "projectId" deployment)) projectFilter)).

Definition filteredDeployments (p : Platform) (projectFilter : string)
  (deployments : list Value) : Result (list Value) :=
  Array_filter (selected p projectFilter) deployments.

End DeploymentsPage.

(* ===================================================================== *)
(** * Sample worlds *)
(* ===================================================================== *)

Module Sample.

Definition empty_table : Table := {| rows := []; serial := 1 |}.

Definition empty_db : Database :=
  {| t_users := empty_table; t_projects := empty_table;
     t_deployments := empty_table; t_environments := empty_table;
     t_integrations := empty_table; t_activities := empty_table;
     t_approvals := empty_table; t_logs := empty_table |}.

Definition owner : Value := VObj [("id", VInt 1); ("username", VStr "owner")].

Definition project (id uid : Z) (name : string) : Value :=
  VObj [ ("id", VInt id); ("name", VStr name); ("type", VStr "web");
         ("description", VNull); ("techStack", VNull);
         ("createdAt", VDate 1700000000000); ("userId", VInt uid) ].

Definition approval (id : Z) (title status : string) : Value :=
  VObj [ ("id", VInt id); ("title", VStr title); ("description", VStr "review");
         ("type", VStr "deployment"); ("priority", VStr "high");
         ("status", VStr status); ("createdAt", VDate 1700000000000);
         ("metadata", VNull) ].

(** One user, two projects of different owners, one pending approval. *)
Definition seeded_db : Database :=
  set_table users {| rows := [ VObj [ ("id", VInt 1); ("username", VStr "owner");
                                      ("password", VStr "x"); ("name", VNull);
                                      ("createdAt", VDate 1700000000000) ] ];
                     serial := 2 |}
    (set_table projects {| rows := [project 1 1 "site"; project 2 7 "tool"]; serial := 3 |}
       (set_table approvals {| rows := [approval 1 "Deploy site" "pending"]; serial := 2 |}
          empty_db)).

Definition state (d : Database) : State :=
  {| session_messages := None; db := d; uploads := []; queries := 0; ticks := 0;
     draws := 0; trace := [] |}.

(** A completion response carrying one choice. *)
Definition completion (c : string) : Value :=
  VObj [ ("choices",
          VArr [ VObj [ ("message",
                         VObj [("role", VStr "assistant"); ("content", VStr c)]) ] ]) ].

Definition world (key : option string) (api : ChatParams -> Value + string)
  (fault : nat -> option string) : Platform :=
  {| OPENAI_API_KEY := key; OPENAI_API_KEY_ENV_VAR := None; cwd := "/srv/app";
     completions := api; dbFault := fault;
     clock := fun n => 1700000000000 + Z.of_nat n;
     random := fun _ => (1 # 4)%Q;
     JSON_parse := fun _ => inr "Unexpected token";
     String_of := fun _ => "[object Object]";
     toISOString := string_of_Z;
     zod_format := fun _ => VNull |}.

Definition healthy : Platform :=
  world (Some "sk-test") (fun _ => inl (completion "hello")) (fun _ => None).


Definition api_down : Platform :=
  world (Some "sk-test") (fun _ => inr "429 rate limit exceeded") (fun _ => None).


Definition request (v : Verb) (segs : list string) (auth : bool) (b : Value) : Request :=
  {| verb := v; path := segs; isAuthenticated := auth;
     req_user := if auth then owner else VUndefined;
     body := b; query := VObj []; params := VObj []; part := None;
     file := VUndefined |}.

End Sample.

(* ===================================================================== *)
(** * The vocabulary of the statements *)
(* ===================================================================== *)

Import Routes.

Unset Implicit Arguments.

(** The answer of [ensureAuthenticated] to a request without a session. *)
Definition unauthorized : Response :=
  {| status := 401; json := VObj [("message", VStr "Unauthorized")] |}.

(** A chain is gated when [ensureAuthenticated] is its first middleware. *)
Definition gated (r : Route) : Prop :=
  exists rest, r_chain r = ensureAuthenticated :: rest.

(** The verb and path of the routes registered under [/api/approvals]. *)
Definition approval_routes (table : list Route) : list (Verb * list Segment) :=
  map (fun r => (r_verb r, r_path r))
      (filter (fun r => match r_path r with
                        | Lit a :: Lit b :: _ =>
                            String.eqb a "api" && String.eqb b "approvals"
                        | _ => false
                        end) table).

(** The requests that reached the completion API, oldest first. *)
Fixpoint api_calls (t : list Effect) : list ChatParams :=
  match t with
  | [] => []
  | ApiCall params :: rest => params :: api_calls rest
  | _ :: rest => api_calls rest
  end.

(** The text [createChatCompletion] throws when [isConfigured()] is false. *)
Definition key_missing : string := "OpenAI API key not configured".


(** [m] keeps [R] between the state it starts in and the one it ends in,
    whether it returns or throws. *)
Definition Keeps (R : State -> State -> Prop) {A} (m : Comp A) : Prop :=
  forall p s, R s (snd (m p s)).

(** Two readings of the trace besides [api_calls]. *)
Fixpoint proxy_calls (t : list Effect) : list ChatOptions :=
  match t with
  | [] => []
  | ProxyCall o :: rest => o :: proxy_calls rest
  | _ :: rest => proxy_calls rest
  end.

Fixpoint db_statements (t : list Effect) : list DbOp :=
  match t with
  | [] => []
  | DbQuery op :: rest => op :: db_statements rest
  | _ :: rest => db_statements rest
  end.

(** The storage layer may touch the tables, the counters and the record of
    its own statements; the conversation is the rest. *)
Definition same_conversation (s s' : State) : Prop :=
  session_messages s' = session_messages s
  /\ uploads s' = uploads s
  /\ api_calls (trace s') = api_calls (trace s)
  /\ proxy_calls (trace s') = proxy_calls (trace s).

(** Nothing is added to the trace. *)
Definition quiet (s s' : State) : Prop := trace s' = trace s.

(** A computation that leaves the conversation alone; one that adds nothing
    to the trace. *)
Definition Framed {A} (m : Comp A) : Prop := Keeps same_conversation m.

Definition Quiet {A} (m : Comp A) : Prop := Keeps quiet m.

(** An object all of whose methods leave the conversation alone. *)
Definition framed_object (o : Object) : Prop :=
  forall name f, o name = Some f -> forall args, Framed (f args).

(** What the router reports for a handler run behind [asyncHandler]. *)
Definition answer (r : Result Response * State) : Result Outcome * State :=
  match r with
  | (Returned res, s') => (Returned (Responded res), s')
  | (Thrown e, s') => (Returned (Forwarded e), s')
  end.

(** The message built for the content received, and the reply's. *)
Definition user_message (p : Platform) (s : State) (content : Value) : SessionMessage :=
  {| m_id := string_of_Z (clock p (ticks s)); m_role := s_user; m_content := content;
     m_timestamp := toISOString p (clock p (S (ticks s))) |}.

(** The session array once the user message is pushed. *)
Definition history (p : Platform) (s : State) (content : Value) : list SessionMessage :=
  (session_or_empty s ++ [user_message p s content])%list.

(** The options [POST /api/messages] hands to [createChatCompletion]. *)
Definition relayed (p : Platform) (s : State) (content : Value) : ChatOptions :=
  {| messages := system_message :: map relay (history p s content);
     model := None; temperature := Some (7 # 10)%Q;
     max_tokens := Some (inject_Z 1000); response_format := None |}.

(** The reply pushed after the completion: two more clock readings. *)
Definition assistant_message (p : Platform) (s : State) (c : Value) : SessionMessage :=
  {| m_id := string_of_Z (clock p (S (S (ticks s))) + 1); m_role := s_assistant;
     m_content := or_else c (VStr "");
     m_timestamp := toISOString p (clock p (S (S (S (ticks s))))) |}.

(** The state in which the completion is requested. *)
Definition received (p : Platform) (s : State) (content : Value) : State :=
  with_session (Some (history p s content))
    (count_tick (count_tick (with_session (Some (session_or_empty s)) s))).

(** The state in which the activity is recorded. *)
Definition replied (p : Platform) (s : State) (c c' : Value) : State :=
  with_session (Some (history p s c ++ [assistant_message p s c'])%list)
    (count_tick (count_tick
       (log_effect (ApiCall (OpenAI.params_of (relayed p s c)))
          (log_effect (ProxyCall (relayed p s c)) (received p s c))))).

(** The one record [POST /api/messages] passes to [storage.createActivity]:
    a type, a fixed description and the number of messages. *)
Definition chat_activity (n : Z) : Value :=
  VObj [ ("type", VStr "chat_interaction");
         ("description", VStr "Chat interaction with AI assistant");
         ("metadata", VObj [("messageCount", VInt n)]) ].

(** No table and no statement between [s] and [s']. *)
Definition database_untouched (s s' : State) : Prop :=
  db s' = db s /\ db_statements (trace s') = db_statements (trace s).

(** A session that already holds one exchange. *)
Definition chatting : State :=
  with_session
    (Some [ {| m_id := "1700000000000"; m_role := s_user; m_content := VStr "hi";
               m_timestamp := "2023-11-14T22:13:20.000Z" |};
            {| m_id := "1700000000901"; m_role := s_assistant;
               m_content := VStr "hello"; m_timestamp := "2023-11-14T22:13:20.900Z" |} ])
    (Sample.state Sample.seeded_db).







(** The tables are as they were. *)
Definition same_db (s s' : State) : Prop := db s' = db s.

(** Within the size limit and with an extension that, lower-cased, is on the
    allow-list. *)
Definition acceptable (f : FilePart) : bool :=
  (size f <=? 10 * 1024 * 1024)
  && Str.includes (Str.toLowerCase (Str.extname (originalname f))) allowedTypes.

(** The name a file is stored under: clock reading, rounded random draw and
    original name, joined by dashes. *)
Definition stored_name (p : Platform) (s : State) (f : FilePart) : string :=
  (string_of_Z (clock p (ticks s)) ++ "-"
   ++ string_of_Z (Math_round (random p (draws s) * inject_Z 1000000000)%Q))
  ++ "-" ++ originalname f.

(** The error a refused file is rejected with. *)
Definition refusal (f : FilePart) : JsError :=
  if Str.includes (Str.toLowerCase (Str.extname (originalname f))) allowedTypes
  then MulterError "LIMIT_FILE_SIZE" "File too large"
  else Error "Only common file types are allowed".

(** A small file whose extension is in upper case. *)
Definition report : FilePart :=
  {| fieldname := "file"; originalname := "Report.PDF"; encoding := "7bit";
     mimetype := "application/pdf"; data := "%PDF-1.7" |}.





(** The answer to a request that lacks something. *)
Definition bad_request (m : string) : Response :=
  {| status := 400; json := VObj [("message", VStr m)] |}.

(** The file the upload middleware writes for an accepted part, [req.file]
    as it describes it, and the state it leaves. *)
Definition stored_file (p : Platform) (s : State) (f : FilePart) : DiskFile :=
  {| f_dir := uploadDir p; f_name := stored_name p s f; f_data := data f;
     f_mtime := clock p (S (ticks s)) |}.

Definition described (p : Platform) (s : State) (f : FilePart) : Value :=
  VObj [ ("fieldname", VStr (fieldname f));
         ("originalname", VStr (originalname f));
         ("encoding", VStr (encoding f));
         ("mimetype", VStr (mimetype f));
         ("destination", VStr (uploadDir p));
         ("filename", VStr (stored_name p s f));
         ("path", VStr (Multer.path_join (uploadDir p) (stored_name p s f)));
         ("size", VInt (size f)) ].

Definition after_upload (p : Platform) (s : State) (f : FilePart) : State :=
  log_effect (DiskWrite (uploadDir p) (stored_name p s f))
    (with_uploads (uploads s ++ [stored_file p s f])%list
       (count_tick (count_draw (count_tick s)))).

(** Neither the stored files nor the tables change. *)
Definition same_uploads (s s' : State) : Prop := uploads s' = uploads s /\ db s' = db s.

(** An authenticated multipart request carrying the part [f]. *)
Definition upload_of (segs : list string) (f : FilePart) : Request :=
  {| verb := POST; path := segs; isAuthenticated := true; req_user := Sample.owner;
     body := VObj []; query := VObj []; params := VObj []; part := Some f;
     file := VUndefined |}.

(** The outcome of a registered route whose handler calls
    [storage.<accessor>]. *)
Definition not_a_function (accessor : string) (s : State) : Result Outcome * State :=
  (Returned (Forwarded (TypeError ("storage." ++ accessor ++ " is not a function"))), s).

(** Whether a character occurs in a text; whether a text is made of word
    characters. *)
Fixpoint has_char (c : ascii) (s : string) : bool :=
  match s with
  | EmptyString => false
  | String x r => Ascii.eqb x c || has_char c r
  end.

Fixpoint all_word (s : string) : bool :=
  match s with
  | EmptyString => true
  | String c r => Markdown.is_word c && all_word r
  end.

Definition fence : string := "```".

(** A fenced block: the opening fence, an optional language tag, a line
    break, the code and the closing fence. *)
Definition fenced (lang code : string) : string :=
  fence ++ lang ++ String Markdown.newline (code ++ fence).

(** One round trip that reads: a single [SELECT] on [t] is added to the
    trace and counted; tables, session and files are as they were. *)
Definition reads (t : TableName) (m : Comp Value) : Prop :=
  forall p s,
    let s' := snd (m p s) in
    trace s' = (trace s ++ [DbQuery (Select t)])%list
    /\ queries s' = S (queries s)
    /\ db s' = db s
    /\ session_messages s' = session_messages s
    /\ uploads s' = uploads s.


(** What the cell of column [c] holds in a row inserted from [values]: the
    value given, or the next serial number; and no other row has it when
    the column is unique. *)
Definition filled (t : TableName) (tb : Table) (values : Value) (c : Schema.Column)
  (kv : string * Value) : Prop :=
  fst kv = Schema.key c
  /\ (prop (Schema.key c) values <> VUndefined -> snd kv = prop (Schema.key c) values)
  /\ (prop (Schema.key c) values = VUndefined -> Schema.ctype c = Schema.serial_t ->
      snd kv = VInt (serial tb))
  /\ (Schema.unique c = true ->
      Db.exists_with (Schema.key c) (snd kv) (rows tb) = false).

(** Every row is at least as recent as the rows after it ([NULL] first). *)
Fixpoint newest_first (k : string) (l : list Value) : Prop :=
  match l with
  | [] => True
  | x :: r =>
      Forall (fun y => Db.before_desc (Db.sort_key k x) (Db.sort_key k y) = true) r
      /\ newest_first k r
  end.

(** [r] holds the [n] most recent rows of [l] (all of them when there are
    fewer), the most recent first: no row left out is more recent than one
    returned. *)
Definition newest (k : string) (n : nat) (l r : list Value) : Prop :=
  List.length r = Nat.min n (List.length l)
  /\ incl r l
  /\ newest_first k r
  /\ exists rest,
       (forall x, In x l <-> In x r \/ In x rest)
       /\ forall x y, In x r -> In y rest ->
                      Db.before_desc (Db.sort_key k x) (Db.sort_key k y) = true.

(** Two deployments as [GET /api/deployments] lists them, the second one
    without a project. *)
Definition sample_deployments : list Value :=
  [ VObj [("id", VInt 1); ("projectId", VInt 7); ("environment", VStr "staging")];
    VObj [("id", VInt 2); ("projectId", VNull); ("environment", VStr "production")] ].

(* ===================================================================== *)
(** * Properties *)
(* ===================================================================== *)

(** ** The authentication gate *)

Lemma ensureAuthenticated_refuses req p s :
  isAuthenticated req = false ->
  ensureAuthenticated req p s = (Returned (Sent unauthorized), s).
Proof.
  intros H. unfold ensureAuthenticated. rewrite H. reflexivity.
Qed.

Lemma ensureAuthenticated_passes req p s :
  isAuthenticated req = true ->
  ensureAuthenticated req p s = (Returned (Next req), s).
Proof.
  intros H. unfold ensureAuthenticated. rewrite H. reflexivity.
Qed.

Lemma gated_refuses r req p s :
  gated r -> isAuthenticated req = false ->
  run (r_chain r) req p s = (Returned (Responded unauthorized), s).
Proof.
  intros [rest Hr] H. rewrite Hr. simpl.
  rewrite (ensureAuthenticated_refuses _ p s H). reflexivity.
Qed.

Lemma routes_gated storage : Forall gated (routes storage).
Proof.
  unfold routes. repeat (constructor; [eexists; reflexivity |]). constructor.
Qed.

Lemma with_params_authenticated ps req :
  isAuthenticated (with_params ps req) = isAuthenticated req.
Proof. reflexivity. Qed.

(** On a gated table an unauthenticated request is refused by the first
    route it matches, and the search stops there. *)
Lemma dispatch_gated_refuses table req p s :
  Forall gated table -> isAuthenticated req = false ->
  forall r ps, In r table -> matches r req = Some ps ->
  dispatch table req p s = (Returned (Responded unauthorized), s).
Proof.
  intros Hall Hu. induction Hall as [| r0 rest Hg _ IH]; intros r ps Hin Hm.
  - contradiction.
  - simpl. destruct (matches r0 req) as [ps0 |] eqn:E0.
    + rewrite (gated_refuses r0 (with_params (VObj ps0) req) p s Hg)
        by (rewrite with_params_authenticated; exact Hu).
      reflexivity.
    + destruct Hin as [-> | Hin]; [congruence | eauto].
Qed.

(** C4. Every route of the table starts with the authentication check: a
    request whose session is not authenticated gets status 401 with the body
    [{"message": "Unauthorized"}], both from the chain of any single route
    and from the router as soon as one route matches; the state comes back
    as it was, so no statement reached the database, the AI proxy was not
    entered, nothing was sent to the completion API and no file was
    written.  The table is taken over any binding of [storage]. *)
Theorem unauthenticated_request_is_refused :
  forall (storage : Object) (req : Request) (p : Platform) (s : State),
    isAuthenticated req = false ->
    (forall r, In r (routes storage) ->
       run (r_chain r) req p s = (Returned (Responded unauthorized), s))
    /\ (forall r ps, In r (routes storage) -> matches r req = Some ps ->
          dispatch (routes storage) req p s = (Returned (Responded unauthorized), s)).
Proof.
  intros storage req p s Hu. split.
  - intros r Hin. apply gated_refuses; [| exact Hu].
    exact (proj1 (Forall_forall _ _) (routes_gated storage) r Hin).
  - intros r ps Hin Hm.
    exact (dispatch_gated_refuses _ req p s (routes_gated storage) Hu r ps Hin Hm).
Qed.

Lemma unauthenticated_request_is_refused_witness :
  dispatch registerRoutes (Sample.request GET ["api"; "projects"] false VUndefined)
           Sample.healthy (Sample.state Sample.seeded_db)
  = (Returned (Responded unauthorized), Sample.state Sample.seeded_db).
Proof.
  refine (proj2 (unauthenticated_request_is_refused
                   (Multer.as_object diskStorage)
                   (Sample.request GET ["api"; "projects"] false VUndefined)
                   Sample.healthy (Sample.state Sample.seeded_db) eq_refl)
                (guarded GET [Lit "projects"] (get_projects (Multer.as_object diskStorage)))
                [] _ eq_refl).
  left. reflexivity.
Defined.

(** ** The dashboard's approve / reject request *)

Lemma approve_reject_matches_nothing storage seg last req :
  verb req = POST ->
  path req = ["api"; "approvals"; seg; last] ->
  forall r, In r (routes storage) -> matches r req = None.
Proof.
  intros Hv Hp r Hin. unfold matches. rewrite Hv, Hp.
  unfold routes in Hin. simpl in Hin.
  repeat (destruct Hin as [<- | Hin]; [reflexivity |]).
  contradiction.
Qed.

Lemma dispatch_without_match table req p s :
  (forall r, In r table -> matches r req = None) ->
  dispatch table req p s = (Returned Unhandled, s).
Proof.
  induction table as [| r rest IH]; intros H; simpl.
  - reflexivity.
  - rewrite (H r (or_introl eq_refl)). apply IH.
    intros r' Hin. apply H. right. exact Hin.
Qed.

(** C9. The dashboard sends [POST /api/approvals/<id>/approve] (or
    [.../reject]).  Under [/api/approvals] the server registers two [GET]
    routes and [PATCH /api/approvals/:id/status] only; whatever the id, no
    registered route matches the dashboard's request, the router leaves it
    unhandled, and the state (the approvals table with it) is unchanged. *)
Theorem dashboard_approval_matches_no_route :
  forall (storage : Object) (id : Z) (approved : bool) (req : Request)
         (p : Platform) (s : State),
    (verb req, path req) = Dashboard.handleApproval id approved ->
    approval_routes (routes storage)
    = [ (GET, [Lit "api"; Lit "approvals"]);
        (GET, [Lit "api"; Lit "approvals"; Lit "count"]);
        (PATCH, [Lit "api"; Lit "approvals"; Param "id"; Lit "status"]) ]
    /\ (forall r, In r (routes storage) -> matches r req = None)
    /\ dispatch (routes storage) req p s = (Returned Unhandled, s).
Proof.
  intros storage id approved req p s H.
  unfold Dashboard.handleApproval in H. injection H as Hv Hp.
  assert (Hnone : forall r, In r (routes storage) -> matches r req = None)
    by (eapply approve_reject_matches_nothing; eassumption).
  split; [reflexivity | split; [exact Hnone |]].
  apply dispatch_without_match. exact Hnone.
Qed.

Lemma dashboard_approval_matches_no_route_witness :
  dispatch registerRoutes
           (Sample.request POST ["api"; "approvals"; "1"; "approve"] true VUndefined)
           Sample.healthy (Sample.state Sample.seeded_db)
  = (Returned Unhandled, Sample.state Sample.seeded_db).
Proof.
  exact (proj2 (proj2 (dashboard_approval_matches_no_route
                         (Multer.as_object diskStorage) 1 true
                         (Sample.request POST ["api"; "approvals"; "1"; "approve"] true VUndefined)
                         Sample.healthy (Sample.state Sample.seeded_db) eq_refl))).
Defined.

(** ** The AI proxy without a key *)

Lemma api_calls_app t1 t2 : api_calls (t1 ++ t2)%list = (api_calls t1 ++ api_calls t2)%list.
Proof.
  induction t1 as [| e t1 IH]; simpl; [reflexivity |].
  destruct e; simpl; rewrite IH; reflexivity.
Qed.


Lemma unset_environment_is_not_configured p :
  OPENAI_API_KEY p = None -> OPENAI_API_KEY_ENV_VAR p = None ->
  OpenAI.configured p = false.
Proof.
  intros H1 H2. unfold OpenAI.configured, OpenAI.apiKey, OpenAI.env_or.
  rewrite H1, H2. reflexivity.
Qed.

Lemma createChatCompletion_unconfigured o p s :
  OpenAI.configured p = false ->
  OpenAI.createChatCompletion o p s
  = (Thrown (Error key_missing), log_effect (ProxyCall o) s).
Proof.
  intros H. unfold OpenAI.createChatCompletion, OpenAI.isConfigured, bind, emit,
    modify, platform, ret, throw. rewrite H. reflexivity.
Qed.

Lemma createChatCompletion_failure o p s msg :
  OpenAI.configured p = true ->
  completions p (OpenAI.params_of o) = inr msg ->
  OpenAI.createChatCompletion o p s
  = (Thrown (Error ("OpenAI API error: " ++ msg)),
     log_effect (ApiCall (OpenAI.params_of o)) (log_effect (ProxyCall o) s)).
Proof.
  intros H Hc. unfold OpenAI.createChatCompletion, OpenAI.isConfigured,
    OpenAI.chat_completions_create, try_catch, bind, emit, modify, platform, ret, throw.
  rewrite H. simpl. rewrite Hc. reflexivity.
Qed.

Lemma createChatCompletion_success o p s response :
  OpenAI.configured p = true ->
  completions p (OpenAI.params_of o) = inl response ->
  OpenAI.createChatCompletion o p s
  = (Returned response,
     log_effect (ApiCall (OpenAI.params_of o)) (log_effect (ProxyCall o) s)).
Proof.
  intros H Hc. unfold OpenAI.createChatCompletion, OpenAI.isConfigured,
    OpenAI.chat_completions_create, try_catch, bind, emit, modify, platform, ret, throw.
  rewrite H. simpl. rewrite Hc. reflexivity.
Qed.





(** ** Frame reasoning: what a computation leaves alone *)

Section Preservation.

Variable R : State -> State -> Prop.
Hypothesis R_refl : forall s, R s s.
Hypothesis R_trans : forall s1 s2 s3, R s1 s2 -> R s2 s3 -> R s1 s3.

Lemma Keeps_ret A (a : A) : Keeps R (ret a).
Proof. intros p s. apply R_refl. Qed.

Lemma Keeps_throw A e : Keeps R (@throw A e).
Proof. intros p s. apply R_refl. Qed.

Lemma Keeps_lift A (r : Result A) : Keeps R (lift r).
Proof. intros p s. apply R_refl. Qed.

Lemma Keeps_platform : Keeps R platform.
Proof. intros p s. apply R_refl. Qed.

Lemma Keeps_get_state : Keeps R get_state.
Proof. intros p s. apply R_refl. Qed.

Lemma Keeps_bind A B (m : Comp A) (k : A -> Comp B) :
  Keeps R m -> (forall a, Keeps R (k a)) -> Keeps R (bind m k).
Proof.
  intros Hm Hk p s. unfold bind. specialize (Hm p s).
  destruct (m p s) as [[a | e] s1]; simpl in *.
  - eapply R_trans; [exact Hm | apply Hk].
  - exact Hm.
Qed.

Lemma Keeps_try_catch A (m : Comp A) (h : JsError -> Comp A) :
  Keeps R m -> (forall e, Keeps R (h e)) -> Keeps R (try_catch m h).
Proof.
  intros Hm Hh p s. unfold try_catch. specialize (Hm p s).
  destruct (m p s) as [[a | e] s1]; simpl in *.
  - exact Hm.
  - eapply R_trans; [exact Hm | apply Hh].
Qed.

Lemma Keeps_mapM A B (f : A -> Comp B) (l : list A) :
  (forall a, Keeps R (f a)) -> Keeps R (mapM f l).
Proof.
  intros Hf. induction l as [| x l IH]; simpl.
  - apply Keeps_ret.
  - apply Keeps_bind; [apply Hf | intros y].
    apply Keeps_bind; [exact IH | intros ys]. apply Keeps_ret.
Qed.


End Preservation.

Lemma proxy_calls_app t1 t2 :
  proxy_calls (t1 ++ t2)%list = (proxy_calls t1 ++ proxy_calls t2)%list.
Proof.
  induction t1 as [| e t1 IH]; simpl; [reflexivity |].
  destruct e; simpl; rewrite IH; reflexivity.
Qed.

Lemma db_statements_app t1 t2 :
  db_statements (t1 ++ t2)%list = (db_statements t1 ++ db_statements t2)%list.
Proof.
  induction t1 as [| e t1 IH]; simpl; [reflexivity |].
  destruct e; simpl; rewrite IH; reflexivity.
Qed.

Lemma same_conversation_refl s : same_conversation s s.
Proof. repeat split. Qed.

Lemma same_conversation_trans s1 s2 s3 :
  same_conversation s1 s2 -> same_conversation s2 s3 -> same_conversation s1 s3.
Proof.
  intros (A1 & A2 & A3 & A4) (B1 & B2 & B3 & B4).
  repeat split; etransitivity; eassumption.
Qed.

Lemma quiet_refl s : quiet s s.
Proof. reflexivity. Qed.

Lemma quiet_trans s1 s2 s3 : quiet s1 s2 -> quiet s2 s3 -> quiet s1 s3.
Proof. unfold quiet. intros H1 H2. congruence. Qed.

Lemma Framed_statement op : Framed (Db.statement op).
Proof.
  intros p s. unfold Db.statement.
  destruct (dbFault p (queries s)); simpl;
    (repeat split; simpl;
     [rewrite api_calls_app | rewrite proxy_calls_app]; simpl;
     now rewrite app_nil_r).
Qed.

Lemma Framed_Date_now : Framed Date_now.
Proof. intros p s. repeat split. Qed.

Lemma Quiet_Date_now : Quiet Date_now.
Proof. intros p s. reflexivity. Qed.

Lemma Framed_store t x : Framed (Db.store t x).
Proof. intros p s. repeat split. Qed.

Lemma Quiet_store t x : Quiet (Db.store t x).
Proof. intros p s. reflexivity. Qed.

(** Structural decomposition of a computation against a preserved relation;
    [prim] closes the steps that are not one of the combinators. *)
Ltac keeps_with R Hrefl Htrans prim :=
  repeat
    lazymatch goal with
    | |- Keeps _ (ret _) => apply (Keeps_ret R Hrefl)
    | |- Keeps _ (throw _) => apply (Keeps_throw R Hrefl)
    | |- Keeps _ (lift _) => apply (Keeps_lift R Hrefl)
    | |- Keeps _ platform => apply (Keeps_platform R Hrefl)
    | |- Keeps _ get_state => apply (Keeps_get_state R Hrefl)
    | |- Keeps _ (bind _ _) => apply (Keeps_bind R Htrans); [| intros ?]
    | |- Keeps _ (try_catch _ _) => apply (Keeps_try_catch R Htrans); [| intros ?]
    | |- Keeps _ (mapM _ _) => apply (Keeps_mapM R Hrefl Htrans); intros ?
    | |- Keeps _ (if ?b then _ else _) => destruct b
    | |- Keeps _ (match ?x with _ => _ end) => destruct x
    | |- Keeps _ _ => prim
    end.

Ltac framed_by prim :=
  unfold Framed;
  keeps_with same_conversation same_conversation_refl same_conversation_trans prim.

Ltac quiet_by prim :=
  unfold Quiet;
  keeps_with quiet quiet_refl quiet_trans prim.

Lemma Framed_parameter v : Framed (Db.parameter v).
Proof. unfold Db.parameter. framed_by fail. Qed.

Lemma Framed_current t : Framed (Db.current t).
Proof. unfold Db.current. framed_by fail. Qed.

Lemma Quiet_current t : Quiet (Db.current t).
Proof. unfold Db.current. quiet_by fail. Qed.

Lemma Framed_select_where t f : Framed (Db.select_where t f).
Proof.
  unfold Db.select_where.
  framed_by ltac:(first [apply Framed_statement | apply Framed_current]).
Qed.

Lemma Framed_select_by t k v : Framed (Db.select_by t k v).
Proof.
  unfold Db.select_by.
  framed_by ltac:(first [ apply Framed_statement | apply Framed_parameter
                        | apply Framed_current ]).
Qed.

Lemma Framed_limit n l : Framed (Db.limit n l).
Proof. unfold Db.limit. framed_by fail. Qed.

Lemma Framed_check t c v others : Framed (Db.check t c v others).
Proof. unfold Db.check. framed_by fail. Qed.

Lemma Quiet_check t c v others : Quiet (Db.check t c v others).
Proof. unfold Db.check. quiet_by fail. Qed.

Lemma Framed_fill t tb values c : Framed (Db.fill t tb values c).
Proof.
  unfold Db.fill. framed_by ltac:(first [apply Framed_check | apply Framed_Date_now]).
Qed.

Lemma Quiet_fill t tb values c : Quiet (Db.fill t tb values c).
Proof.
  unfold Db.fill. quiet_by ltac:(first [apply Quiet_check | apply Quiet_Date_now]).
Qed.

Lemma Framed_insert t values : Framed (Db.insert t values).
Proof.
  unfold Db.insert.
  framed_by ltac:(first [ apply Framed_statement | apply Framed_current
                        | apply Framed_fill | apply Framed_store ]).
Qed.

Lemma Framed_update_by t data k v : Framed (Db.update_by t data k v).
Proof.
  unfold Db.update_by. cbv zeta.
  framed_by ltac:(first [ apply Framed_statement | apply Framed_parameter
                        | apply Framed_current | apply Framed_check
                        | apply Framed_store ]).
Qed.

(** An insert adds its own statement to the trace and nothing else. *)
Lemma insert_trace t values p s :
  trace (snd (Db.insert t values p s)) = (trace s ++ [DbQuery (Insert t values)])%list.
Proof.
  unfold Db.insert. unfold bind at 1. unfold Db.statement.
  destruct (dbFault p (queries s)); [reflexivity |].
  match goal with
  | |- trace (snd (?m p ?s1)) = _ =>
      assert (Hq : Quiet m); [| exact (Hq p s1)]
  end.
  quiet_by ltac:(first [apply Quiet_current | apply Quiet_fill | apply Quiet_store]).
Qed.

Lemma member_of_In table name f :
  member_of table name = Some f -> exists n, In (n, f) table.
Proof.
  induction table as [| [n g] rest IH]; simpl; [discriminate |].
  destruct (String.eqb name n).
  - intros [= <-]. exists n. left. reflexivity.
  - intros H. destruct (IH H) as [n' Hin]. exists n'. right. exact Hin.
Qed.

Ltac framed_db :=
  framed_by ltac:(first [ apply Framed_insert | apply Framed_update_by
                        | apply Framed_select_where | apply Framed_select_by
                        | apply Framed_limit | apply Framed_Date_now ]).

Lemma database_storage_framed : framed_object Storage.DatabaseStorage.
Proof.
  intros name f H args. unfold Storage.DatabaseStorage in H.
  apply member_of_In in H. destruct H as [n Hin]. simpl in Hin.
  repeat (destruct Hin as [[= _ <-] | Hin];
          [ cbv beta delta
              [ Storage.getUser Storage.getUserByUsername Storage.createUser
                Storage.getProjects Storage.getProject Storage.createProject
                Storage.getRecentProjects Storage.getDeployments
                Storage.createDeployment Storage.getEnvironments
                Storage.getEnvironment Storage.updateEnvironment
                Storage.getIntegrations Storage.createIntegration
                Storage.getActivities Storage.createActivity Storage.getApprovals
                Storage.getApprovalsCount Storage.updateApprovalStatus
                Storage.getLogs Storage.createLog Db.select_all ];
            framed_db |]).
  contradiction.
Qed.



(** ** Routing an authenticated request to its handler *)

Lemma run_guarded fn req p s :
  isAuthenticated req = true ->
  run [ensureAuthenticated; asyncHandler fn] req p s = answer (fn req p s).
Proof.
  intros H. simpl. rewrite (ensureAuthenticated_passes _ p s H).
  unfold asyncHandler, try_catch, bind, ret, answer.
  destruct (fn req p s) as [[res | e] s']; reflexivity.
Qed.

Lemma answer_handled r : fst (answer r) <> Returned Unhandled.
Proof. destruct r as [[res | e] s']; discriminate. Qed.

Lemma dispatch_hit pre v pat fn post req p s ps :
  (forall r, In r pre -> matches r req = None) ->
  matches (guarded v pat fn) req = Some ps ->
  isAuthenticated req = true ->
  dispatch (pre ++ guarded v pat fn :: post) req p s
  = answer (fn (with_params (VObj ps) req) p s).
Proof.
  intros Hpre Hm Ha. induction pre as [| r pre IH]; cbn [app dispatch].
  - rewrite Hm. change (r_chain (guarded v pat fn))
      with [ensureAuthenticated; asyncHandler fn].
    rewrite run_guarded by exact Ha.
    pose proof (answer_handled (fn (with_params (VObj ps) req) p s)) as Hh.
    destruct (answer (fn (with_params (VObj ps) req) p s)) as [[[res | e |] | e] s'];
      try reflexivity. now destruct Hh.
  - rewrite (Hpre r (or_introl eq_refl)). apply IH.
    intros r' Hin. apply Hpre. right. exact Hin.
Qed.

(** The routes before position [n] cannot take the request, the one at [n]
    is guarded by the authentication check alone and takes it. *)
Ltac route_hit n storage Hv Hp Ha :=
  change (routes storage)
    with (firstn n (routes storage) ++ nth n (routes storage) (guarded GET [] (fun _ => throw (Error ""))) :: skipn (S n) (routes storage))%list;
  cbn [nth routes];
  apply dispatch_hit;
  [ intros r Hin; unfold matches; rewrite Hv, Hp; cbn [firstn routes] in Hin;
    repeat (destruct Hin as [<- | Hin]; [reflexivity |]); contradiction
  | unfold matches; rewrite Hv, Hp; reflexivity
  | exact Ha ].

Lemma dispatch_get_projects storage req p s :
  verb req = GET -> path req = ["api"; "projects"] -> isAuthenticated req = true ->
  dispatch (routes storage) req p s
  = answer (get_projects storage (with_params (VObj []) req) p s).
Proof. intros Hv Hp Ha. route_hit 0%nat storage Hv Hp Ha. Qed.

Lemma dispatch_get_messages storage req p s :
  verb req = GET -> path req = ["api"; "messages"] -> isAuthenticated req = true ->
  dispatch (routes storage) req p s
  = answer (get_messages (with_params (VObj []) req) p s).
Proof. intros Hv Hp Ha. route_hit 16%nat storage Hv Hp Ha. Qed.

Lemma dispatch_post_messages storage req p s :
  verb req = POST -> path req = ["api"; "messages"] -> isAuthenticated req = true ->
  dispatch (routes storage) req p s
  = answer (post_messages storage (with_params (VObj []) req) p s).
Proof. intros Hv Hp Ha. route_hit 17%nat storage Hv Hp Ha. Qed.

Lemma dispatch_post_messages_reset storage req p s :
  verb req = POST -> path req = ["api"; "messages"; "reset"] ->
  isAuthenticated req = true ->
  dispatch (routes storage) req p s
  = answer (post_messages_reset (with_params (VObj []) req) p s).
Proof. intros Hv Hp Ha. route_hit 18%nat storage Hv Hp Ha. Qed.

(** ** The chat relay *)

Lemma destructure_truthy o k what p s :
  truthy (prop k o) = true -> destructure o k what p s = (Returned (prop k o), s).
Proof. destruct o; simpl; try discriminate; reflexivity. Qed.

Ltac open_post_messages req s Ht :=
  unfold post_messages; unfold bind at 1;
  rewrite (destructure_truthy _ _ _ _ _ Ht), Ht; cbn [negb];
  unfold push_message;
  unfold bind, modify, platform, Date_now, try_catch, get_state,
    OpenAI.first_content, lift, respond, ret; cbv beta iota zeta;
  match goal with
  | |- context [OpenAI.createChatCompletion ?o ?p ?st] =>
      change o with (relayed p s (prop "content" (body req)));
      change st with (received p s (prop "content" (body req)))
  end.

Lemma post_messages_api_failure storage req p s msg :
  truthy (prop "content" (body req)) = true ->
  OpenAI.configured p = true ->
  completions p (OpenAI.params_of (relayed p s (prop "content" (body req)))) = inr msg ->
  post_messages storage req p s
  = (Returned {| status := 500;
                 json := error_body "Error processing message"
                                    (Error ("OpenAI API error: " ++ msg)) |},
     log_effect (ApiCall (OpenAI.params_of (relayed p s (prop "content" (body req)))))
       (log_effect (ProxyCall (relayed p s (prop "content" (body req))))
          (received p s (prop "content" (body req))))).
Proof.
  intros Ht Hc Ha. open_post_messages req s Ht.
  rewrite (createChatCompletion_failure (relayed p s (prop "content" (body req))) p _ msg Hc Ha).
  reflexivity.
Qed.

Lemma post_messages_without_key storage req p s :
  truthy (prop "content" (body req)) = true ->
  OpenAI.configured p = false ->
  post_messages storage req p s
  = (Returned {| status := 500;
                 json := error_body "Error processing message" (Error key_missing) |},
     log_effect (ProxyCall (relayed p s (prop "content" (body req))))
          (received p s (prop "content" (body req)))).
Proof.
  intros Ht Hc. open_post_messages req s Ht.
  rewrite (createChatCompletion_unconfigured (relayed p s (prop "content" (body req))) p _ Hc).
  reflexivity.
Qed.

Lemma post_messages_reply storage req p s response c' :
  truthy (prop "content" (body req)) = true ->
  OpenAI.configured p = true ->
  completions p (OpenAI.params_of (relayed p s (prop "content" (body req)))) = inl response ->
  OpenAI.content_of response = Returned c' ->
  post_messages storage req p s
  = let c := prop "content" (body req) in
    match activity storage "chat_interaction" "Chat interaction with AI assistant"
            [("metadata",
              VObj [("messageCount",
                     VInt (Z.of_nat (List.length (history p s c ++ [assistant_message p s c'])%list)))])]
            p (replied p s c c') with
    | (Returned _, s3) =>
        (Returned {| status := 201; json := message_value (assistant_message p s c') |}, s3)
    | (Thrown e, s3) =>
        (Returned {| status := 500; json := error_body "Error processing message" e |}, s3)
    end.
Proof.
  intros Ht Hc Ha Hr. open_post_messages req s Ht.
  rewrite (createChatCompletion_success (relayed p s (prop "content" (body req))) p _ response Hc Ha).
  rewrite Hr. cbv zeta.
  match goal with
  | |- _ = (let (_, _) := ?rhs in _) => set (A := rhs)
  end.
  match goal with
  | |- context [activity storage ?t ?d ?x p ?st] =>
      change (activity storage t d x p st) with A
  end.
  destruct A as [[v | e] s3]; reflexivity.
Qed.

Lemma post_messages_unreadable_reply storage req p s response e :
  truthy (prop "content" (body req)) = true ->
  OpenAI.configured p = true ->
  completions p (OpenAI.params_of (relayed p s (prop "content" (body req)))) = inl response ->
  OpenAI.content_of response = Thrown e ->
  post_messages storage req p s
  = (Returned {| status := 500; json := error_body "Error processing message" e |},
     count_tick
       (log_effect (ApiCall (OpenAI.params_of (relayed p s (prop "content" (body req)))))
          (log_effect (ProxyCall (relayed p s (prop "content" (body req))))
             (received p s (prop "content" (body req)))))).
Proof.
  intros Ht Hc Ha Hr. open_post_messages req s Ht.
  rewrite (createChatCompletion_success (relayed p s (prop "content" (body req))) p _ response Hc Ha).
  rewrite Hr. reflexivity.
Qed.


(** C8. Take an authenticated [POST /api/messages] with non-empty content
    whose completion call fails: the API answers with an error, or the call
    stops for lack of a key.  The handler answers 500 with the body
    [{message: "Error processing message", error: <text of the error>}] (the
    API's own text follows the proxy's "OpenAI API error: "), and the session
    array ends with the user message pushed before the call: nothing is
    rolled back. *)
Theorem failed_completion_keeps_the_user_message :
  forall (storage : Object) (req : Request) (p : Platform) (s : State),
    verb req = POST -> path req = ["api"; "messages"] ->
    isAuthenticated req = true ->
    truthy (prop "content" (body req)) = true ->
    (forall msg,
       OpenAI.configured p = true ->
       completions p (OpenAI.params_of (relayed p s (prop "content" (body req))))
       = inr msg ->
       exists s',
         dispatch (routes storage) req p s
         = (Returned (Responded
              {| status := 500;
                 json := VObj [ ("message", VStr "Error processing message");
                                ("error", VStr ("OpenAI API error: " ++ msg)) ] |}), s')
         /\ session_messages s'
            = Some (session_or_empty s
                      ++ [user_message p s (prop "content" (body req))])%list)
    /\ (OpenAI.configured p = false ->
        exists s',
          dispatch (routes storage) req p s
          = (Returned (Responded
               {| status := 500;
                  json := VObj [ ("message", VStr "Error processing message");
                                 ("error", VStr "OpenAI API key not configured") ] |}), s')
          /\ session_messages s'
             = Some (session_or_empty s
                       ++ [user_message p s (prop "content" (body req))])%list).
Proof.
  intros storage req p s Hv Hp Ha Ht. split.
  - intros msg Hc Hf. eexists. split.
    + rewrite (dispatch_post_messages storage req p s Hv Hp Ha).
      rewrite (post_messages_api_failure storage (with_params (VObj []) req) p s msg Ht Hc Hf).
      reflexivity.
    + reflexivity.
  - intros Hc. eexists. split.
    + rewrite (dispatch_post_messages storage req p s Hv Hp Ha).
      rewrite (post_messages_without_key storage (with_params (VObj []) req) p s Ht Hc).
      reflexivity.
    + reflexivity.
Qed.

Lemma failed_completion_keeps_the_user_message_witness :
  exists s',
    dispatch registerRoutes
             (Sample.request POST ["api"; "messages"] true (VObj [("content", VStr "hi")]))
             Sample.api_down (Sample.state Sample.empty_db)
    = (Returned (Responded
         {| status := 500;
            json := VObj [ ("message", VStr "Error processing message");
                           ("error", VStr "OpenAI API error: 429 rate limit exceeded") ] |}), s')
    /\ session_messages s'
       = Some [ {| m_id := "1700000000000"; m_role := s_user; m_content := VStr "hi";
                   m_timestamp := "1700000000001" |} ].
Proof.
  exact (proj1 (failed_completion_keeps_the_user_message
                  (Multer.as_object diskStorage)
                  (Sample.request POST ["api"; "messages"] true (VObj [("content", VStr "hi")]))
                  Sample.api_down (Sample.state Sample.empty_db)
                  eq_refl eq_refl eq_refl eq_refl)
               "429 rate limit exceeded" eq_refl eq_refl).
Defined.







(** Over the accessors of storage.ts the same request is answered 201 with
    the assistant message, and one activity row holding the message count is
    inserted. *)
Example chat_relay_over_database_accessors :
  dispatch routes_over_database
           (Sample.request POST ["api"; "messages"] true (VObj [("content", VStr "hi")]))
           Sample.healthy (Sample.state Sample.empty_db)
  = (Returned (Responded
       {| status := 201;
          json := VObj [ ("id", VStr "1700000000003"); ("role", VStr "assistant");
                         ("content", VStr "hello");
                         ("timestamp", VStr "1700000000003") ] |}),
     snd (dispatch routes_over_database
           (Sample.request POST ["api"; "messages"] true (VObj [("content", VStr "hi")]))
           Sample.healthy (Sample.state Sample.empty_db)))
  /\ rows (t_activities (db (snd (dispatch routes_over_database
           (Sample.request POST ["api"; "messages"] true (VObj [("content", VStr "hi")]))
           Sample.healthy (Sample.state Sample.empty_db)))))
     = [ VObj [ ("id", VInt 1); ("type", VStr "chat_interaction");
                ("description", VStr "Chat interaction with AI assistant");
                ("projectId", VNull); ("timestamp", VDate 1700000000004);
                ("metadata", VObj [("messageCount", VInt 2)]) ] ].
Proof.
  split; vm_compute; reflexivity.
Qed.

(** ** What the messages endpoints hand to the persistence layer *)

Lemma database_untouched_by_log e st :
  (forall op, e <> DbQuery op) -> database_untouched st (log_effect e st).
Proof.
  intros H. split; [reflexivity |]. simpl. rewrite db_statements_app. simpl.
  destruct e as [op | o | q | dir name | path];
    try (now rewrite app_nil_r). now destruct (H op).
Qed.

Lemma database_untouched_trans s1 s2 s3 :
  database_untouched s1 s2 -> database_untouched s2 s3 -> database_untouched s1 s3.
Proof. intros [A B] [C D]. split; congruence. Qed.

Lemma database_untouched_received p s c : database_untouched s (received p s c).
Proof. split; reflexivity. Qed.

Lemma database_untouched_asked p s c :
  database_untouched s
    (log_effect (ApiCall (OpenAI.params_of (relayed p s c)))
       (log_effect (ProxyCall (relayed p s c)) (received p s c))).
Proof.
  eapply database_untouched_trans; [apply database_untouched_received |].
  eapply database_untouched_trans; apply database_untouched_by_log; discriminate.
Qed.

(** Over the accessors of storage.ts, recording the chat activity sends one
    statement: the insert of that record and a timestamp. *)
Lemma createActivity_statements n p st :
  db_statements
    (trace (snd (call "storage" Storage.DatabaseStorage "createActivity"
                      [chat_activity n] p st)))
  = (db_statements (trace st)
       ++ [ Insert activities
              (VObj [ ("type", VStr "chat_interaction");
                      ("description", VStr "Chat interaction with AI assistant");
                      ("metadata", VObj [("messageCount", VInt n)]);
                      ("timestamp", VDate (clock p (ticks st))) ]) ])%list.
Proof.
  unfold call.
  change (Storage.DatabaseStorage "createActivity")
    with (Some (fun a : list Value => Storage.createActivity (arg 0 a))).
  cbn [arg nth]. unfold Storage.createActivity.
  unfold bind at 1. cbn [Date_now].
  change (spread (own_fields (chat_activity n)) [("timestamp", VDate (clock p (ticks st)))])
    with [ ("type", VStr "chat_interaction");
           ("description", VStr "Chat interaction with AI assistant");
           ("metadata", VObj [("messageCount", VInt n)]);
           ("timestamp", VDate (clock p (ticks st))) ].
  unfold bind.
  match goal with
  | |- context [Db.insert activities ?v p ?s0] =>
      pose proof (insert_trace activities v p s0) as Ht;
      destruct (Db.insert activities v p s0) as [[r | e] s1]
  end; cbn [snd ret] in *; rewrite Ht; cbn [trace count_tick];
    rewrite db_statements_app; reflexivity.
Qed.

(** C7. For every binding of [storage]:
    - [GET /api/messages] answers with the session array and changes nothing;
    - [POST /api/messages/reset] answers 200 and leaves the session array
      empty, the rest of the state as it was;
    - a [GET /api/messages] right after the reset answers with [[]];
    - [POST /api/messages] either leaves the database untouched, or ends in
      one call of [storage.createActivity], made while the database is still
      untouched, on a record that holds a type, a fixed description and a
      message count, and no message.
    Over the accessors of storage.ts that call sends exactly one statement,
    the insert of that record with a timestamp. *)
Theorem conversation_stays_in_the_session :
  forall (storage : Object) (req : Request) (p : Platform) (s : State),
    isAuthenticated req = true ->
    (verb req = GET -> path req = ["api"; "messages"] ->
     dispatch (routes storage) req p s
     = (Returned (Responded {| status := 200;
                               json := VArr (map message_value (session_or_empty s)) |}), s))
    /\ (verb req = POST -> path req = ["api"; "messages"; "reset"] ->
        dispatch (routes storage) req p s
        = (Returned (Responded
             {| status := 200;
                json := VObj [("message", VStr "Conversation reset successfully")] |}),
           with_session (Some []) s)
        /\ forall req',
             isAuthenticated req' = true -> verb req' = GET ->
             path req' = ["api"; "messages"] ->
             dispatch (routes storage) req' p (with_session (Some []) s)
             = (Returned (Responded {| status := 200; json := VArr [] |}),
                with_session (Some []) s))
    /\ (verb req = POST -> path req = ["api"; "messages"] ->
        (exists out s',
           dispatch (routes storage) req p s = (Returned out, s')
           /\ database_untouched s s')
        \/ (exists n st created failed,
              database_untouched s st
              /\ dispatch (routes storage) req p s
                 = match call "storage" storage "createActivity" [chat_activity n] p st with
                   | (Returned _, s') => (Returned (Responded created), s')
                   | (Thrown e, s') => (Returned (Responded (failed e)), s')
                   end))
    /\ (forall n st,
          db_statements
            (trace (snd (call "storage" Storage.DatabaseStorage "createActivity"
                              [chat_activity n] p st)))
          = (db_statements (trace st)
               ++ [ Insert activities
                      (VObj [ ("type", VStr "chat_interaction");
                              ("description", VStr "Chat interaction with AI assistant");
                              ("metadata", VObj [("messageCount", VInt n)]);
                              ("timestamp", VDate (clock p (ticks st))) ]) ])%list).
Proof.
  intros storage req p s Ha. split; [| split; [| split]].
  - intros Hv Hp. rewrite (dispatch_get_messages storage req p s Hv Hp Ha). reflexivity.
  - intros Hv Hp. split.
    + rewrite (dispatch_post_messages_reset storage req p s Hv Hp Ha). reflexivity.
    + intros req' Ha' Hv' Hp'.
      rewrite (dispatch_get_messages storage req' p _ Hv' Hp' Ha'). reflexivity.
  - intros Hv Hp. rewrite (dispatch_post_messages storage req p s Hv Hp Ha).
    set (req0 := with_params (VObj []) req).
    destruct (truthy (prop "content" (body req0))) eqn:Ht.
    + set (c := prop "content" (body req0)) in *.
      destruct (OpenAI.configured p) eqn:Hc.
      * destruct (completions p (OpenAI.params_of (relayed p s c)))
          as [response | msg] eqn:Hf.
        -- destruct (OpenAI.content_of response) as [c' | e] eqn:Hr.
           ++ right.
              rewrite (post_messages_reply storage req0 p s response c' Ht Hc Hf Hr).
              cbv zeta. fold c. unfold activity.
              exists (Z.of_nat (List.length (history p s c ++ [assistant_message p s c'])%list)),
                     (replied p s c c'),
                     {| status := 201; json := message_value (assistant_message p s c') |},
                     (fun e => {| status := 500;
                                  json := error_body "Error processing message" e |}).
              split.
              ** unfold replied.
                 eapply database_untouched_trans; [apply database_untouched_asked |].
                 split; reflexivity.
              ** unfold chat_activity.
                 destruct (call "storage" storage "createActivity" _ p (replied p s c c'))
                   as [[v | e] s3]; reflexivity.
           ++ left.
              rewrite (post_messages_unreadable_reply storage req0 p s response e
                         Ht Hc Hf Hr).
              fold c. eexists; eexists; split; [reflexivity |].
              eapply database_untouched_trans; [apply database_untouched_asked |].
              split; reflexivity.
        -- left. rewrite (post_messages_api_failure storage req0 p s msg Ht Hc Hf).
           fold c. eexists; eexists; split; [reflexivity |].
           apply database_untouched_asked.
      * left. rewrite (post_messages_without_key storage req0 p s Ht Hc).
        fold c. eexists; eexists; split; [reflexivity |].
        eapply database_untouched_trans; [apply database_untouched_received |].
        apply database_untouched_by_log; discriminate.
    + left. unfold post_messages. unfold bind at 1.
      destruct (body req0) eqn:Hb;
        try (cbn [destructure throw answer]; eexists; eexists;
             split; [reflexivity | split; reflexivity]);
        (cbn [destructure ret]; rewrite Ht; cbn [negb respond ret answer];
         eexists; eexists; split; [reflexivity | split; reflexivity]).
  - intros n st. apply createActivity_statements.
Qed.

Lemma conversation_stays_in_the_session_witness :
  dispatch registerRoutes
           (Sample.request POST ["api"; "messages"; "reset"] true VUndefined)
           Sample.healthy chatting
  = (Returned (Responded
       {| status := 200;
          json := VObj [("message", VStr "Conversation reset successfully")] |}),
     with_session (Some []) chatting)
  /\ dispatch registerRoutes
              (Sample.request GET ["api"; "messages"] true VUndefined)
              Sample.healthy (with_session (Some []) chatting)
     = (Returned (Responded {| status := 200; json := VArr [] |}),
        with_session (Some []) chatting).
Proof.
  destruct (proj1 (proj2 (conversation_stays_in_the_session
                            (Multer.as_object diskStorage)
                            (Sample.request POST ["api"; "messages"; "reset"] true VUndefined)
                            Sample.healthy chatting eq_refl))
                  eq_refl eq_refl) as [H1 H2].
  split.
  - exact H1.
  - exact (H2 (Sample.request GET ["api"; "messages"] true VUndefined)
              eq_refl eq_refl eq_refl).
Defined.

(** ** Failures at the route boundary *)


Lemma dispatch_post_ai_chat storage req p s :
  verb req = POST -> path req = ["api"; "ai"; "chat"] -> isAuthenticated req = true ->
  dispatch (routes storage) req p s = answer (post_ai_chat (with_params (VObj []) req) p s).
Proof. intros Hv Hp Ha. route_hit 19%nat storage Hv Hp Ha. Qed.

Lemma dispatch_post_ai_code storage req p s :
  verb req = POST -> path req = ["api"; "ai"; "code"] -> isAuthenticated req = true ->
  dispatch (routes storage) req p s = answer (post_ai_code (with_params (VObj []) req) p s).
Proof. intros Hv Hp Ha. route_hit 20%nat storage Hv Hp Ha. Qed.

Lemma dispatch_post_ai_analyze storage req p s :
  verb req = POST -> path req = ["api"; "ai"; "analyze"] -> isAuthenticated req = true ->
  dispatch (routes storage) req p s
  = answer (post_ai_analyze (with_params (VObj []) req) p s).
Proof. intros Hv Hp Ha. route_hit 21%nat storage Hv Hp Ha. Qed.

Lemma dispatch_post_ai_document storage req p s :
  verb req = POST -> path req = ["api"; "ai"; "document"] -> isAuthenticated req = true ->
  dispatch (routes storage) req p s
  = answer (post_ai_document (with_params (VObj []) req) p s).
Proof. intros Hv Hp Ha. route_hit 22%nat storage Hv Hp Ha. Qed.

Lemma dispatch_post_ai_requirements storage req p s :
  verb req = POST -> path req = ["api"; "ai"; "requirements"] ->
  isAuthenticated req = true ->
  dispatch (routes storage) req p s
  = answer (post_ai_requirements (with_params (VObj []) req) p s).
Proof. intros Hv Hp Ha. route_hit 23%nat storage Hv Hp Ha. Qed.











(** ** Approval status *)

Lemma lookup_assign k v fs : lookup k (assign k v fs) = Some v.
Proof.
  induction fs as [| [k' v'] fs IH]; simpl.
  - rewrite String.eqb_refl. reflexivity.
  - destruct (String.eqb k k') eqn:E; simpl.
    + rewrite String.eqb_refl. reflexivity.
    + rewrite E. exact IH.
Qed.



Lemma same_db_refl s : same_db s s.
Proof. reflexivity. Qed.

Lemma same_db_trans s1 s2 s3 : same_db s1 s2 -> same_db s2 s3 -> same_db s1 s3.
Proof. unfold same_db. congruence. Qed.

Lemma check_keeps_db t c v others : Keeps same_db (Db.check t c v others).
Proof. unfold Db.check. keeps_with same_db same_db_refl same_db_trans fail. Qed.

(** An update leaves the tables alone or rewrites the rows it selects, in
    place. *)
Lemma update_by_db t data k v p s :
  db (snd (Db.update_by t data k v p s)) = db s
  \/ (Db.assignments t data <> []
      /\ db (snd (Db.update_by t data k v p s))
         = set_table t
             {| rows := map (fun r => if Db.eq k v r
                                      then Db.apply_assignments (Db.assignments t data) r
                                      else r)
                            (rows (table t (db s)));
                serial := serial (table t (db s)) |}
             (db s)).
Proof.
  unfold Db.update_by. cbv zeta.
  remember (Db.assignments t data) as sets eqn:Es.
  destruct sets as [| a l]; [left; reflexivity |].
  unfold Db.statement, Db.parameter, Db.current, Db.store, modify, get_state.
  unfold bind, ret. cbv beta iota zeta.
  destruct (dbFault p (queries s)) as [e0 |]; cbv beta iota zeta.
  { left. reflexivity. }
  destruct v; try (left; reflexivity);
    (cbv beta iota zeta;
     change (db (count_query (log_effect (DbQuery (Update t data)) s))) with (db s);
     match goal with
     | |- context [filter ?g ?rs] => destruct (filter g rs) as [| h hs]
     end; [left; reflexivity |];
     match goal with
     | |- context [mapM ?g ?l0 p ?s1] =>
         pose proof (Keeps_mapM same_db same_db_refl same_db_trans _ _ g l0
                       (fun cv => check_keeps_db _ _ _ _) p s1) as Hk;
         destruct (mapM g l0 p s1) as [[r | e] s2]
     end; cbn [snd] in Hk; unfold same_db in Hk; cbn [db count_query log_effect] in Hk;
     [ right; split; [discriminate |]; cbn [snd db with_db]; rewrite Hk; reflexivity
     | left; exact Hk ]).
Qed.





(** Over the accessors of storage.ts the route hands the body's status to
    [updateApprovalStatus] as it comes. *)
Example patch_status_over_database_accessors :
  map (prop "status")
      (rows (t_approvals
         (db (snd (dispatch routes_over_database
                     (Sample.request PATCH ["api"; "approvals"; "1"; "status"] true
                        (VObj [("status", VStr "archived")]))
                     Sample.healthy (Sample.state Sample.seeded_db))))))
  = [VStr "archived"].
Proof. vm_compute. reflexivity. Qed.

(** ** File upload *)



Example upload_refusals :
  map (fun name => refusal {| fieldname := "file"; originalname := name;
                              encoding := "7bit"; mimetype := "text/plain";
                              data := "x" |})
      ["setup.exe"; "notes"; ".env"; "archive.tar.gz"]
  = [ Error "Only common file types are allowed";
      Error "Only common file types are allowed";
      Error "Only common file types are allowed";
      Error "Only common file types are allowed" ]
  /\ map (fun name => acceptable {| fieldname := "file"; originalname := name;
                                    encoding := "7bit"; mimetype := "text/plain";
                                    data := "x" |})
         ["main.TS"; "photo.JpEg"; "data.backup.json"; "readme.md"]
     = [true; true; true; true].
Proof. split; vm_compute; reflexivity. Qed.

(** ** Listing projects *)

Lemma truthy_VInt z : truthy (VInt z) = negb (z =? 0).
Proof.
  unfold truthy, VInt, Qeq_bool, inject_Z. simpl.
  rewrite Z.mul_1_r. reflexivity.
Qed.

Lemma getProjects_filters uid p s :
  dbFault p (queries s) = None ->
  fst (Storage.getProjects uid p s)
  = Returned (VArr (if truthy uid
                    then filter (fun r => Db.sql_eq (prop "userId" r) uid)
                                (rows (t_projects (db s)))
                    else rows (t_projects (db s)))).
Proof.
  intros Hf. unfold Storage.getProjects.
  destruct (truthy uid);
    unfold Db.select_all, Db.select_where, Db.statement, Db.current, get_state;
    cbv beta iota zeta delta [bind ret]; rewrite Hf; cbn [fst].
  - reflexivity.
  - f_equal. f_equal. clear. induction (rows _) as [| r l IH]; simpl; congruence.
Qed.

(** C10.  The accessor of storage.ts does what the claim says: for a
    nonzero user id it selects the projects with that [userId], for an
    absent or zero one it selects every row.  The registered
    [GET /api/projects] never reaches it: where the handler is created,
    [storage] is the upload engine, so the call throws a [TypeError] that
    [asyncHandler] forwards; no statement is sent and no project is
    returned. *)
Theorem get_projects_accessor_and_route :
  forall (req : Request) (p : Platform) (s : State),
    verb req = GET -> path req = ["api"; "projects"] ->
    isAuthenticated req = true ->
    dbFault p (queries s) = None ->
    (forall z, z <> 0 ->
       fst (Storage.getProjects (VInt z) p s)
       = Returned (VArr (filter (fun r => Db.sql_eq (prop "userId" r) (VInt z))
                                (rows (t_projects (db s))))))
    /\ fst (Storage.getProjects (VInt 0) p s) = Returned (VArr (rows (t_projects (db s))))
    /\ fst (Storage.getProjects VUndefined p s) = Returned (VArr (rows (t_projects (db s))))
    /\ dispatch registerRoutes req p s
       = (Returned (Forwarded (TypeError "storage.getProjects is not a function")), s)
    /\ dispatch routes_over_database req p s
       = answer (match Storage.getProjects (user_id_opt req) p s with
                 | (Returned found, s') =>
                     (Returned {| status := 200; json := found |}, s')
                 | (Thrown e, s') => (Thrown e, s')
                 end).
Proof.
  intros req p s Hv Hp Ha Hf. split; [| split; [| split; [| split]]].
  - intros z Hz. rewrite (getProjects_filters (VInt z) p s Hf), truthy_VInt.
    destruct (Z.eqb_spec z 0); [contradiction | reflexivity].
  - rewrite (getProjects_filters (VInt 0) p s Hf). reflexivity.
  - rewrite (getProjects_filters VUndefined p s Hf). reflexivity.
  - unfold registerRoutes.
    rewrite (dispatch_get_projects (Multer.as_object diskStorage) req p s Hv Hp Ha).
    reflexivity.
  - unfold routes_over_database.
    rewrite (dispatch_get_projects Storage.DatabaseStorage req p s Hv Hp Ha).
    unfold get_projects, call.
    change (Storage.DatabaseStorage "getProjects")
      with (Some (fun a : list Value => Storage.getProjects (arg 0 a))).
    cbn [arg nth]. unfold bind, res_json, respond, ret.
    change (user_id_opt (with_params (VObj []) req)) with (user_id_opt req).
    destruct (Storage.getProjects (user_id_opt req) p s) as [[v | e] s']; reflexivity.
Qed.

Lemma get_projects_accessor_and_route_witness :
  dispatch registerRoutes (Sample.request GET ["api"; "projects"] true VUndefined)
           Sample.healthy (Sample.state Sample.seeded_db)
  = (Returned (Forwarded (TypeError "storage.getProjects is not a function")),
     Sample.state Sample.seeded_db)
  /\ fst (Storage.getProjects (VInt 1) Sample.healthy (Sample.state Sample.seeded_db))
     = Returned (VArr [Sample.project 1 1 "site"]).
Proof.
  destruct (get_projects_accessor_and_route
              (Sample.request GET ["api"; "projects"] true VUndefined)
              Sample.healthy (Sample.state Sample.seeded_db)
              eq_refl eq_refl eq_refl eq_refl) as (H1 & _ & _ & H4 & _).
  split.
  - exact H4.
  - exact (H1 1 ltac:(discriminate)).
Defined.

(** ** The name [storage] inside [registerRoutes] *)

Lemma registered_accessor_call_throws name args p s :
  call "storage" (Multer.as_object diskStorage) name args p s
  = (Thrown (TypeError ("storage." ++ name ++ " is not a function")), s).
Proof. reflexivity. Qed.

Ltac listing_route n Hv Hp Ha :=
  unfold registerRoutes;
  route_hit n (Multer.as_object diskStorage) Hv Hp Ha.

(** On the registered routes the listing endpoints never reach the
    database: for an authenticated [GET], each of them ends in the
    [TypeError] of the accessor that the upload engine does not have,
    forwarded by [asyncHandler], with the state as it was. *)
Theorem registered_listing_routes_forward_a_type_error :
  forall (req : Request) (p : Platform) (s : State),
    verb req = GET -> isAuthenticated req = true ->
    (path req = ["api"; "projects"] ->
     dispatch registerRoutes req p s
     = (Returned (Forwarded (TypeError "storage.getProjects is not a function")), s))
    /\ (path req = ["api"; "deployments"] ->
        dispatch registerRoutes req p s
        = (Returned (Forwarded (TypeError "storage.getDeployments is not a function")), s))
    /\ (path req = ["api"; "environments"] ->
        dispatch registerRoutes req p s
        = (Returned (Forwarded (TypeError "storage.getEnvironments is not a function")), s))
    /\ (path req = ["api"; "integrations"] ->
        dispatch registerRoutes req p s
        = (Returned (Forwarded (TypeError "storage.getIntegrations is not a function")), s))
    /\ (path req = ["api"; "activities"] ->
        dispatch registerRoutes req p s
        = (Returned (Forwarded (TypeError "storage.getActivities is not a function")), s))
    /\ (path req = ["api"; "approvals"] ->
        dispatch registerRoutes req p s
        = (Returned (Forwarded (TypeError "storage.getApprovals is not a function")), s))
    /\ (path req = ["api"; "approvals"; "count"] ->
        dispatch registerRoutes req p s
        = (Returned (Forwarded (TypeError "storage.getApprovalsCount is not a function")), s))
    /\ (path req = ["api"; "logs"] ->
        dispatch registerRoutes req p s
        = (Returned (Forwarded (TypeError "storage.getLogs is not a function")), s)).
Proof.
  intros req p s Hv Ha.
  repeat split; intros Hp.
  - transitivity (answer (get_projects (Multer.as_object diskStorage)
                            (with_params (VObj []) req) p s));
      [listing_route 0%nat Hv Hp Ha | reflexivity].
  - transitivity (answer (get_deployments (Multer.as_object diskStorage)
                            (with_params (VObj []) req) p s));
      [listing_route 4%nat Hv Hp Ha | reflexivity].
  - transitivity (answer (get_environments (Multer.as_object diskStorage)
                            (with_params (VObj []) req) p s));
      [listing_route 6%nat Hv Hp Ha | reflexivity].
  - transitivity (answer (get_integrations (Multer.as_object diskStorage)
                            (with_params (VObj []) req) p s));
      [listing_route 9%nat Hv Hp Ha | reflexivity].
  - transitivity (answer (get_activities (Multer.as_object diskStorage)
                            (with_params (VObj []) req) p s));
      [listing_route 11%nat Hv Hp Ha |].
    unfold get_activities, bind, parseInt, platform, ret.
    cbn [query with_params].
    destruct (truthy (prop "limit" (query req))); reflexivity.
  - transitivity (answer (get_approvals (Multer.as_object diskStorage)
                            (with_params (VObj []) req) p s));
      [listing_route 12%nat Hv Hp Ha | reflexivity].
  - transitivity (answer (get_approvals_count (Multer.as_object diskStorage)
                            (with_params (VObj []) req) p s));
      [listing_route 13%nat Hv Hp Ha | reflexivity].
  - transitivity (answer (get_logs (Multer.as_object diskStorage)
                            (with_params (VObj []) req) p s));
      [listing_route 15%nat Hv Hp Ha | reflexivity].
Qed.

Lemma registered_listing_routes_forward_a_type_error_witness :
  dispatch registerRoutes (Sample.request GET ["api"; "logs"] true VUndefined)
           Sample.healthy (Sample.state Sample.seeded_db)
  = (Returned (Forwarded (TypeError "storage.getLogs is not a function")),
     Sample.state Sample.seeded_db).
Proof.
  exact (proj2 (proj2 (proj2 (proj2 (proj2 (proj2 (proj2
           (registered_listing_routes_forward_a_type_error
              (Sample.request GET ["api"; "logs"] true VUndefined)
              Sample.healthy (Sample.state Sample.seeded_db) eq_refl eq_refl)))))))
         eq_refl).
Defined.

(** ** The extension check and letter case *)

Example extname_samples :
  map Str.extname ["index.html"; "index.coffee.md"; "index."; "index"; ".index";
                   ".index.md"; "a/b.c/d"; ".."; "x/.."; "A.JS"; "a.b/"]
  = [".html"; ".md"; "."; ""; ""; ".md"; ""; ""; ""; ".JS"; ".b"].
Proof. vm_compute. reflexivity. Qed.

Example parseInt_samples :
  map Str.parseInt ["42"; " 7px"; "-3"; "abc"; ""; "0x1F"; "recent"]
  = [Some 42; Some 7; Some (-3); None; None; Some 31; None].
Proof. vm_compute. reflexivity. Qed.

Lemma lower_ascii_slash c :
  Ascii.eqb (Str.lower_ascii c) Str.slash = Ascii.eqb c Str.slash.
Proof. destruct c as [[] [] [] [] [] [] [] []]; reflexivity. Qed.

Lemma lower_ascii_dot c :
  Ascii.eqb (Str.lower_ascii c) Str.dot = Ascii.eqb c Str.dot.
Proof. destruct c as [[] [] [] [] [] [] [] []]; reflexivity. Qed.

Lemma lower_ascii_idempotent c :
  Str.lower_ascii (Str.lower_ascii c) = Str.lower_ascii c.
Proof. destruct c as [[] [] [] [] [] [] [] []]; reflexivity. Qed.

Lemma toLowerCase_idempotent s :
  Str.toLowerCase (Str.toLowerCase s) = Str.toLowerCase s.
Proof.
  induction s as [| c s IH]; simpl; [reflexivity |].
  rewrite lower_ascii_idempotent, IH. reflexivity.
Qed.

Lemma ext_step_lower st i c :
  Str.ext_step st i (Str.lower_ascii c) = Str.ext_step st i c.
Proof.
  unfold Str.ext_step. rewrite lower_ascii_slash, lower_ascii_dot. reflexivity.
Qed.

Lemma ext_scan_lower l i st :
  Str.ext_scan (map Str.lower_ascii l) i st = Str.ext_scan l i st.
Proof.
  revert i st. induction l as [| c l IH]; intros i st; simpl; [reflexivity |].
  rewrite ext_step_lower. apply IH.
Qed.

Lemma rev_chars_lower s acc :
  Str.rev_chars (Str.toLowerCase s) (map Str.lower_ascii acc)
  = map Str.lower_ascii (Str.rev_chars s acc).
Proof.
  revert acc. induction s as [| c s IH]; intros acc; simpl; [reflexivity |].
  exact (IH (c :: acc)).
Qed.

Lemma length_lower s : String.length (Str.toLowerCase s) = String.length s.
Proof. induction s as [| c s IH]; simpl; congruence. Qed.

Lemma substring_lower s : forall n m,
  String.substring n m (Str.toLowerCase s) = Str.toLowerCase (String.substring n m s).
Proof.
  induction s as [| c s IH]; intros n m.
  - destruct n, m; reflexivity.
  - destruct n as [| n]; simpl.
    + destruct m as [| m]; simpl; [reflexivity |]. rewrite IH. reflexivity.
    + apply IH.
Qed.

(** Lower-casing a name lower-cases its extension and changes nothing else
    about it. *)
Lemma extname_lower s :
  Str.extname (Str.toLowerCase s) = Str.toLowerCase (Str.extname s).
Proof.
  unfold Str.extname. rewrite length_lower.
  change (Str.rev_chars (Str.toLowerCase s) [])
    with (Str.rev_chars (Str.toLowerCase s) (map Str.lower_ascii [])).
  rewrite rev_chars_lower, ext_scan_lower. cbv zeta.
  match goal with
  | |- (if ?b then _ else _) = _ => destruct b
  end; [reflexivity |].
  unfold Str.slice. apply substring_lower.
Qed.

(** The upload filter gives the same verdict on a name and on the same name
    in lower case. *)
Theorem upload_filter_ignores_letter_case :
  forall (req : Request) (f : FilePart),
    fileFilter req f
    = fileFilter req {| fieldname := fieldname f;
                        originalname := Str.toLowerCase (originalname f);
                        encoding := encoding f; mimetype := mimetype f;
                        data := data f |}.
Proof.
  intros req f. unfold fileFilter. cbn [originalname].
  rewrite extname_lower, toLowerCase_idempotent. reflexivity.
Qed.

(** ** The AI proxy: what every operation does *)












(** ** Requests that lack something *)

Lemma destructure_object fields k what p s :
  destructure (VObj fields) k what p s = (Returned (prop k (VObj fields)), s).
Proof. reflexivity. Qed.

Ltac refuse_body Hb :=
  cbn [body with_params]; rewrite Hb;
  unfold bind at 1; rewrite destructure_object;
  rewrite <- Hb.

(** Input checks of the chat and AI routes.  For an authenticated [POST]
    whose body is an object: a missing or empty [content], [prompt] or
    [language], [code] or [language], or [description] is answered 400 with
    the route's message, and a body that fails the schema of
    [/api/ai/chat] is answered 400 with the validation report.  In each case
    the state is as before: the session is not touched and the AI proxy is
    not entered. *)
Theorem incomplete_bodies_are_answered_400 :
  forall (storage : Object) (req : Request) (p : Platform) (s : State)
         (fields : list (string * Value)),
    isAuthenticated req = true -> verb req = POST -> body req = VObj fields ->
    (path req = ["api"; "messages"] ->
     truthy (prop "content" (body req)) = false ->
     dispatch (routes storage) req p s
     = (Returned (Responded (bad_request "Message content is required")), s))
    /\ (path req = ["api"; "ai"; "code"] ->
        truthy (prop "prompt" (body req)) && truthy (prop "language" (body req)) = false ->
        dispatch (routes storage) req p s
        = (Returned (Responded (bad_request "Prompt and language are required")), s))
    /\ (path req = ["api"; "ai"; "analyze"] ->
        truthy (prop "code" (body req)) && truthy (prop "language" (body req)) = false ->
        dispatch (routes storage) req p s
        = (Returned (Responded (bad_request "Code and language are required")), s))
    /\ (path req = ["api"; "ai"; "document"] ->
        truthy (prop "code" (body req)) && truthy (prop "language" (body req)) = false ->
        dispatch (routes storage) req p s
        = (Returned (Responded (bad_request "Code and language are required")), s))
    /\ (path req = ["api"; "ai"; "requirements"] ->
        truthy (prop "description" (body req)) = false ->
        dispatch (routes storage) req p s
        = (Returned (Responded (bad_request "Project description is required")), s))
    /\ (path req = ["api"; "ai"; "chat"] ->
        safeParse (body req) = None ->
        dispatch (routes storage) req p s
        = (Returned (Responded
             {| status := 400;
                json := VObj [ ("message", VStr "Invalid request body");
                               ("errors", zod_format p (body req)) ] |}), s)).
Proof.
  intros storage req p s fields Ha Hv Hb.
  split; [| split; [| split; [| split; [| split]]]]; intros Hp Hf.
  - rewrite (dispatch_post_messages storage req p s Hv Hp Ha).
    unfold post_messages. refuse_body Hb. rewrite Hf. reflexivity.
  - rewrite (dispatch_post_ai_code storage req p s Hv Hp Ha).
    unfold post_ai_code. refuse_body Hb.
    rewrite <- negb_andb, Hf. reflexivity.
  - rewrite (dispatch_post_ai_analyze storage req p s Hv Hp Ha).
    unfold post_ai_analyze. refuse_body Hb.
    rewrite <- negb_andb, Hf. reflexivity.
  - rewrite (dispatch_post_ai_document storage req p s Hv Hp Ha).
    unfold post_ai_document. refuse_body Hb.
    rewrite <- negb_andb, Hf. reflexivity.
  - rewrite (dispatch_post_ai_requirements storage req p s Hv Hp Ha).
    unfold post_ai_requirements. refuse_body Hb. rewrite Hf. reflexivity.
  - rewrite (dispatch_post_ai_chat storage req p s Hv Hp Ha).
    unfold post_ai_chat. cbn [body with_params]. rewrite Hf. reflexivity.
Qed.

Lemma incomplete_bodies_are_answered_400_witness :
  dispatch registerRoutes
           (Sample.request POST ["api"; "ai"; "code"] true (VObj [("prompt", VStr "sort a list")]))
           Sample.healthy (Sample.state Sample.empty_db)
  = (Returned (Responded (bad_request "Prompt and language are required")),
     Sample.state Sample.empty_db).
Proof.
  exact (proj1 (proj2 (incomplete_bodies_are_answered_400
                         (Multer.as_object diskStorage)
                         (Sample.request POST ["api"; "ai"; "code"] true
                            (VObj [("prompt", VStr "sort a list")]))
                         Sample.healthy (Sample.state Sample.empty_db)
                         [("prompt", VStr "sort a list")] eq_refl eq_refl eq_refl))
               eq_refl eq_refl).
Defined.

(** ** The chat relay as registered *)

(** On the registered routes [POST /api/messages] with content never
    answers 201.  Every such request is answered 500 "Error processing
    message"; when the completion succeeds the error is the [TypeError] of
    [storage.createActivity], raised after the request went to the API and
    after both messages were pushed on the session. *)
Theorem registered_chat_relay_always_answers_500 :
  forall (req : Request) (p : Platform) (s : State),
    verb req = POST -> path req = ["api"; "messages"] ->
    isAuthenticated req = true ->
    truthy (prop "content" (body req)) = true ->
    exists e s',
      dispatch registerRoutes req p s
      = (Returned (Responded {| status := 500;
                                json := error_body "Error processing message" e |}), s')
      /\ (forall response c',
            OpenAI.configured p = true ->
            completions p (OpenAI.params_of (relayed p s (prop "content" (body req))))
            = inl response ->
            OpenAI.content_of response = Returned c' ->
            e = TypeError "storage.createActivity is not a function"
            /\ s' = replied p s (prop "content" (body req)) c').
Proof.
  intros req p s Hv Hp Ha Ht. unfold registerRoutes.
  rewrite (dispatch_post_messages (Multer.as_object diskStorage) req p s Hv Hp Ha).
  set (c := prop "content" (body req)) in *.
  destruct (OpenAI.configured p) eqn:Hc.
  - destruct (completions p (OpenAI.params_of (relayed p s c))) as [response | msg] eqn:Hf.
    + destruct (OpenAI.content_of response) as [c' | e] eqn:Hr.
      * rewrite (post_messages_reply (Multer.as_object diskStorage)
                   (with_params (VObj []) req) p s response c' Ht Hc Hf Hr).
        cbv zeta. cbn [body with_params]. fold c. unfold activity.
        rewrite registered_accessor_call_throws. cbn [answer].
        eexists; eexists. split; [reflexivity |].
        intros r0 c0 _ H1 H2. injection H1 as <-. rewrite Hr in H2. injection H2 as <-.
        split; reflexivity.
      * rewrite (post_messages_unreadable_reply (Multer.as_object diskStorage)
                   (with_params (VObj []) req) p s response e Ht Hc Hf Hr).
        cbn [answer]. eexists; eexists. split; [reflexivity |].
        intros r0 c0 _ H1 H2. cbn [body with_params] in H1. fold c in H1. congruence.
    + rewrite (post_messages_api_failure (Multer.as_object diskStorage)
                 (with_params (VObj []) req) p s msg Ht Hc Hf).
      cbn [answer]. eexists; eexists. split; [reflexivity |].
      intros r0 c0 _ H1 H2. cbn [body with_params] in H1. fold c in H1. congruence.
  - rewrite (post_messages_without_key (Multer.as_object diskStorage)
               (with_params (VObj []) req) p s Ht Hc).
    cbn [answer]. eexists; eexists. split; [reflexivity |].
    intros r0 c0 H0. discriminate H0.
Qed.

Lemma registered_chat_relay_always_answers_500_witness :
  exists e s',
    dispatch registerRoutes
             (Sample.request POST ["api"; "messages"] true (VObj [("content", VStr "hi")]))
             Sample.healthy (Sample.state Sample.empty_db)
    = (Returned (Responded {| status := 500;
                              json := error_body "Error processing message" e |}), s')
    /\ e = TypeError "storage.createActivity is not a function".
Proof.
  destruct (registered_chat_relay_always_answers_500
              (Sample.request POST ["api"; "messages"] true (VObj [("content", VStr "hi")]))
              Sample.healthy (Sample.state Sample.empty_db)
              eq_refl eq_refl eq_refl eq_refl) as (e & s' & H1 & H2).
  exists e, s'. split; [exact H1 |].
  exact (proj1 (H2 (Sample.completion "hello") (VStr "hello") eq_refl eq_refl eq_refl)).
Defined.

(** ** The upload routes *)

Lemma single_upload_accepts req f p s :
  part req = Some f -> fieldname f = "file" -> acceptable f = true ->
  Multer.single upload "file" req p s
  = (Returned (Next (with_file (described p s f) req)), after_upload p s f).
Proof.
  intros Hpart Hfield Hok. unfold acceptable in Hok.
  apply andb_prop in Hok. destruct Hok as [H1 H2].
  assert (Hsize : (10 * 1024 * 1024 <? size f) = false).
  { rewrite Z.ltb_antisym, H1. reflexivity. }
  unfold Multer.single. rewrite Hpart.
  replace (String.eqb (fieldname f) "file") with true
    by (rewrite Hfield; reflexivity).
  cbn [negb].
  change (Multer.fileFilter upload req f) with (fileFilter req f).
  unfold fileFilter. rewrite H2.
  change (Multer.fileSize upload) with (10 * 1024 * 1024).
  cbv beta iota zeta delta
    [ bind upload diskStorage Multer.storage Multer.destination Multer.filename
      platform Date_now Math_random ret modify emit ].
  rewrite Hsize. reflexivity.
Qed.

Lemma dispatch_skip pre post req p s :
  (forall r, In r pre -> matches r req = None) ->
  dispatch (pre ++ post) req p s = dispatch post req p s.
Proof.
  intros H. induction pre as [| r pre IH]; cbn [app dispatch]; [reflexivity |].
  rewrite (H r (or_introl eq_refl)). apply IH. intros r' Hin. apply H. right. exact Hin.
Qed.

Lemma dispatch_head r rest req p s ps :
  matches r req = Some ps ->
  dispatch (r :: rest) req p s
  = match run (r_chain r) (with_params (VObj ps) req) p s with
    | (Returned Unhandled, s') => dispatch rest req p s'
    | other => other
    end.
Proof. intros H. cbn [dispatch]. rewrite H. reflexivity. Qed.

Ltac route_from n storage Hv Hp :=
  change (routes storage)
    with (firstn n (routes storage) ++ skipn n (routes storage))%list;
  rewrite dispatch_skip;
  [ cbn [skipn routes]
  | intros r Hin; unfold matches; rewrite Hv, Hp; cbn [firstn routes] in Hin;
    repeat (destruct Hin as [<- | Hin]; [reflexivity |]); contradiction ].

Lemma same_uploads_refl s : same_uploads s s.
Proof. split; reflexivity. Qed.

Lemma same_uploads_trans s1 s2 s3 :
  same_uploads s1 s2 -> same_uploads s2 s3 -> same_uploads s1 s3.
Proof. intros [A1 A2] [B1 B2]. split; congruence. Qed.

Lemma createChatCompletion_keeps_uploads o :
  Keeps same_uploads (OpenAI.createChatCompletion o).
Proof.
  intros p s. destruct (OpenAI.configured p) eqn:Hc.
  - destruct (completions p (OpenAI.params_of o)) as [r | m] eqn:Ha.
    + rewrite (createChatCompletion_success o p s r Hc Ha). split; reflexivity.
    + rewrite (createChatCompletion_failure o p s m Hc Ha). split; reflexivity.
  - rewrite (createChatCompletion_unconfigured o p s Hc). split; reflexivity.
Qed.

Lemma analyzeCode_keeps_uploads code language :
  Keeps same_uploads (OpenAI.analyzeCode code language).
Proof.
  unfold OpenAI.analyzeCode, OpenAI.first_content.
  keeps_with same_uploads same_uploads_refl same_uploads_trans
    ltac:(apply createChatCompletion_keeps_uploads).
Qed.

(** On the registered routes an accepted upload is written to disk and the
    request still fails.  [POST /api/files/upload] ends in the [TypeError]
    of [storage.createActivity], forwarded by [asyncHandler];
    [POST /api/files/analyze] is answered 500 "Error analyzing file" on
    every platform, the analysis (when there is one) being dropped by the
    same [TypeError] inside the handler's [try].  In both the file stays in
    the uploads directory and no table changes. *)
Theorem registered_file_routes_store_the_file_and_fail :
  forall (req : Request) (f : FilePart) (p : Platform) (s : State),
    verb req = POST -> isAuthenticated req = true ->
    part req = Some f -> fieldname f = "file" -> acceptable f = true ->
    (path req = ["api"; "files"; "upload"] ->
     exists s',
       dispatch registerRoutes req p s
       = (Returned (Forwarded (TypeError "storage.createActivity is not a function")), s')
       /\ uploads s' = (uploads s ++ [stored_file p s f])%list
       /\ db s' = db s)
    /\ (path req = ["api"; "files"; "analyze"] ->
        exists e s',
          dispatch registerRoutes req p s
          = (Returned (Responded {| status := 500;
                                    json := error_body "Error analyzing file" e |}), s')
          /\ uploads s' = (uploads s ++ [stored_file p s f])%list
          /\ db s' = db s).
Proof.
  intros req f p s Hv Ha Hpart Hfield Hok. split; intros Hp; unfold registerRoutes.
  - route_from 24%nat (Multer.as_object diskStorage) Hv Hp.
    rewrite (dispatch_head _ _ _ _ _ [])
      by (unfold matches; rewrite Hv, Hp; reflexivity).
    cbn [r_chain guarded_upload run].
    rewrite (ensureAuthenticated_passes _ p s) by exact Ha.
    rewrite (single_upload_accepts (with_params (VObj []) req) f p s Hpart Hfield Hok).
    eexists. split; [reflexivity |]. split; reflexivity.
  - route_from 26%nat (Multer.as_object diskStorage) Hv Hp.
    rewrite (dispatch_head _ _ _ _ _ [])
      by (unfold matches; rewrite Hv, Hp; reflexivity).
    cbn [r_chain guarded_upload run].
    rewrite (ensureAuthenticated_passes _ p s) by exact Ha.
    rewrite (single_upload_accepts (with_params (VObj []) req) f p s Hpart Hfield Hok).
    unfold asyncHandler, post_files_analyze.
    cbn [file with_file truthy described negb].
    unfold try_catch at 1. unfold bind at 1. unfold try_catch.
    unfold bind at 1. unfold platform. cbv beta iota.
    unfold bind at 1.
    match goal with
    | |- context [readFile ?x p ?st] =>
        assert (Hr : same_uploads st (snd (readFile x p st)));
        [| destruct (readFile x p st) as [[content | e] s1] ]
    end.
    { unfold readFile, bind, emit, modify, get_state. cbv beta iota.
      match goal with
      | |- context [filter ?g ?l] => destruct (filter g l)
      end; split; reflexivity. }
    + cbn [snd] in Hr. cbv zeta. unfold bind at 1.
      match goal with
      | |- context [OpenAI.analyzeCode ?c ?l p s1] =>
          pose proof (analyzeCode_keeps_uploads c l p s1) as Hk;
          destruct (OpenAI.analyzeCode c l p s1) as [[v | e] s2]
      end; cbn [snd] in Hk.
      * unfold bind at 1. unfold activity.
        rewrite registered_accessor_call_throws.
        unfold respond, ret. eexists; eexists. split; [reflexivity |].
        destruct Hr as [R1 R2], Hk as [K1 K2].
        split; [rewrite K1, R1 | rewrite K2, R2]; reflexivity.
      * unfold respond, ret. eexists; eexists. split; [reflexivity |].
        destruct Hr as [R1 R2], Hk as [K1 K2].
        split; [rewrite K1, R1 | rewrite K2, R2]; reflexivity.
    + cbn [snd] in Hr. unfold respond, ret. eexists; eexists. split; [reflexivity |].
      destruct Hr as [R1 R2]. split; [rewrite R1 | rewrite R2]; reflexivity.
Qed.

(** ** The file listing *)

Lemma split_aux_nonempty sep s cur : Str.split_aux sep s cur <> [].
Proof.
  revert cur. induction s as [| c r IH]; intros cur; simpl; [discriminate |].
  destruct (Ascii.eqb c sep); [discriminate | apply IH].
Qed.

Lemma append_nil_r s : s ++ "" = s.
Proof. induction s as [| c r IH]; simpl; congruence. Qed.

Lemma append_assoc (a b c : string) : (a ++ b) ++ c = a ++ b ++ c.
Proof. induction a as [| x a IH]; simpl; congruence. Qed.

Lemma join_split_aux sep s cur :
  Str.join (String sep "") (Str.split_aux sep s cur) = cur ++ s.
Proof.
  revert cur. induction s as [| c r IH]; intros cur; simpl.
  - now rewrite append_nil_r.
  - destruct (Ascii.eqb_spec c sep) as [-> | Hne].
    + pose proof (split_aux_nonempty sep r "") as Hn.
      specialize (IH ""). destruct (Str.split_aux sep r "") as [| y ys]; [now destruct Hn |].
      change (Str.join (String sep "") (cur :: y :: ys))
        with (cur ++ String sep "" ++ Str.join (String sep "") (y :: ys)).
      rewrite IH. reflexivity.
    + rewrite IH, append_assoc. reflexivity.
Qed.

Lemma split_aux_prefix sep a rest cur :
  has_char sep a = false ->
  Str.split_aux sep (a ++ String sep rest) cur = (cur ++ a) :: Str.split_aux sep rest "".
Proof.
  revert cur. induction a as [| c a IH]; intros cur H; simpl in *.
  - rewrite Ascii.eqb_refl, append_nil_r. reflexivity.
  - apply orb_false_iff in H. destruct H as [H1 H2]. rewrite H1.
    rewrite (IH _ H2), append_assoc. reflexivity.
Qed.

Lemma has_char_app c a b : has_char c (a ++ b) = has_char c a || has_char c b.
Proof. induction a as [| x a IH]; simpl; [reflexivity |]. rewrite IH. apply orb_assoc. Qed.

Lemma uint_no_dash u : has_char "-" (NilEmpty.string_of_uint u) = false.
Proof. induction u; simpl; auto. Qed.

Lemma string_of_Z_no_dash z : 0 <= z -> has_char "-" (string_of_Z z) = false.
Proof.
  intros H. unfold string_of_Z, NilZero.string_of_int.
  destruct z as [| q | q]; [reflexivity | | lia].
  simpl. unfold NilZero.string_of_uint.
  destruct (Pos.to_uint q) eqn:E; try reflexivity;
    rewrite <- E; apply uint_no_dash.
Qed.

Lemma Math_round_nonneg q : (0 <= q)%Q -> 0 <= Math_round q.
Proof.
  intros H. unfold Math_round.
  change 0 with (Qfloor 0). apply Qfloor_resp_le.
  apply Qle_trans with q; [exact H |].
  rewrite <- (Qplus_0_r q) at 1. apply Qplus_le_r. discriminate.
Qed.

Lemma stored_name_without_its_prefix p s f :
  0 <= clock p (ticks s) -> (0 <= random p (draws s))%Q ->
  Str.join "-" (skipn 2 (Str.split "-" (stored_name p s f))) = originalname f.
Proof.
  intros Hc Hr. unfold stored_name, Str.split.
  rewrite append_assoc. cbn [append].
  rewrite split_aux_prefix by (apply string_of_Z_no_dash; exact Hc).
  rewrite split_aux_prefix
    by (apply string_of_Z_no_dash, Math_round_nonneg;
        apply Qmult_le_0_compat; [exact Hr | discriminate]).
  cbn [skipn]. exact (join_split_aux "-" (originalname f) "").
Qed.

(** Upload, then list.  [GET /api/files] finds the original name of a stored
    file by dropping the first two dash-separated parts of its name.  For a
    file stored by the upload middleware this gives back the name it was
    uploaded under, dashes included, provided the clock reading and the
    random draw are not negative (their decimal forms then hold no dash) and
    the name is not empty; the entry also carries the stored name, the size
    and the path. *)
Theorem listing_recovers_the_original_name :
  forall (upl req : Request) (f : FilePart) (p : Platform) (s : State),
    part upl = Some f -> fieldname f = "file" -> acceptable f = true ->
    0 <= clock p (ticks s) -> (0 <= random p (draws s))%Q -> originalname f <> "" ->
    exists infos info s',
      get_files req p (snd (Multer.single upload "file" upl p s))
      = (Returned {| status := 200; json := VArr infos |}, s')
      /\ In info infos
      /\ prop "filename" info = VStr (stored_name p s f)
      /\ prop "originalname" info = VStr (originalname f)
      /\ prop "size" info = VInt (size f)
      /\ prop "path" info = VStr (Multer.path_join (uploadDir p) (stored_name p s f)).
Proof.
  intros upl req f p s Hpart Hfield Hok Hc Hr Hn.
  rewrite (single_upload_accepts upl f p s Hpart Hfield Hok). cbn [snd].
  unfold get_files, try_catch, bind, platform, emit, modify, get_state, res_json, respond, ret.
  cbv beta iota zeta.
  eexists. exists (file_info p (uploadDir p) (stored_file p s f)). eexists.
  split; [reflexivity |]. split.
  - cbn [uploads log_effect after_upload with_uploads].
    rewrite filter_app, map_app. apply in_or_app. right.
    cbn [filter stored_file f_dir]. rewrite String.eqb_refl. left. reflexivity.
  - unfold file_info. cbv zeta.
    change (f_name (stored_file p s f)) with (stored_name p s f).
    rewrite (stored_name_without_its_prefix p s f Hc Hr).
    destruct (String.eqb_spec (originalname f) ""); [contradiction |].
    repeat split.
Qed.

(** [POST /api/files/analyze] looks the extension up in its language table
    as it is written, while the upload filter compares it in lower case:
    for a file the filter accepts, an extension with an upper-case letter
    is never translated, the language handed to the analysis is the
    extension itself ("Main.PY" is analysed as "PY", "main.py" as
    "python"). *)
Theorem analysis_language_keeps_letter_case :
  forall (req : Request) (f : FilePart),
    let ext := drop_first (Str.extname (originalname f)) in
    fileFilter req f = Returned true ->
    ext <> Str.toLowerCase ext ->
    language_of languageMap ext = ext.
Proof.
  intros req f ext _ H. unfold languageMap, language_of.
  repeat match goal with
         | |- context [String.eqb ?k ext] =>
             destruct (String.eqb_spec k ext) as [E | _];
             [exfalso; apply H; rewrite <- E; reflexivity |]
         end.
  reflexivity.
Qed.

Lemma analysis_language_keeps_letter_case_witness :
  language_of languageMap "PY" = "PY" /\ language_of languageMap "py" = "python".
Proof.
  split; [| reflexivity].
  exact (analysis_language_keeps_letter_case
           (Sample.request POST ["api"; "files"; "analyze"] true VUndefined)
           {| fieldname := "file"; originalname := "Main.PY"; encoding := "7bit";
              mimetype := "text/x-python"; data := "print(1)" |}
           eq_refl ltac:(discriminate)).
Defined.

(** A request to one of the two upload routes that carries no file part is
    answered 400 "No file uploaded"; nothing is stored and nothing else
    happens, whatever [storage] is. *)
Theorem upload_without_a_file_is_answered_400 :
  forall (storage : Object) (req : Request) (p : Platform) (s : State),
    verb req = POST -> isAuthenticated req = true ->
    part req = None -> file req = VUndefined ->
    (path req = ["api"; "files"; "upload"] ->
     dispatch (routes storage) req p s
     = (Returned (Responded (bad_request "No file uploaded")), s))
    /\ (path req = ["api"; "files"; "analyze"] ->
        dispatch (routes storage) req p s
        = (Returned (Responded (bad_request "No file uploaded")), s)).
Proof.
  intros storage req p s Hv Ha Hpart Hfile. split; intros Hp.
  - route_from 24%nat storage Hv Hp.
    rewrite (dispatch_head _ _ _ _ _ [])
      by (unfold matches; rewrite Hv, Hp; reflexivity).
    cbn [r_chain guarded_upload run].
    rewrite (ensureAuthenticated_passes _ p s) by exact Ha.
    unfold Multer.single. cbn [part with_params]. rewrite Hpart.
    unfold ret, asyncHandler, post_files_upload. cbn [file with_params].
    rewrite Hfile. reflexivity.
  - route_from 26%nat storage Hv Hp.
    rewrite (dispatch_head _ _ _ _ _ [])
      by (unfold matches; rewrite Hv, Hp; reflexivity).
    cbn [r_chain guarded_upload run].
    rewrite (ensureAuthenticated_passes _ p s) by exact Ha.
    unfold Multer.single. cbn [part with_params]. rewrite Hpart.
    unfold ret, asyncHandler, post_files_analyze. cbn [file with_params].
    rewrite Hfile. reflexivity.
Qed.

Lemma upload_without_a_file_is_answered_400_witness :
  dispatch registerRoutes (Sample.request POST ["api"; "files"; "upload"] true VUndefined)
           Sample.healthy (Sample.state Sample.empty_db)
  = (Returned (Responded (bad_request "No file uploaded")), Sample.state Sample.empty_db).
Proof.
  exact (proj1 (upload_without_a_file_is_answered_400
                  (Multer.as_object diskStorage)
                  (Sample.request POST ["api"; "files"; "upload"] true VUndefined)
                  Sample.healthy (Sample.state Sample.empty_db)
                  eq_refl eq_refl eq_refl eq_refl) eq_refl).
Defined.

Lemma registered_file_routes_store_the_file_and_fail_witness :
  exists s',
    dispatch registerRoutes (upload_of ["api"; "files"; "upload"] report)
             Sample.healthy (Sample.state Sample.empty_db)
    = (Returned (Forwarded (TypeError "storage.createActivity is not a function")), s')
    /\ map f_name (uploads s') = ["1700000000000-250000000-Report.PDF"].
Proof.
  destruct (proj1 (registered_file_routes_store_the_file_and_fail
                     (upload_of ["api"; "files"; "upload"] report) report
                     Sample.healthy (Sample.state Sample.empty_db)
                     eq_refl eq_refl eq_refl eq_refl eq_refl) eq_refl)
    as (s' & H1 & H2 & _).
  exists s'. split; [exact H1 |]. rewrite H2. reflexivity.
Defined.

Lemma listing_recovers_the_original_name_witness :
  exists infos info s',
    get_files (Sample.request GET ["api"; "files"] true VUndefined) Sample.healthy
              (snd (Multer.single upload "file" (upload_of ["api"; "files"; "upload"] report)
                                  Sample.healthy (Sample.state Sample.empty_db)))
    = (Returned {| status := 200; json := VArr infos |}, s')
    /\ In info infos
    /\ prop "filename" info = VStr "1700000000000-250000000-Report.PDF"
    /\ prop "originalname" info = VStr "Report.PDF".
Proof.
  destruct (listing_recovers_the_original_name
              (upload_of ["api"; "files"; "upload"] report)
              (Sample.request GET ["api"; "files"] true VUndefined)
              report Sample.healthy (Sample.state Sample.empty_db)
              eq_refl eq_refl eq_refl ltac:(discriminate) ltac:(discriminate)
              ltac:(discriminate))
    as (infos & info & s' & H1 & H2 & H3 & H4 & _).
  exists infos, info, s'. repeat split; assumption.
Defined.

(** ** The remaining routes over the registered [storage] *)

Lemma dispatch_param_hit pre v lit name fn post req p s seg :
  (forall r, In r pre -> matches r req = None) ->
  verb req = v -> path req = ["api"; lit; seg] -> seg <> "" ->
  isAuthenticated req = true ->
  dispatch (pre ++ guarded v [Lit lit; Param name] fn :: post) req p s
  = answer (fn (with_params (VObj [(name, VStr seg)]) req) p s).
Proof.
  intros Hpre Hv Hp Hs Ha. apply dispatch_hit; [exact Hpre | | exact Ha].
  unfold matches, guarded, api. cbn [r_verb r_path]. rewrite Hv, Hp.
  replace (verb_eqb v v) with true by (destruct v; reflexivity).
  cbn [match_path]. rewrite !String.eqb_refl.
  destruct (String.eqb_spec seg ""); [contradiction | reflexivity].
Qed.

(** As [route_hit], for a path with a parameter segment. *)
Ltac param_route n Hv Hp Ha Hne :=
  unfold registerRoutes;
  change (routes (Multer.as_object diskStorage))
    with (firstn n (routes (Multer.as_object diskStorage))
          ++ nth n (routes (Multer.as_object diskStorage))
               (guarded GET [] (fun _ => throw (Error "")))
          :: skipn (S n) (routes (Multer.as_object diskStorage)))%list;
  cbn [nth routes];
  apply dispatch_hit;
  [ intros r Hin; unfold matches; rewrite Hv, Hp; cbn [firstn routes] in Hin;
    repeat (destruct Hin as [<- | Hin]; [reflexivity |]); contradiction
  | unfold matches; rewrite Hv, Hp;
    cbn [guarded r_verb r_path api verb_eqb match_path];
    repeat match goal with
           | |- context [Str.toLowerCase ?x] =>
               let y := eval vm_compute in (Str.toLowerCase x) in
               change (Str.toLowerCase x) with y
           end;
    rewrite ?String.eqb_refl, ?Hne; reflexivity
  | exact Ha ].

(** The registered routes that read one item or write: each of them ends
    in the [TypeError] of the accessor it calls on the upload engine,
    forwarded by [asyncHandler], with the state as it was; nothing is read,
    created or updated.  [/api/projects/recent] is taken by its own route,
    registered before [/api/projects/:id]. *)
Theorem registered_item_and_write_routes_forward_a_type_error :
  forall (req : Request) (p : Platform) (s : State) (seg : string)
         (account fields : list (string * Value)),
    isAuthenticated req = true ->
    req_user req = VObj account -> body req = VObj fields -> seg <> "" ->
    (verb req = GET -> path req = ["api"; "projects"; "recent"] ->
     dispatch registerRoutes req p s = not_a_function "getRecentProjects" s)
    /\ (verb req = GET -> path req = ["api"; "projects"; seg] ->
        Str.toLowerCase seg <> "recent" ->
        dispatch registerRoutes req p s = not_a_function "getProject" s)
    /\ (verb req = POST -> path req = ["api"; "projects"] ->
        dispatch registerRoutes req p s = not_a_function "createProject" s)
    /\ (verb req = POST -> path req = ["api"; "deployments"] ->
        dispatch registerRoutes req p s = not_a_function "createDeployment" s)
    /\ (verb req = GET -> path req = ["api"; "environments"; seg] ->
        dispatch registerRoutes req p s = not_a_function "getEnvironment" s)
    /\ (verb req = PATCH -> path req = ["api"; "environments"; seg] ->
        dispatch registerRoutes req p s = not_a_function "updateEnvironment" s)
    /\ (verb req = POST -> path req = ["api"; "integrations"] ->
        dispatch registerRoutes req p s = not_a_function "createIntegration" s)
    /\ (verb req = PATCH -> path req = ["api"; "approvals"; seg; "status"] ->
        dispatch registerRoutes req p s = not_a_function "updateApprovalStatus" s).
Proof.
  intros req p s seg account fields Ha Hu Hb Hseg.
  assert (Hne : String.eqb seg "" = false)
    by (destruct (String.eqb_spec seg ""); [contradiction | reflexivity]).
  repeat match goal with |- _ /\ _ => split end.
  - intros Hv Hp.
    transitivity (answer (get_projects_recent (Multer.as_object diskStorage)
                            (with_params (VObj []) req) p s));
      [unfold registerRoutes; route_hit 1%nat (Multer.as_object diskStorage) Hv Hp Ha |].
    unfold get_projects_recent, bind, member, lift. cbn [req_user with_params].
    rewrite Hu. reflexivity.
  - intros Hv Hp Hr.
    assert (Hl : String.eqb "recent" (Str.toLowerCase seg) = false).
    { destruct (String.eqb_spec "recent" (Str.toLowerCase seg)); [| reflexivity].
      now destruct Hr. }
    transitivity (answer (get_project (Multer.as_object diskStorage)
                            (with_params (VObj [("id", VStr seg)]) req) p s)).
    + unfold registerRoutes.
      change (routes (Multer.as_object diskStorage))
        with (firstn 2 (routes (Multer.as_object diskStorage))
              ++ nth 2 (routes (Multer.as_object diskStorage))
                   (guarded GET [] (fun _ => throw (Error "")))
              :: skipn 3 (routes (Multer.as_object diskStorage)))%list.
      cbn [nth routes]. apply dispatch_hit; [| | exact Ha].
      * intros r Hin. unfold matches. rewrite Hv, Hp. cbn [firstn routes] in Hin.
        destruct Hin as [<- | [<- | []]]; [reflexivity |].
        cbn [guarded r_verb r_path api verb_eqb match_path]. 
        change (Str.toLowerCase "api") with "api".
        change (Str.toLowerCase "projects") with "projects".
        change (Str.toLowerCase "recent") with "recent".
        rewrite !String.eqb_refl, Hl. reflexivity.
      * unfold matches. rewrite Hv, Hp.
        cbn [guarded r_verb r_path api verb_eqb match_path].
        change (Str.toLowerCase "api") with "api".
        change (Str.toLowerCase "projects") with "projects".
        rewrite !String.eqb_refl, Hne. reflexivity.
    + unfold get_project, bind, parseInt, platform, ret. reflexivity.
  - intros Hv Hp.
    transitivity (answer (post_projects (Multer.as_object diskStorage)
                            (with_params (VObj []) req) p s));
      [unfold registerRoutes; route_hit 3%nat (Multer.as_object diskStorage) Hv Hp Ha |].
    unfold post_projects, bind, member, lift. cbn [req_user with_params].
    rewrite Hu. reflexivity.
  - intros Hv Hp.
    transitivity (answer (post_deployments (Multer.as_object diskStorage)
                            (with_params (VObj []) req) p s));
      [unfold registerRoutes; route_hit 5%nat (Multer.as_object diskStorage) Hv Hp Ha |].
    unfold post_deployments, bind, member, lift. cbn [req_user with_params].
    rewrite Hu. reflexivity.
  - intros Hv Hp.
    transitivity (answer (get_environment (Multer.as_object diskStorage)
                            (with_params (VObj [("id", VStr seg)]) req) p s));
      [param_route 7%nat Hv Hp Ha Hne | reflexivity].
  - intros Hv Hp.
    transitivity (answer (patch_environment (Multer.as_object diskStorage)
                            (with_params (VObj [("id", VStr seg)]) req) p s));
      [param_route 8%nat Hv Hp Ha Hne | reflexivity].
  - intros Hv Hp.
    transitivity (answer (post_integrations (Multer.as_object diskStorage)
                            (with_params (VObj []) req) p s));
      [unfold registerRoutes; route_hit 10%nat (Multer.as_object diskStorage) Hv Hp Ha
      | reflexivity].
  - intros Hv Hp.
    transitivity (answer (patch_approval_status (Multer.as_object diskStorage)
                            (with_params (VObj [("id", VStr seg)]) req) p s));
      [param_route 14%nat Hv Hp Ha Hne |].
    unfold patch_approval_status. unfold bind at 1. cbn [body with_params].
    rewrite Hb. reflexivity.
Qed.

Lemma registered_item_and_write_routes_forward_a_type_error_witness :
  dispatch registerRoutes
           (Sample.request POST ["api"; "projects"] true
              (VObj [("name", VStr "docs"); ("type", VStr "web")]))
           Sample.healthy (Sample.state Sample.seeded_db)
  = not_a_function "createProject" (Sample.state Sample.seeded_db).
Proof.
  exact (proj1 (proj2 (proj2
           (registered_item_and_write_routes_forward_a_type_error
              (Sample.request POST ["api"; "projects"] true
                 (VObj [("name", VStr "docs"); ("type", VStr "web")]))
              Sample.healthy (Sample.state Sample.seeded_db) "1"
              [("id", VInt 1); ("username", VStr "owner")]
              [("name", VStr "docs"); ("type", VStr "web")]
              eq_refl eq_refl eq_refl ltac:(discriminate))))
         eq_refl eq_refl).
Defined.

(** ** The accessors of storage.ts *)

Ltac read_once :=
  intros p s; cbv zeta;
  cbv beta delta
    [ Storage.getUser Storage.getUserByUsername Storage.getProjects Storage.getProject
      Storage.getRecentProjects Storage.getDeployments Storage.getEnvironments
      Storage.getEnvironment Storage.getIntegrations Storage.getActivities
      Storage.getApprovals Storage.getApprovalsCount Storage.getLogs
      Db.select_all Db.select_where Db.select_by Db.statement Db.parameter Db.current
      Db.limit bind get_state ret throw ];
  repeat (cbv beta iota zeta;
          match goal with
          | |- context [dbFault ?p ?n] => destruct (dbFault p n)
          | |- context [if ?b then _ else _] => destruct b
          | |- context [match ?x with _ => _ end] =>
              lazymatch type of x with Value => destruct x end
          end);
  cbv beta iota zeta; cbn [snd fst]; repeat split.

(** Each of the thirteen read accessors of [DatabaseStorage] is one round
    trip: it sends a single [SELECT] on its own table, also when the
    statement is refused, and changes no table, nor the session, nor the
    stored files. *)
Theorem read_accessors_send_one_select :
  (forall id, reads users (Storage.getUser id))
  /\ (forall username, reads users (Storage.getUserByUsername username))
  /\ (forall userId, reads projects (Storage.getProjects userId))
  /\ (forall id, reads projects (Storage.getProject id))
  /\ (forall userId lim, reads projects (Storage.getRecentProjects userId lim))
  /\ reads deployments Storage.getDeployments
  /\ reads environments Storage.getEnvironments
  /\ (forall id, reads environments (Storage.getEnvironment id))
  /\ reads integrations Storage.getIntegrations
  /\ (forall lim, reads activities (Storage.getActivities lim))
  /\ (forall status, reads approvals (Storage.getApprovals status))
  /\ (forall status, reads approvals (Storage.getApprovalsCount status))
  /\ reads logs Storage.getLogs.
Proof.
  repeat match goal with |- _ /\ _ => split end; intros; read_once.
Qed.

Lemma Date_now_keeps_db : Keeps same_db Date_now.
Proof. intros p s. reflexivity. Qed.

Lemma fill_keeps_db t tb values c : Keeps same_db (Db.fill t tb values c).
Proof.
  unfold Db.fill.
  keeps_with same_db same_db_refl same_db_trans
    ltac:(first [apply check_keeps_db | apply Date_now_keeps_db]).
Qed.




Lemma mapM_returns A B (f : A -> Comp B) l p s ys s' :
  mapM f l p s = (Returned ys, s') ->
  Forall2 (fun x y => exists s1 s2, f x p s1 = (Returned y, s2)) l ys.
Proof.
  revert s ys s'. induction l as [| x l IH]; intros s ys s'; simpl.
  - unfold ret. intros [= <- _]. constructor.
  - unfold bind at 1. destruct (f x p s) as [[y | e] s1] eqn:E; [| discriminate].
    unfold bind at 1. destruct (mapM f l p s1) as [[ys' | e] s2] eqn:E'; [| discriminate].
    unfold ret. intros [= <- _]. constructor; [eauto | eapply IH; eassumption].
Qed.

(** What a column's cell holds once [fill] has returned it. *)
Lemma fill_returns t tb values c p s kv s' :
  Db.fill t tb values c p s = (Returned kv, s') ->
  fst kv = Schema.key c
  /\ (prop (Schema.key c) values <> VUndefined -> snd kv = prop (Schema.key c) values)
  /\ (prop (Schema.key c) values = VUndefined -> Schema.ctype c = Schema.serial_t ->
      snd kv = VInt (serial tb))
  /\ (Schema.unique c = true ->
      Db.exists_with (Schema.key c) (snd kv) (rows tb) = false).
Proof.
  unfold Db.fill. unfold bind at 1.
  match goal with
  | |- context [match ?m p s with _ => _ end] =>
      assert (Hv : forall v s1, m p s = (Returned v, s1) ->
                (prop (Schema.key c) values <> VUndefined -> v = prop (Schema.key c) values)
                /\ (prop (Schema.key c) values = VUndefined ->
                    Schema.ctype c = Schema.serial_t -> v = VInt (serial tb)));
      [| destruct (m p s) as [[v | e] s1]; [specialize (Hv v s1 eq_refl) | discriminate] ]
  end.
  { intros v s1. destruct (prop (Schema.key c) values) eqn:Ep;
      try (unfold ret; intros [= <- _]; split; [reflexivity | discriminate]).
    destruct (Schema.ctype c) eqn:Ec;
      try (unfold ret; intros [= <- _]; split; [intros H; now destruct H | reflexivity]);
      intros _; (split; [intros H; now destruct H | discriminate]). }
  unfold bind at 1. unfold Db.check, bind, get_state, ret. cbv beta iota.
  destruct (Schema.notNull c && match v with VNull => true | _ => false end);
    [discriminate |].
  destruct (Schema.unique c && Db.exists_with (Schema.key c) v (rows tb)) eqn:Eu;
    [discriminate |].
  intros H.
  assert (Hkv : kv = (Schema.key c, v)).
  { destruct (Schema.references c); destruct v;
      try (match type of H with context [if ?b then _ else _] => destruct b end);
      try discriminate; injection H as <- _; reflexivity. }
  subst kv. cbn [fst snd]. destruct Hv as [H1 H2].
  repeat split; auto.
  intros Hu. rewrite Hu in Eu. exact Eu.
Qed.

Lemma table_set_table t x d : table t (set_table t x d) = x.
Proof. destruct t; reflexivity. Qed.

Lemma insert_returns t values p s l s' :
  Db.insert t values p s = (Returned l, s') ->
  exists fields,
    l = [VObj fields]
    /\ rows (table t (db s')) = (rows (table t (db s)) ++ [VObj fields])%list
    /\ Forall2 (filled t (table t (db s)) values) (Schema.columns t) fields.
Proof.
  unfold Db.insert. unfold bind at 1. unfold Db.statement.
  destruct (dbFault p (queries s)); [discriminate |].
  unfold bind at 1. unfold Db.current, bind at 1, get_state, ret. cbv beta iota.
  unfold bind at 1.
  match goal with
  | |- context [mapM ?g ?l p ?s1] =>
      pose proof (Keeps_mapM same_db same_db_refl same_db_trans _ _ g l
                    (fun c => fill_keeps_db _ _ _ c) p s1) as Hk;
      pose proof (mapM_returns _ _ g l p s1) as Hm;
      destruct (mapM g l p s1) as [[fields | e] s2]; [| discriminate]
  end; cbn [snd] in Hk; unfold same_db in Hk; cbn [db count_query log_effect] in Hk.
  specialize (Hm fields s2 eq_refl).
  cbv zeta. unfold bind, Db.store, modify, ret. cbv beta iota.
  intros [= <- <-]. exists fields. split; [reflexivity |]. split.
  - cbn [db with_db]. rewrite table_set_table. reflexivity.
  - revert Hm. generalize (Schema.columns t). intros cols Hm.
    induction Hm as [| c kv cols fs (s1 & s3 & Hf) _ IH]; constructor; [| exact IH].
    exact (fill_returns _ _ _ _ _ _ _ _ Hf).
Qed.

Lemma filter_none A (f : A -> bool) l : existsb f l = false -> filter f l = [].
Proof.
  induction l as [| x l IH]; simpl; [reflexivity |].
  intros H. apply orb_false_iff in H. destruct H as [H1 H2].
  rewrite H1. exact (IH H2).
Qed.

Lemma sql_eq_refl_num q : Db.sql_eq (VNum q) (VNum q) = true.
Proof. unfold Db.sql_eq, num_eqb. apply Qeq_bool_iff. reflexivity. Qed.

(** A select by key on a table whose last row alone has that key. *)
Lemma select_by_last t k v row others p s :
  dbFault p (queries s) = None -> v <> VNaN ->
  rows (table t (db s)) = (others ++ [row])%list ->
  Db.exists_with k v others = false -> Db.eq k v row = true ->
  fst (Db.select_by t k v p s) = Returned [row].
Proof.
  intros Hf Hv Hr Ho He. unfold Db.select_by, Db.statement, Db.parameter, Db.current.
  unfold bind, get_state, ret. cbv beta iota. rewrite Hf. cbv beta iota.
  destruct v; try (now destruct Hv);
    cbn [fst db count_query log_effect]; rewrite Hr, filter_app, (filter_none _ _ _ Ho);
    cbn [filter app]; rewrite He; reflexivity.
Qed.

Lemma select_where_last t k v row others p s :
  dbFault p (queries s) = None ->
  rows (table t (db s)) = (others ++ [row])%list ->
  Db.exists_with k v others = false -> Db.eq k v row = true ->
  fst (Db.select_where t (Db.eq k v) p s) = Returned [row].
Proof.
  intros Hf Hr Ho He. unfold Db.select_where, Db.statement, Db.current.
  unfold bind, get_state, ret. cbv beta iota. rewrite Hf. cbv beta iota.
  cbn [fst db count_query log_effect]. rewrite Hr, filter_app, (filter_none _ _ _ Ho).
  cbn [filter app]. rewrite He. reflexivity.
Qed.

Lemma lookup_assign_other k k' v fs :
  String.eqb k k' = false -> lookup k (assign k' v fs) = lookup k fs.
Proof.
  intros H. induction fs as [| [k0 v0] fs IH]; simpl.
  - rewrite H. reflexivity.
  - destruct (String.eqb k' k0) eqn:E; simpl.
    + apply String.eqb_eq in E. subst k0. rewrite H. reflexivity.
    + destruct (String.eqb k k0); [reflexivity | exact IH].
Qed.

Lemma or_else_null_defined a : or_else a VNull <> VUndefined.
Proof.
  unfold or_else. destruct (truthy a) eqn:E; [| discriminate].
  intros ->. discriminate E.
Qed.

(** Insert, then look up.  A project created without an [id] of its own is
    returned by [getProject] on the id it was given; a user created from
    [{username, ...}] is returned by [getUser] on its id and by
    [getUserByUsername] on its name, and its [name] is the one given or
    [null] when none, or an empty one, was given.  The look-up is made in
    the state the insert leaves, on a database that answers. *)
Theorem created_rows_are_found_again :
  forall (p : Platform) (s s' : State) (row : Value),
    dbFault p (queries s') = None ->
    (forall project,
       prop "id" project = VUndefined ->
       Storage.createProject project p s = (Returned row, s') ->
       fst (Storage.getProject (prop "id" row) p s') = Returned row)
    /\ (forall fields username,
          prop "id" (VObj fields) = VUndefined ->
          prop "username" (VObj fields) = VStr username ->
          Storage.createUser (VObj fields) p s = (Returned row, s') ->
          fst (Storage.getUser (prop "id" row) p s') = Returned row
          /\ fst (Storage.getUserByUsername (VStr username) p s') = Returned row
          /\ prop "name" row = or_else (prop "name" (VObj fields)) VNull).
Proof.
  intros p s s' row Hf. split.
  - intros project Hid. unfold Storage.createProject, bind.
    destruct (Db.insert projects project p s) as [[l | e] s1] eqn:E; [| discriminate].
    destruct (insert_returns _ _ _ _ _ _ E) as (fields & -> & Hr & Hc).
    unfold ret, Storage.first. intros [= <- <-].
    cbn [Schema.columns] in Hc.
    inversion Hc as [| c kv cols fs (K1 & K2 & K3 & K4) Hrest]; subst.
    destruct kv as [k v]. cbn [fst snd] in *. subst k.
    specialize (K3 Hid eq_refl). specialize (K4 eq_refl). subst v.
    change (prop "id" (VObj (("id", VInt (serial (table projects (db s)))) :: fs)))
      with (VInt (serial (table projects (db s)))).
    unfold Storage.getProject, bind.
    pose proof (select_by_last projects "id" (VInt (serial (table projects (db s))))
                  (VObj (("id", VInt (serial (table projects (db s)))) :: fs))
                  (rows (table projects (db s))) p s1 Hf ltac:(discriminate) Hr K4
                  (sql_eq_refl_num _)) as Hs.
    destruct (Db.select_by _ _ _ p s1) as [[r | e] s2]; cbn [fst] in Hs; [| discriminate].
    injection Hs as ->. reflexivity.
  - intros fields username Hid Hname. unfold Storage.createUser, bind.
    match goal with
    | |- context [Db.insert users ?v p s] =>
        set (values := v);
        destruct (Db.insert users values p s) as [[l | e] s1] eqn:E; [| discriminate]
    end.
    destruct (insert_returns _ _ _ _ _ _ E) as (fs & -> & Hr & Hc).
    unfold ret, Storage.first. intros [= <- <-].
    assert (Vid : prop "id" values = VUndefined).
    { unfold values, prop, spread in *. cbn [own_fields fold_left fst snd] in *.
      rewrite lookup_assign_other by reflexivity. exact Hid. }
    assert (Vun : prop "username" values = VStr username).
    { unfold values, prop, spread in *. cbn [own_fields fold_left fst snd] in *.
      rewrite lookup_assign_other by reflexivity. exact Hname. }
    assert (Vnm : prop "name" values = or_else (prop "name" (VObj fields)) VNull).
    { unfold values, prop at 1, spread. cbn [own_fields fold_left fst snd].
      rewrite lookup_assign. reflexivity. }
    cbn [Schema.columns] in Hc.
    repeat match goal with
           | H : Forall2 _ (_ :: _) _ |- _ => inversion H; clear H; subst
           | H : Forall2 _ [] _ |- _ => inversion H; clear H; subst
           end.
    repeat match goal with
           | H : filled _ _ _ _ ?kv |- _ =>
               destruct kv as [? ?]; destruct H as (? & ? & ? & ?); cbn [fst snd] in *
           end.
    subst. cbn [Schema.key Schema.id_col Schema.col Schema.not_null Schema.is_unique
                Schema.with_default] in *.
    repeat match goal with
           | H : ?a <> VUndefined -> _ |- _ =>
               first [ specialize (H ltac:(rewrite Vun; discriminate))
                     | specialize (H ltac:(rewrite Vnm; apply or_else_null_defined))
                     | clear H ]
           | H : ?a = VUndefined -> _ -> _ |- _ =>
               first [ specialize (H Vid eq_refl) | clear H ]
           | H : ?a = true -> _ |- _ =>
               first [ specialize (H eq_refl) | clear H ]
           end.
    subst. rewrite Vun in *.
    split; [| split].
    + match goal with
      | |- context [Storage.getUser ?i p s1] =>
          change i with (VInt (serial (table users (db s))))
      end.
      unfold Storage.getUser, bind.
      match goal with
      | |- context [Db.select_by users "id" ?i p s1] =>
          pose proof (select_by_last users "id" i _ _ p s1 Hf ltac:(discriminate) Hr
                        ltac:(eassumption) (sql_eq_refl_num _)) as Hs;
          destruct (Db.select_by users "id" i p s1) as [[r | e] s2];
          cbn [fst] in Hs; [| discriminate]
      end.
      injection Hs as ->. reflexivity.
    + unfold Storage.getUserByUsername, bind.
      match goal with
      | |- context [Db.select_where users ?g p s1] =>
          pose proof (select_where_last users "username" (VStr username) _ _ p s1 Hf Hr
                        ltac:(eassumption)
                        ltac:(unfold Db.eq; cbn; apply String.eqb_refl)) as Hs;
          destruct (Db.select_where users g p s1) as [[r | e] s2];
          cbn [fst] in Hs; [| discriminate]
      end.
      injection Hs as ->. reflexivity.
    + rewrite <- Vnm. reflexivity.
Qed.

Lemma created_rows_are_found_again_witness :
  exists row s',
    Storage.createProject
      (VObj [("name", VStr "docs"); ("type", VStr "web"); ("userId", VInt 1)])
      Sample.healthy (Sample.state Sample.seeded_db) = (Returned row, s')
    /\ fst (Storage.getProject (prop "id" row) Sample.healthy s') = Returned row.
Proof.
  eexists; eexists. split; [vm_compute; reflexivity |].
  match goal with
  | |- fst (Storage.getProject (prop "id" ?r) _ ?st) = _ =>
      refine (proj1 (created_rows_are_found_again Sample.healthy
                       (Sample.state Sample.seeded_db) st r eq_refl)
                    (VObj [("name", VStr "docs"); ("type", VStr "web");
                           ("userId", VInt 1)])
                    eq_refl _)
  end.
  vm_compute. reflexivity.
Defined.

Lemma table_set_other t t' x d : t <> t' -> table t (set_table t' x d) = table t d.
Proof. destruct t, t'; intros H; try reflexivity; now destruct H. Qed.

Lemma updateEnvironment_db id data p s :
  db (snd (Storage.updateEnvironment id data p s)) = db s
  \/ db (snd (Storage.updateEnvironment id data p s))
     = set_table environments
         {| rows := map (fun r => if Db.eq "id" id r
                                  then Db.apply_assignments
                                         (Db.assignments environments data) r
                                  else r)
                        (rows (t_environments (db s)));
            serial := serial (t_environments (db s)) |}
         (db s).
Proof.
  remember (db (snd (Storage.updateEnvironment id data p s))) as d eqn:Hd.
  unfold Storage.updateEnvironment, bind in Hd.
  pose proof (update_by_db environments data "id" id p s) as Hw.
  destruct (Db.update_by environments data "id" id p s) as [[[| r rs] | e] s1];
    cbn [snd throw ret] in Hd, Hw; rewrite <- Hd in Hw;
    (destruct Hw as [Hw | [_ Hw]]; [left; exact Hw | right; exact Hw]).
Qed.

(** [updateEnvironment] adds and removes no row: the environments keep their
    number, order and serial counter, every row with another id is
    unchanged, and so is every other table. *)
Theorem updateEnvironment_rewrites_rows_in_place :
  forall (id data : Value) (p : Platform) (s : State),
    let d' := db (snd (Storage.updateEnvironment id data p s)) in
    (forall t, t <> environments -> table t d' = table t (db s))
    /\ serial (t_environments d') = serial (t_environments (db s))
    /\ Forall2 (fun r r' => Db.eq "id" id r = false -> r' = r)
               (rows (t_environments (db s))) (rows (t_environments d')).
Proof.
  intros id data p s d'. subst d'.
  destruct (updateEnvironment_db id data p s) as [-> | ->].
  - split; [reflexivity |]. split; [reflexivity |].
    induction (rows (t_environments (db s))); constructor; auto.
  - split; [intros t Ht; apply table_set_other; exact Ht |].
    split; [reflexivity |]. cbn [t_environments set_table rows].
    induction (rows (t_environments (db s))) as [| r l IH]; simpl; constructor; [| exact IH].
    intros ->. reflexivity.
Qed.


Lemma before_desc_trans a b c :
  Db.before_desc a b = true -> Db.before_desc b c = true -> Db.before_desc a c = true.
Proof.
  destruct a as [x |], b as [y |], c as [z |]; simpl; try congruence.
  rewrite !Z.leb_le. lia.
Qed.

Lemma before_desc_total a b :
  Db.before_desc a b = false -> Db.before_desc b a = true.
Proof.
  destruct a as [x |], b as [y |]; simpl; try congruence.
  rewrite Z.leb_le, Z.leb_gt. lia.
Qed.

Lemma insert_desc_In k r l x : In x (Db.insert_desc k r l) <-> x = r \/ In x l.
Proof.
  induction l as [| y l IH]; simpl.
  - intuition congruence.
  - destruct (Db.before_desc _ _); simpl; rewrite ?IH; intuition congruence.
Qed.

Lemma insert_desc_length k r l :
  List.length (Db.insert_desc k r l) = S (List.length l).
Proof.
  induction l as [| y l IH]; simpl; [reflexivity |].
  destruct (Db.before_desc _ _); simpl; congruence.
Qed.

Lemma insert_desc_sorted k r l :
  newest_first k l -> newest_first k (Db.insert_desc k r l).
Proof.
  induction l as [| y l IH]; simpl.
  - intros _. split; [constructor | exact I].
  - intros [Hy Hl].
    destruct (Db.before_desc (Db.sort_key k r) (Db.sort_key k y)) eqn:E.
    + split; [| split; assumption].
      constructor; [exact E |].
      apply Forall_forall. intros z Hz.
      eapply before_desc_trans; [exact E |].
      exact (proj1 (Forall_forall _ _) Hy z Hz).
    + split; [| exact (IH Hl)].
      apply Forall_forall. intros z Hz. apply insert_desc_In in Hz.
      destruct Hz as [-> | Hz].
      * apply before_desc_total. exact E.
      * exact (proj1 (Forall_forall _ _) Hy z Hz).
Qed.

Lemma order_desc_In k l x : In x (Db.order_desc k l) <-> In x l.
Proof.
  unfold Db.order_desc. induction l as [| y l IH]; simpl; [reflexivity |].
  rewrite insert_desc_In, IH. intuition congruence.
Qed.

Lemma order_desc_length k l : List.length (Db.order_desc k l) = List.length l.
Proof.
  unfold Db.order_desc. induction l as [| y l IH]; simpl; [reflexivity |].
  rewrite insert_desc_length, IH. reflexivity.
Qed.

Lemma order_desc_sorted k l : newest_first k (Db.order_desc k l).
Proof.
  unfold Db.order_desc. induction l as [| y l IH]; simpl; [exact I |].
  apply insert_desc_sorted. exact IH.
Qed.

Lemma firstn_In A n (l : list A) x : In x (firstn n l) -> In x l.
Proof.
  intros H. rewrite <- (firstn_skipn n l). apply in_or_app. left. exact H.
Qed.

Lemma Qred_inject_Z n : Qred (inject_Z n) = inject_Z n.
Proof.
  unfold Qred, inject_Z.
  pose proof (Z.ggcd_gcd n 1) as Hg. pose proof (Z.ggcd_correct_divisors n 1) as Hd.
  change (Z.pos 1) with 1.
  destruct (Z.ggcd n 1) as [g [aa bb]]. cbn [fst] in Hg.
  rewrite Z.gcd_1_r in Hg. subst g. destruct Hd as [Ha Hb].
  rewrite Z.mul_1_l in Ha, Hb. subst aa bb. reflexivity.
Qed.

Lemma firstn_sorted k n l : newest_first k l -> newest_first k (firstn n l).
Proof.
  revert l. induction n as [| n IH]; intros [| x l]; simpl; auto.
  intros [Hx Hl]. split; [| exact (IH l Hl)].
  apply Forall_forall. intros z Hz. apply firstn_In in Hz.
  exact (proj1 (Forall_forall _ _) Hx z Hz).
Qed.

Lemma sorted_app k a b :
  newest_first k (a ++ b)%list ->
  forall x y, In x a -> In y b -> Db.before_desc (Db.sort_key k x) (Db.sort_key k y) = true.
Proof.
  induction a as [| z a IH]; simpl; [contradiction |].
  intros [Hz Ha] x y [-> | Hx] Hy.
  - apply (proj1 (Forall_forall _ _) Hz). apply in_or_app. right. exact Hy.
  - exact (IH Ha x y Hx Hy).
Qed.

Lemma firstn_order_desc_newest k n l :
  newest k n l (firstn n (Db.order_desc k l)).
Proof.
  unfold newest. split; [| split; [| split]].
  - rewrite length_firstn, order_desc_length. reflexivity.
  - intros x Hx. apply firstn_In in Hx. apply order_desc_In in Hx. exact Hx.
  - apply firstn_sorted, order_desc_sorted.
  - exists (skipn n (Db.order_desc k l)). split.
    + intros x. rewrite <- in_app_iff, firstn_skipn, order_desc_In. reflexivity.
    + apply sorted_app. rewrite firstn_skipn. apply order_desc_sorted.
Qed.

(** On a database that answers, [getActivities()] returns the 20 most recent
    activities and [getActivities(n)] the [n] most recent, newest first;
    [getRecentProjects(userId, n)] the [n] most recent projects of that
    user; [getLogs] all logs, newest first.  When fewer rows exist all of
    them are returned. *)
Theorem listings_return_the_newest_rows :
  forall (p : Platform) (s : State),
    dbFault p (queries s) = None ->
    (exists r, fst (Storage.getActivities VUndefined p s) = Returned (VArr r)
               /\ newest "timestamp" 20 (rows (t_activities (db s))) r)
    /\ (forall n, 0 <= n ->
          exists r, fst (Storage.getActivities (VInt n) p s) = Returned (VArr r)
                    /\ newest "timestamp" (Z.to_nat n) (rows (t_activities (db s))) r)
    /\ (forall uid n, 0 <= n ->
          exists r, fst (Storage.getRecentProjects uid (VInt n) p s) = Returned (VArr r)
                    /\ newest "createdAt" (Z.to_nat n)
                              (filter (Db.eq "userId" uid) (rows (t_projects (db s)))) r)
    /\ (exists r, fst (Storage.getLogs p s) = Returned (VArr r)
                  /\ newest "timestamp" (List.length (rows (t_logs (db s))))
                            (rows (t_logs (db s))) r).
Proof.
  intros p s Hf.
  assert (Hlim : forall n l st, 0 <= n ->
            Db.limit (VInt n) l p st = (Returned (firstn (Z.to_nat n) l), st)).
  { intros n l st Hn. unfold Db.limit, VInt, is_integer.
    rewrite Qred_inject_Z. cbn [Qden Qnum inject_Z Pos.eqb andb].
    destruct (Z.leb_spec 0 n); [reflexivity | lia]. }
  assert (Hall : forall t (f : Value -> bool),
            Db.select_where t f p s
            = (Returned (filter f (rows (table t (db s)))),
               count_query (log_effect (DbQuery (Select t)) s))).
  { intros t f. unfold Db.select_where, Db.statement, Db.current, bind, get_state, ret.
    rewrite Hf. reflexivity. }
  assert (Hid : forall l : list Value, filter (fun _ => true) l = l).
  { induction l as [| x l IH]; simpl; congruence. }
  split; [| split; [| split]].
  - change (Storage.getActivities VUndefined)
      with (r <- Db.select_all activities ;;
            r' <- Db.limit (VInt 20) (Db.order_desc "timestamp" r) ;; ret (VArr r')).
    unfold Db.select_all, bind. rewrite Hall.
    rewrite (Hlim 20) by lia. eexists. split; [reflexivity |].
    rewrite Hid. apply (firstn_order_desc_newest "timestamp" 20).
  - intros n Hn.
    change (Storage.getActivities (VInt n))
      with (r <- Db.select_all activities ;;
            r' <- Db.limit (VInt n) (Db.order_desc "timestamp" r) ;; ret (VArr r')).
    unfold Db.select_all, bind. rewrite Hall.
    rewrite (Hlim n) by exact Hn. eexists. split; [reflexivity |].
    rewrite Hid. apply firstn_order_desc_newest.
  - intros uid n Hn. unfold Storage.getRecentProjects, bind. rewrite Hall.
    rewrite (Hlim n) by exact Hn. eexists. split; [reflexivity |].
    apply firstn_order_desc_newest.
  - unfold Storage.getLogs, Db.select_all, bind. rewrite Hall.
    eexists. split; [reflexivity |]. rewrite Hid.
    rewrite <- (firstn_all (Db.order_desc "timestamp" (rows (table logs (db s))))) at 1.
    rewrite order_desc_length. apply firstn_order_desc_newest.
Qed.


Lemma listings_return_the_newest_rows_witness :
  exists r,
    fst (Storage.getRecentProjects (VInt 1) (VInt 5) Sample.healthy
                                   (Sample.state Sample.seeded_db))
    = Returned (VArr r)
    /\ newest "createdAt" 5
              (filter (Db.eq "userId" (VInt 1)) (rows (t_projects Sample.seeded_db))) r.
Proof.
  exact (proj1 (proj2 (proj2 (listings_return_the_newest_rows
                                Sample.healthy (Sample.state Sample.seeded_db) eq_refl)))
               (VInt 1) 5 ltac:(discriminate)).
Defined.

(** ** Code blocks in a reply *)

Import Markdown.

Example extract_samples :
  map extractCodeFromMarkdown
      [ "plain text";
        "see ```js" ++ String newline "let x = 1;```";
        "a ```" ++ String newline "one``` b ```py" ++ String newline "two``` c";
        "```js let x```";
        "```js" ++ String newline "```";
        "````" ++ String newline "x```" ]
  = [ "plain text"; "let x = 1;"; "one" ++ String newline (String newline "two");
      "```js let x```"; "```js" ++ String newline "```"; "x" ].
Proof. vm_compute. reflexivity. Qed.

(* ---- vocabulary ---- *)

(* ---- properties ---- *)

Lemma matchAll_without_fence s :
  hasCodeBlock s = false -> forall skip, matchAll s skip = [].
Proof.
  induction s as [| c r IH]; intros H skip; [reflexivity |].
  cbn [hasCodeBlock] in H. apply orb_false_iff in H. destruct H as [H1 H2].
  cbn [matchAll]. destruct skip as [| k]; [| exact (IH H2 k)].
  assert (E : block_at (String c r) = None).
  { unfold block_at. unfold at_fence in H1.
    destruct r as [| b [| d r]]; try reflexivity. rewrite H1. reflexivity. }
  rewrite E. exact (IH H2 0%nat).
Qed.

Lemma matchAll_skip a b : matchAll (a ++ b) (String.length a) = matchAll b 0.
Proof. induction a as [| c a IH]; [reflexivity | exact IH]. Qed.

Lemma length_append a b : String.length (a ++ b) = (String.length a + String.length b)%nat.
Proof. induction a as [| x a IH]; simpl; congruence. Qed.

Lemma skip_word_tag lang rest :
  all_word lang = true -> skip_word (lang ++ String newline rest) = String newline rest.
Proof.
  induction lang as [| c lang IH]; intros H; [reflexivity |].
  cbn [all_word] in H. apply andb_prop in H. destruct H as [H1 H2].
  cbn [append skip_word]. rewrite H1. exact (IH H2).
Qed.

Lemma until_fence_code code rest :
  has_char backtick code = false -> until_fence (code ++ fence ++ rest) = Some code.
Proof.
  induction code as [| c code IH]; intros H; [reflexivity |].
  cbn [has_char] in H. apply orb_false_iff in H. destruct H as [H1 H2].
  cbn [append until_fence].
  assert (E : at_fence (String c (code ++ fence ++ rest)) = false).
  { unfold at_fence. destruct (code ++ fence ++ rest) as [| b [| d r]]; try reflexivity.
    rewrite H1. reflexivity. }
  rewrite E, (IH H2). reflexivity.
Qed.

Lemma no_block_before_a_backtick a b c rest :
  block_at (String a (String b (String c (String backtick rest)))) = None.
Proof.
  unfold block_at.
  destruct (Ascii.eqb a backtick && Ascii.eqb b backtick && Ascii.eqb c backtick)%bool;
    [| reflexivity].
  change (skip_word (String backtick rest)) with (String backtick rest).
  cbv zeta. destruct rest; reflexivity.
Qed.

(** Before the opening fence no match can start: three backticks that reach
    into the fence are followed by a backtick. *)
Lemma block_at_before_fence c pre rest :
  hasCodeBlock (String c pre) = false ->
  block_at (String c pre ++ fence ++ rest) = None.
Proof.
  intros H. cbn [hasCodeBlock] in H. apply orb_false_iff in H. destruct H as [H1 _].
  unfold at_fence in H1.
  destruct pre as [| b [| d pre]]; cbn [append fence] in *.
  - apply no_block_before_a_backtick.
  - apply no_block_before_a_backtick.
  - unfold block_at. rewrite H1. reflexivity.
Qed.

Lemma block_at_fenced lang c1 code rest :
  all_word lang = true -> has_char backtick code = false ->
  block_at (fence ++ lang ++ String newline (String c1 code ++ fence ++ rest))
  = Some (String c1 code,
          (3 + String.length lang + 1 + S (String.length code) + 3)%nat).
Proof.
  intros Hlang Hbt. unfold fence at 1. cbn [append]. unfold block_at.
  change (Ascii.eqb "`" backtick) with true. cbn [andb].
  rewrite (skip_word_tag lang _ Hlang). cbv zeta.
  rewrite Ascii.eqb_refl, (until_fence_code code rest Hbt).
  rewrite length_append. cbn [String.length].
  repeat f_equal. lia.
Qed.

Lemma matchAll_fenced lang c1 code post :
  all_word lang = true -> has_char backtick code = false ->
  matchAll (fence ++ lang ++ String newline (String c1 code ++ fence ++ post)) 0
  = String c1 code :: matchAll post 0.
Proof.
  intros Hlang Hbt.
  pose proof (block_at_fenced lang c1 code post Hlang Hbt) as B.
  unfold fence at 1 in B. unfold fence at 1.
  cbn [append] in B. cbn [append]. cbn [matchAll]. rewrite B. f_equal.
  replace (3 + String.length lang + 1 + S (String.length code) + 3 - 1)%nat
    with (String.length ("``" ++ lang ++ String newline (String c1 code ++ fence)))
    by (rewrite !length_append; cbn [String.length]; rewrite length_append;
        cbn [String.length fence]; lia).
  rewrite <- (matchAll_skip ("``" ++ lang ++ String newline (String c1 code ++ fence)) post).
  f_equal. rewrite !append_assoc. cbn [append]. rewrite !append_assoc. reflexivity.
Qed.

(** [extractCodeFromMarkdown] returns a text without three backticks in a
    row (one for which [hasCodeBlock] is false) unchanged, and returns the
    code of a text holding one fenced block: what stands between the line
    break after the opening fence (and its optional language tag) and the
    closing fence, without the surrounding text. *)
Theorem extract_returns_the_fenced_code :
  (forall markdown,
     hasCodeBlock markdown = false -> extractCodeFromMarkdown markdown = markdown)
  /\ (forall pre lang code post,
        hasCodeBlock pre = false -> hasCodeBlock post = false ->
        all_word lang = true -> code <> "" -> has_char backtick code = false ->
        extractCodeFromMarkdown (pre ++ fenced lang code ++ post) = code).
Proof.
  split.
  - intros markdown H. unfold extractCodeFromMarkdown.
    rewrite (matchAll_without_fence markdown H). reflexivity.
  - intros pre lang code post Hpre Hpost Hlang Hcode Hbt.
    destruct code as [| c1 code]; [now destruct Hcode |].
    cbn [has_char] in Hbt. apply orb_false_iff in Hbt. destruct Hbt as [_ Hbt].
    assert (E : fenced lang (String c1 code) ++ post
                = fence ++ lang ++ String newline (String c1 code ++ fence ++ post)).
    { unfold fenced. rewrite !append_assoc. cbn [append].
      rewrite !append_assoc. reflexivity. }
    assert (M : matchAll (pre ++ fenced lang (String c1 code) ++ post) 0
                = [String c1 code]).
    { rewrite E. induction pre as [| c pre IH].
      - change ("" ++ ?x) with x.
        rewrite (matchAll_fenced lang c1 code post Hlang Hbt).
        rewrite (matchAll_without_fence post Hpost). reflexivity.
      - change (String c pre ++ ?x) with (String c (pre ++ x)).
        cbn [matchAll].
        change (String c (pre ++ fence ++ lang ++ String newline (String c1 code ++ fence ++ post)))
          with (String c pre ++ fence ++ lang ++ String newline (String c1 code ++ fence ++ post)).
        rewrite (block_at_before_fence c pre _ Hpre).
        apply IH. cbn [hasCodeBlock] in Hpre. apply orb_false_iff in Hpre. tauto. }
    unfold extractCodeFromMarkdown. rewrite M. reflexivity.
Qed.

Lemma extract_returns_the_fenced_code_witness :
  extractCodeFromMarkdown ("Here it is: " ++ fenced "js" "let x = 1;" ++ " Done.")
  = "let x = 1;".
Proof.
  exact (proj2 extract_returns_the_fenced_code "Here it is: " "js" "let x = 1;" " Done."
               eq_refl eq_refl eq_refl ltac:(discriminate) eq_refl).
Defined.

(** ** The log page *)

Import LogsPage.

Lemma totalPages_div l : totalPages l = (Z.of_nat (List.length l) + 9) / 10.
Proof.
  unfold totalPages, Math_ceil, Qceiling, logsPerPage.
  set (n := Z.of_nat (List.length l)).
  unfold Qdiv, Qinv, inject_Z, Qmult, Qopp, Qfloor. simpl.
  rewrite Z.mul_1_r.
  assert (Hn : 0 <= n) by (unfold n; lia).
  Z.div_mod_to_equations. lia.
Qed.

Lemma slice_of_page {A} (l : list A) a b :
  0 <= a <= b ->
  Array_slice l a b = firstn (Z.to_nat (b - a)) (skipn (Z.to_nat a) l).
Proof.
  intros H. unfold Array_slice, relative_index. cbv zeta.
  destruct (Z.ltb_spec a 0); [lia |]. destruct (Z.ltb_spec b 0); [lia |].
  set (len := Z.of_nat (List.length l)).
  destruct (Z.le_gt_cases len a) as [Ha | Ha].
  - rewrite !skipn_all2 by (unfold len in *; lia). now rewrite !firstn_nil.
  - rewrite (Z.min_l a len) by lia.
    destruct (Z.le_gt_cases b len) as [Hb | Hb].
    + rewrite (Z.min_l b len) by lia. reflexivity.
    + rewrite (Z.min_r b len) by lia.
      rewrite !firstn_all2; [reflexivity | |]; rewrite length_skipn; unfold len in *; lia.
Qed.

Lemma chunks_concat {A} (l : list A) : forall m : nat,
  (List.length l <= 10 * m)%nat ->
  concat (map (fun k => firstn 10 (skipn (10 * k) l)) (seq 0 m)) = l.
Proof.
  intros m. revert l. induction m as [| m IH]; intros l H.
  - destruct l; [reflexivity | simpl in H; lia].
  - cbn [seq map concat]. rewrite <- seq_shift, map_map.
    change (skipn (10 * 0) l) with l.
    transitivity (firstn 10 l ++ skipn 10 l)%list; [| apply firstn_skipn].
    f_equal.
    rewrite <- (IH (skipn 10 l)) by (rewrite length_skipn; lia).
    f_equal. apply map_ext. intros k.
    rewrite skipn_skipn. f_equal. f_equal. lia.
Qed.

(** The pages of the log table, read in order, are the filtered list: no log
    is shown twice or left out.  For a page between 1 and the number of
    pages the rows shown are those the footer announces ("Showing first to
    last"), at least one and at most ten; a page beyond the last one, as
    left behind by a narrower search, is empty. *)
Theorem log_pages_partition_the_list :
  forall (filteredLogs : list Value),
    concat (map (fun k => paginatedLogs filteredLogs (Z.of_nat k))
                (seq 1 (Z.to_nat (totalPages filteredLogs))))
    = filteredLogs
    /\ (forall page, 1 <= page <= totalPages filteredLogs ->
          let '(first, last, total) := showing filteredLogs page in
          paginatedLogs filteredLogs page
          = firstn (Z.to_nat (last - first + 1)) (skipn (Z.to_nat (first - 1)) filteredLogs)
          /\ 1 <= last - first + 1 <= 10
          /\ Z.of_nat (List.length (paginatedLogs filteredLogs page)) = last - first + 1)
    /\ (forall page, totalPages filteredLogs < page -> paginatedLogs filteredLogs page = []).
Proof.
  intros l. pose proof (totalPages_div l) as HT.
  set (n := Z.of_nat (List.length l)) in *.
  assert (Hn : 0 <= n) by (unfold n; lia).
  assert (Hpage : forall page, 1 <= page ->
            paginatedLogs l page = firstn 10 (skipn (Z.to_nat ((page - 1) * 10)) l)).
  { intros page Hp. unfold paginatedLogs, logsPerPage.
    rewrite slice_of_page by lia. f_equal. lia. }
  split; [| split].
  - rewrite <- seq_shift, map_map.
    rewrite <- (chunks_concat l (Z.to_nat (totalPages l))) at 2.
    + f_equal. apply map_ext. intros k. rewrite Hpage by lia.
      f_equal. f_equal. lia.
    + rewrite HT. fold n. unfold n in *. Z.div_mod_to_equations. lia.
  - intros page Hp. unfold showing, logsPerPage. fold n.
    rewrite Hpage by lia. rewrite HT in Hp.
    assert (Hlo : (page - 1) * 10 < n) by (Z.div_mod_to_equations; lia).
    split; [| split].
    + replace ((page - 1) * 10 + 1 - 1) with ((page - 1) * 10) by lia.
      destruct (Z.le_gt_cases (page * 10) n) as [Hb | Hb].
      * rewrite Z.min_l by lia. f_equal. lia.
      * rewrite Z.min_r by lia.
        rewrite !firstn_all2; [reflexivity | |]; rewrite length_skipn; unfold n in *; lia.
    + lia.
    + rewrite length_firstn, length_skipn. unfold n in *. lia.
  - intros page Hp. rewrite HT in Hp.
    rewrite Hpage by (Z.div_mod_to_equations; lia).
    rewrite skipn_all2; [apply firstn_nil |].
    unfold n in *. Z.div_mod_to_equations. lia.
Qed.

Lemma log_pages_partition_the_list_witness :
  paginatedLogs (repeat VNull 25) 3 = repeat VNull 5
  /\ paginatedLogs (repeat VNull 25) 4 = [].
Proof.
  split.
  - exact (proj1 (proj1 (proj2 (log_pages_partition_the_list (repeat VNull 25))) 3
                        ltac:(vm_compute; split; discriminate))).
  - exact (proj2 (proj2 (log_pages_partition_the_list (repeat VNull 25))) 4
                 ltac:(vm_compute; reflexivity)).
Defined.

Lemma pageButtons_few l currentPage :
  totalPages l <= 5 ->
  pageButtons l currentPage
  = map (fun i => Z.of_nat i + 1) (seq 0 (Z.to_nat (totalPages l))).
Proof.
  intros H. unfold pageButtons. rewrite Z.min_l by exact H.
  apply map_ext. intros i. unfold pageNum.
  destruct (Z.gtb_spec (totalPages l) 5); [lia | reflexivity].
Qed.

Lemma pageButtons_many l currentPage :
  5 < totalPages l ->
  pageButtons l currentPage
  = [ pageNum l currentPage 0; pageNum l currentPage 1; pageNum l currentPage 2;
      pageNum l currentPage 3; pageNum l currentPage 4 ].
Proof.
  intros H. unfold pageButtons. rewrite Z.min_r by lia. reflexivity.
Qed.

Ltac page_cases T :=
  unfold pageNum; fold T;
  repeat match goal with
         | |- context [?a >? ?b] => destruct (Z.gtb_spec a b)
         end.

(** The page buttons of the log table, for a current page between 1 and the
    number of pages [T]: every button names an existing page and the
    current page is among them; with at most five pages, or when the
    current page is at least two pages before the last, no number is
    repeated.  With more than five pages, on the last page and on the one
    before it the window repeats numbers: [T-2, T-1, T, T-1, T] and
    [T-3, T-2, T-1, T, T]. *)
Theorem page_buttons_stay_in_range_but_may_repeat :
  forall (filteredLogs : list Value) (currentPage : Z),
    let T := totalPages filteredLogs in
    1 <= currentPage <= T ->
    Forall (fun n => 1 <= n <= T) (pageButtons filteredLogs currentPage)
    /\ In currentPage (pageButtons filteredLogs currentPage)
    /\ (T <= 5 \/ currentPage + 2 <= T -> NoDup (pageButtons filteredLogs currentPage))
    /\ (5 < T -> T = currentPage + 1 ->
        pageButtons filteredLogs currentPage = [T - 3; T - 2; T - 1; T; T])
    /\ (5 < T -> T = currentPage ->
        pageButtons filteredLogs currentPage = [T - 2; T - 1; T; T - 1; T]).
Proof.
  intros l cur T Hc.
  destruct (Z.le_gt_cases T 5) as [Hs | Hb].
  - rewrite (pageButtons_few l cur Hs). fold T.
    assert (HT : T = 1 \/ T = 2 \/ T = 3 \/ T = 4 \/ T = 5) by lia.
    split; [| split; [| split; [| split]]]; try lia.
    + destruct HT as [-> | [-> | [-> | [-> | ->]]]]; simpl; repeat constructor; lia.
    + destruct HT as [-> | [-> | [-> | [-> | ->]]]]; simpl; lia.
    + intros _.
      destruct HT as [-> | [-> | [-> | [-> | ->]]]]; simpl;
        repeat (constructor; [simpl; lia |]); constructor.
  - rewrite (pageButtons_many l cur Hb). fold T.
    split; [| split; [| split; [| split]]].
    + repeat constructor; page_cases T; lia.
    + simpl. page_cases T; lia.
    + intros [H | H]; [lia |].
      repeat (constructor; [simpl; page_cases T; lia |]). constructor.
    + intros _ E. repeat f_equal; page_cases T; lia.
    + intros _ E. repeat f_equal; page_cases T; lia.
Qed.

Lemma page_buttons_stay_in_range_but_may_repeat_witness :
  pageButtons (repeat VNull 51) 6 = [4; 5; 6; 5; 6].
Proof.
  exact (proj2 (proj2 (proj2 (proj2
           (page_buttons_stay_in_range_but_may_repeat (repeat VNull 51) 6
              ltac:(vm_compute; split; discriminate)))))
         ltac:(vm_compute; reflexivity) ltac:(vm_compute; reflexivity)).
Defined.

(** ** Requests of the client that no route takes *)

Lemma unmatched_by_every_route storage req v segs :
  (verb req, path req) = (v, segs) ->
  forallb (fun r => match matches r {| verb := v; path := segs; isAuthenticated := true;
                                       req_user := VUndefined; body := VUndefined;
                                       query := VUndefined; params := VUndefined;
                                       part := None; file := VUndefined |} with
                    | None => true
                    | Some _ => false
                    end) (routes storage) = true ->
  forall r, In r (routes storage) -> matches r req = None.
Proof.
  intros [= Hv Hp] H r Hin.
  apply (proj1 (forallb_forall _ _) H) in Hin.
  unfold matches in *. cbn [verb path] in Hin. rewrite Hv, Hp.
  destruct (verb_eqb (r_verb r) v); [| reflexivity].
  destruct (match_path (r_path r) segs); [discriminate | reflexivity].
Qed.

(** Three requests the client sends that no route of the table takes: the
    deploy button of an environment card
    ([POST /api/environments/<id>/deploy]) and the two settings forms
    ([POST /api/settings/apikeys], [POST /api/settings/notifications]).
    The router leaves them unhandled and the state unchanged. *)
Theorem client_requests_without_a_route :
  forall (storage : Object) (req : Request) (p : Platform) (s : State),
    (exists id, (verb req, path req) = EnvironmentCard.deploy id)
    \/ (verb req, path req) = Settings.saveApiKeys
    \/ (verb req, path req) = Settings.saveNotifications ->
    (forall r, In r (routes storage) -> matches r req = None)
    /\ dispatch (routes storage) req p s = (Returned Unhandled, s).
Proof.
  intros storage req p s H.
  assert (Hnone : forall r, In r (routes storage) -> matches r req = None).
  { destruct H as [[id H] | [H | H]].
    - unfold EnvironmentCard.deploy in H. injection H as Hv Hp.
      intros r Hin. unfold matches. rewrite Hv, Hp.
      unfold routes in Hin. simpl in Hin.
      repeat (destruct Hin as [<- | Hin]; [reflexivity |]). contradiction.
    - eapply unmatched_by_every_route; [exact H | reflexivity].
    - eapply unmatched_by_every_route; [exact H | reflexivity]. }
  split; [exact Hnone | apply dispatch_without_match; exact Hnone].
Qed.

Lemma client_requests_without_a_route_witness :
  dispatch registerRoutes
           (Sample.request POST ["api"; "environments"; "1"; "deploy"] true (VObj []))
           Sample.healthy (Sample.state Sample.seeded_db)
  = (Returned Unhandled, Sample.state Sample.seeded_db).
Proof.
  exact (proj2 (client_requests_without_a_route
                  (Multer.as_object diskStorage)
                  (Sample.request POST ["api"; "environments"; "1"; "deploy"] true (VObj []))
                  Sample.healthy (Sample.state Sample.seeded_db)
                  (or_introl (ex_intro _ 1 eq_refl)))).
Defined.

(* ===================================================================== *)
(** * The project filter of the deployments page *)
(* ===================================================================== *)

Import DeploymentsPage.

Lemma Array_filter_total pred l :
  (forall x, In x l -> exists b, pred x = Returned b) ->
  exists r, Array_filter pred l = Returned r
            /\ forall x, In x r <-> In x l /\ pred x = Returned true.
Proof.
  induction l as [| x l IH]; intros H.
  - exists []. split; [reflexivity |]. simpl. tauto.
  - destruct (H x (or_introl eq_refl)) as [b Hb].
    destruct IH as (r & Hr & Hin); [intros y Hy; apply H; right; exact Hy |].
    cbn [Array_filter]. rewrite Hb. cbn [and_then]. rewrite Hr. cbn [and_then].
    eexists. split; [reflexivity |].
    intros y. destruct b; cbn [In]; rewrite Hin; split.
    + intros [<- | [H1 H2]]; [split; [left; reflexivity | exact Hb] | tauto].
    + intros [[<- | H1] H2]; [left; reflexivity | right; tauto].
    + intros [H1 H2]. tauto.
    + intros [[<- | H1] H2]; [congruence | tauto].
Qed.

Lemma Array_filter_throws pred l x e :
  In x l -> pred x = Thrown e -> exists e', Array_filter pred l = Thrown e'.
Proof.
  induction l as [| y l IH]; intros Hin Hx; [contradiction |].
  cbn [Array_filter]. destruct (pred y) as [b | e0] eqn:Ey; [| eexists; reflexivity].
  cbn [and_then]. destruct Hin as [-> | Hin]; [congruence |].
  destruct (IH Hin Hx) as [e' ->]. eexists. reflexivity.
Qed.

Lemma to_string_VInt p id :
  Z.abs id < 10 ^ 21 -> to_string p (VInt id) = string_of_Z id.
Proof.
  intros H. unfold to_string, VInt, is_integer. rewrite Qred_inject_Z.
  cbn [Qden Qnum inject_Z Pos.eqb andb].
  destruct (Z.ltb_spec (Z.abs id) (10 ^ 21)); [reflexivity | lia].
Qed.

(** With "all" selected the deployments page shows every deployment.  With
    a project selected the filter reads [projectId.toString()] of each row:
    when every deployment has a project, exactly those are kept whose
    project id, written in decimal, is the selected value; when some
    deployment has no project ([project_id] may be NULL) the filter throws
    instead of returning a list. *)
Theorem deployment_filter_needs_a_project_on_every_row :
  forall (p : Platform) (deployments : list Value) (projectFilter : string),
    (exists r, filteredDeployments p "all" deployments = Returned r
               /\ forall d, In d r <-> In d deployments)
    /\ (projectFilter <> "all" ->
        (exists d, In d deployments /\ prop "projectId" d = VNull) ->
        exists e, filteredDeployments p projectFilter deployments = Thrown e)
    /\ (projectFilter <> "all" ->
        (forall d, In d deployments ->
           exists id, prop "projectId" d = VInt id /\ Z.abs id < 10 ^ 21) ->
        exists r, filteredDeployments p projectFilter deployments = Returned r
                  /\ forall d, In d r <->
                       In d deployments
                       /\ exists id, prop "projectId" d = VInt id
                                     /\ string_of_Z id = projectFilter).
Proof.
  intros p l projectFilter. split; [| split].
  - destruct (Array_filter_total (selected p "all") l) as (r & Hr & Hin);
      [intros x _; exists true; reflexivity |].
    exists r. split; [exact Hr |]. intros d. rewrite Hin. unfold selected. simpl. tauto.
  - intros Hf (d & Hd & Hn).
    apply (Array_filter_throws _ l d
             (TypeError "Cannot read properties of null (reading 'toString')") Hd).
    unfold selected. destruct (String.eqb_spec projectFilter "all"); [contradiction |].
    rewrite Hn. reflexivity.
  - intros Hf Hall.
    assert (Hsel : forall d id, prop "projectId" d = VInt id -> Z.abs id < 10 ^ 21 ->
              selected p projectFilter d
              = Returned (String.eqb (string_of_Z id) projectFilter)).
    { intros d id Hid Hb. unfold selected.
      destruct (String.eqb_spec projectFilter "all"); [contradiction |].
      rewrite Hid, (to_string_VInt p id Hb). reflexivity. }
    destruct (Array_filter_total (selected p projectFilter) l) as (r & Hr & Hin).
    { intros d Hd. destruct (Hall d Hd) as (id & Hid & Hb).
      eexists. exact (Hsel d id Hid Hb). }
    exists r. split; [exact Hr |]. intros d. rewrite Hin. split.
    + intros [Hd Hs]. split; [exact Hd |].
      destruct (Hall d Hd) as (id & Hid & Hb). exists id. split; [exact Hid |].
      rewrite (Hsel d id Hid Hb) in Hs. injection Hs as Hs.
      apply String.eqb_eq. exact Hs.
    + intros [Hd (id & Hid & Hs)]. split; [exact Hd |].
      destruct (Hall d Hd) as (id' & Hid' & Hb).
      rewrite (Hsel d id' Hid' Hb). rewrite Hid in Hid'.
      assert (id = id') as <-.
      { unfold VInt in Hid'. injection Hid' as Hq. exact Hq. }
      f_equal. apply String.eqb_eq. exact Hs.
Qed.

Lemma deployment_filter_needs_a_project_on_every_row_witness :
  exists e, filteredDeployments Sample.healthy "7" sample_deployments = Thrown e.
Proof.
  refine (proj1 (proj2 (deployment_filter_needs_a_project_on_every_row
                          Sample.healthy sample_deployments "7")) _ _).
  - discriminate.
  - eexists. split; [right; left; reflexivity | reflexivity].
Defined.
